(** * migrate_tool: a shallow embedding of [migrate_tool.py]

    The development follows the Python module top-down:

    - [PyStr]: the [str] methods the module calls ([lower], [endswith],
      [join], [zfill], [repr], [int], [str]);
    - [PyUnicode]: [repr] and the reading of a string literal over all of
      Unicode, a [str] being the sequence of its code points;
    - [PosixPath]: the functions of [os.path] it calls;
    - [TextIO] and [Csv]: text files and the record reader of the [csv]
      module, for its default dialect;
    - [Os]: a file system (a finite map from path to node) with the
      calls [os.makedirs], [os.path.exists], [shutil.copy], [open];
    - [Tool]: [migrate], [migrate_csv], [migrate_excel], [migrate_json]
      and [migrate_xml], in an error-and-state monad over the file system
      and the two widgets the functions touch;
    - [Spec]: the extractor and the statement generator as the
      specification words them, to compare [migrate] with;
    - [Gui]: the window, its buttons with their callbacks [load_file] and
      [qc_check], and a session as the clicks of the user.

    In the converters a Python [str] is a Rocq [string]; a character stands
    for the code point of the same number, so the text they handle here is
    the range U+0000..U+00FF.  [PyUnicode] has [repr] on every [str], and
    on that range it is the [repr] of the converters ([codes_repr]).  A path is the string the module builds, and the file
    system is keyed by these strings: paths are taken as the file dialog
    gives them, absolute and normalized, with no symbolic link.
    Exceptions are values of [exn]; an exception leaves the effects already
    performed in place.  The parsers [json.load], [pandas.read_excel] and
    [ET.parse], and the clock, are parameters ([Tool.platform]). *)

From Stdlib Require Import Ascii String NArith List Bool Lia.
From Stdlib Require Import DecimalString DecimalN DecimalFacts DecimalPos.
From stdpp Require Import base option list strings gmap fin_maps.

Local Open Scope N_scope.

(** The double quote character U+0022. *)
Definition dquote : ascii := "034"%char.
(** The single quote character U+0027. *)
Definition squote : ascii := "'"%char.
(** The backslash U+005C. *)
Definition backslash : ascii := "\"%char.
(** Line feed, carriage return, horizontal tab. *)
Definition LF : ascii := "010"%char.
Definition CR : ascii := "013"%char.
Definition TAB : ascii := "009"%char.

(** ** The [str] methods used by the module *)
Module PyStr.

(** [s[1:]] *)
Definition tail (s : string) : string :=
  match s with
  | EmptyString => EmptyString
  | String _ r => r
  end.

(** [s.endswith(suffix)] *)
Fixpoint endswith (s suffix : string) : bool :=
  if decide (s = suffix) then true
  else match s with
       | EmptyString => false
       | String _ r => endswith r suffix
       end.

(** [s.startswith(prefix)] *)
Fixpoint startswith (s prefix : string) : bool :=
  match prefix, s with
  | EmptyString, _ => true
  | String _ _, EmptyString => false
  | String a p, String b r => if decide (a = b) then startswith r p else false
  end.

(** [c in s] for a one-character [c]. *)
Fixpoint contains (c : ascii) (s : string) : bool :=
  match s with
  | EmptyString => false
  | String a r => if decide (a = c) then true else contains c r
  end.

(** [s.count(c)] for a one-character [c]. *)
Fixpoint count (c : ascii) (s : string) : nat :=
  match s with
  | EmptyString => 0%nat
  | String a r => ((if decide (a = c) then 1 else 0) + count c r)%nat
  end.

(** [c.lower()] on U+0000..U+00FF: the ASCII capitals and the Latin-1
    capitals U+00C0..U+00DE (U+00D7, the multiplication sign, apart). *)
Definition lower_char (c : ascii) : ascii :=
  let n := N_of_ascii c in
  if ((65 <=? n) && (n <=? 90))
     || ((192 <=? n) && (n <=? 222) && negb (n =? 215))
  then ascii_of_N (n + 32) else c.

(** [s.lower()] *)
Fixpoint lower (s : string) : string :=
  match s with
  | EmptyString => EmptyString
  | String c r => String (lower_char c) (lower r)
  end.

(** [sep.join(items)] *)
Fixpoint join (sep : string) (items : list string) : string :=
  match items with
  | [] => EmptyString
  | [x] => x
  | x :: rest => x +:+ sep +:+ join sep rest
  end.

(** [''.join(items)] *)
Definition concat (items : list string) : string := foldr String.app "" items.

(** [c * n] for a one-character [c]. *)
Fixpoint replicate_char (n : nat) (c : ascii) : string :=
  match n with
  | O => EmptyString
  | S k => String c (replicate_char k c)
  end.

(** [s.zfill(width)] for a string of digits (no sign to step over). *)
Definition zfill (width : nat) (s : string) : string :=
  replicate_char (width - String.length s) "0"%char +:+ s.

(** [str(n)] for a non-negative integer. *)
Definition str_of_int (n : N) : string := NilZero.string_of_uint (N.to_uint n).

(** [int(s)] for a string of decimal digits; [None] is [ValueError]. *)
Definition int_of_str (s : string) : option N :=
  match s with
  | EmptyString => None
  | _ => N.of_uint <$> NilEmpty.uint_of_string s
  end.

(** *** [repr] of a [str] *)

Definition hexdigit (n : N) : ascii :=
  if n <? 10 then ascii_of_N (48 + n) else ascii_of_N (87 + n).

(** [str.isprintable] on U+0080..U+00FF: the C1 controls, the no-break
    space U+00A0 and the soft hyphen U+00AD are not printable. *)
Definition isprintable_high (n : N) : bool :=
  (160 <? n) && negb (n =? 173).

(** The quote [repr] wraps the text in: a double quote when the text has a
    single quote and no double quote, a single quote otherwise. *)
Definition repr_quote (s : string) : ascii :=
  if contains squote s && negb (contains dquote s) then dquote else squote.

Definition repr_char (quote c : ascii) : string :=
  let n := N_of_ascii c in
  if decide (c = quote) then String backslash (String c "")
  else if decide (c = backslash) then String backslash (String backslash "")
  else if decide (c = TAB) then String backslash "t"
  else if decide (c = LF) then String backslash "n"
  else if decide (c = CR) then String backslash "r"
  else if (n <? 32) || (n =? 127) || ((127 <? n) && negb (isprintable_high n))
  then String backslash (String "x"%char (String (hexdigit (n / 16)) (String (hexdigit (n mod 16)) "")))
  else String c "".

Fixpoint repr_body (quote : ascii) (s : string) : string :=
  match s with
  | EmptyString => EmptyString
  | String c r => repr_char quote c +:+ repr_body quote r
  end.

(** [repr(s)] for a [str]. *)
Definition repr (s : string) : string :=
  let q := repr_quote s in
  String q (repr_body q s +:+ String q "").

End PyStr.

(** ** [str] over all of Unicode

    A [str] as the sequence of its code points, for [repr] and the reading
    of a string literal on every string.  Whether a character above U+007F
    is printable is a fact of the Unicode character database
    ([Py_UNICODE_ISPRINTABLE]), taken as a parameter. *)
Module PyUnicode.

(** A [str]: its code points. *)
Definition str : Type := list N.

(** [sys.maxunicode] *)
Definition maxunicode : N := 1114111.

(** Every code point is one of Unicode. *)
Definition valid (s : str) : Prop := Forall (λ c, c ≤ maxunicode) s.

Definition squote : N := 39.
Definition dquote : N := 34.
Definition backslash : N := 92.
Definition LF : N := 10.
Definition CR : N := 13.
Definition TAB : N := 9.

(** [c in s] *)
Definition contains (c : N) (s : str) : bool := existsb (N.eqb c) s.

(** [Py_hexdigits[d]] *)
Definition hexdigit (d : N) : N := if d <? 10 then 48 + d else 87 + d.

(** The [k] hexadecimal digits of [n], the most significant first. *)
Fixpoint hex_digits (k : nat) (n : N) : list N :=
  match k with
  | O => []
  | S k' => hex_digits k' (n / 16) ++ [hexdigit (n mod 16)]
  end.

(** The quote [repr] wraps the text in. *)
Definition repr_quote (s : str) : N :=
  if contains squote s && negb (contains dquote s) then dquote else squote.

(** What [repr] writes for one character. *)
Definition repr_char (isprintable : N → bool) (quote c : N) : list N :=
  if (c =? quote) || (c =? backslash) then [backslash; c]
  else if c =? TAB then [backslash; 116]
  else if c =? LF then [backslash; 110]
  else if c =? CR then [backslash; 114]
  else if (c <? 32) || (c =? 127) then backslash :: 120 :: hex_digits 2 c
  else if c <? 127 then [c]
  else if negb (isprintable c) then
    if c <=? 255 then backslash :: 120 :: hex_digits 2 c
    else if c <=? 65535 then backslash :: 117 :: hex_digits 4 c
    else backslash :: 85 :: hex_digits 8 c
  else [c].

(** [repr(s)] for a [str]. *)
Definition repr (isprintable : N → bool) (s : str) : str :=
  let q := repr_quote s in
  q :: flat_map (repr_char isprintable q) s ++ [q].

(** *** String literals *)

Definition hexval (c : N) : option N :=
  if (48 <=? c) && (c <=? 57) then Some (c - 48)
  else if (97 <=? c) && (c <=? 102) then Some (c - 87)
  else if (65 <=? c) && (c <=? 70) then Some (c - 55)
  else None.

Definition octval (c : N) : option N :=
  if (48 <=? c) && (c <=? 55) then Some (c - 48) else None.

(** The character of a code point, when there is one. *)
Definition chr (n : N) : option N :=
  if n <=? maxunicode then Some n else None.

(** The one-letter escapes. *)
Definition simple_escape (e : N) : option N :=
  if e =? backslash then Some backslash
  else if e =? squote then Some squote
  else if e =? dquote then Some dquote
  else if e =? 97 then Some 7
  else if e =? 98 then Some 8
  else if e =? 102 then Some 12
  else if e =? 110 then Some LF
  else if e =? 114 then Some CR
  else if e =? 116 then Some TAB
  else if e =? 118 then Some 11
  else None.

(** The value of a run of hexadecimal digits. *)
Fixpoint hex_number (ds : list N) (acc : N) : option N :=
  match ds with
  | [] => Some acc
  | d :: rest =>
      match hexval d with
      | Some v => hex_number rest (16 * acc + v)
      | None => None
      end
  end.

Definition cons_char (c : option N) (rest : option str) : option str :=
  match c, rest with
  | Some a, Some r => Some (a :: r)
  | _, _ => None
  end.

(** The text after the opening quote [q], up to the closing one; [triple]
    says whether the literal is triple-quoted.  An escape that names a
    character ([\N]) needs the names of the Unicode database and has no
    reading here. *)
Fixpoint parse_body (triple : bool) (q : N) (s : str) : option str :=
  match s with
  | [] => None
  | c :: r =>
      if c =? q then
        if triple then
          match r with
          | c1 :: c2 :: r2 =>
              if c1 =? q then
                if c2 =? q
                then (match r2 with [] => Some [] | _ :: _ => None end)
                else cons_char (Some c) (cons_char (Some c1) (cons_char (Some c2) (parse_body triple q r2)))
              else cons_char (Some c) (parse_body triple q r)
          | _ => cons_char (Some c) (parse_body triple q r)
          end
        else (match r with [] => Some [] | _ :: _ => None end)
      else if c =? backslash then
        match r with
        | [] => None
        | e :: r1 =>
            if e =? LF then parse_body triple q r1
            else match simple_escape e with
                 | Some ch => cons_char (Some ch) (parse_body triple q r1)
                 | None =>
                     if e =? 120 then
                       match r1 with
                       | h1 :: h2 :: r2 =>
                           cons_char (n ← hex_number [h1; h2] 0; chr n) (parse_body triple q r2)
                       | _ => None
                       end
                     else if e =? 117 then
                       match r1 with
                       | h1 :: h2 :: h3 :: h4 :: r2 =>
                           cons_char (n ← hex_number [h1; h2; h3; h4] 0; chr n)
                                     (parse_body triple q r2)
                       | _ => None
                       end
                     else if e =? 85 then
                       match r1 with
                       | h1 :: h2 :: h3 :: h4 :: h5 :: h6 :: h7 :: h8 :: r2 =>
                           cons_char (n ← hex_number [h1; h2; h3; h4; h5; h6; h7; h8] 0; chr n)
                                     (parse_body triple q r2)
                       | _ => None
                       end
                     else if e =? 78 then None
                     else match octval e with
                          | Some o1 =>
                              match r1 with
                              | e2 :: r2 =>
                                  match octval e2 with
                                  | Some o2 =>
                                      match r2 with
                                      | e3 :: r3 =>
                                          match octval e3 with
                                          | Some o3 =>
                                              cons_char (chr (64 * o1 + 8 * o2 + o3))
                                                        (parse_body triple q r3)
                                          | None =>
                                              cons_char (chr (8 * o1 + o2)) (parse_body triple q r2)
                                          end
                                      | [] =>
                                          cons_char (chr (8 * o1 + o2)) (parse_body triple q r2)
                                      end
                                  | None => cons_char (chr o1) (parse_body triple q r1)
                                  end
                              | [] => cons_char (chr o1) (parse_body triple q r1)
                              end
                          | None =>
                              (* an unknown escape stays as it is written *)
                              cons_char (Some backslash) (cons_char (Some e) (parse_body triple q r1))
                          end
                 end
        end
      else if (c =? LF) || (c =? CR) then
        if triple then cons_char (Some LF)
                         (match c =? CR, r with
                          | true, c' :: r' => if c' =? LF then parse_body triple q r'
                                              else parse_body triple q r
                          | _, _ => parse_body triple q r
                          end)
        else None
      else cons_char (Some c) (parse_body triple q r)
  end.

(** The value of a string literal. *)
Definition parse_literal (s : str) : option str :=
  match s with
  | q :: r =>
      if (q =? squote) || (q =? dquote) then
        match r with
        | c1 :: c2 :: r2 =>
            if (c1 =? q) && (c2 =? q) then parse_body true q r2
            else parse_body false q r
        | _ => parse_body false q r
        end
      else None
  | [] => None
  end.

(** The code points of a string of the range U+0000..U+00FF. *)
Definition codes (s : string) : str := List.map N_of_ascii (list_ascii_of_string s).

End PyUnicode.

(** ** [os.path] for POSIX *)
Module PosixPath.

Definition sep : ascii := "/"%char.

(** [(p[:i], p[i:])] for [i = p.rfind('/') + 1]. *)
Fixpoint rsplit_sep (p : string) : string * string :=
  match p with
  | EmptyString => (EmptyString, EmptyString)
  | String c r =>
      let '(h, t) := rsplit_sep r in
      match h with
      | EmptyString =>
          if decide (c = sep) then (String c EmptyString, t) else (EmptyString, String c t)
      | _ => (String c h, t)
      end
  end.

(** [s.rstrip('/')] *)
Fixpoint rstrip_sep (s : string) : string :=
  match s with
  | EmptyString => EmptyString
  | String c r =>
      match rstrip_sep r with
      | EmptyString => if decide (c = sep) then EmptyString else String c EmptyString
      | r' => String c r'
      end
  end.

(** [s == '/' * len(s)] *)
Fixpoint all_sep (s : string) : bool :=
  match s with
  | EmptyString => true
  | String c r => if decide (c = sep) then all_sep r else false
  end.

(** [os.path.split(p)] *)
Definition split (p : string) : string * string :=
  let '(head, tail) := rsplit_sep p in
  (if negb (bool_decide (head = "")) && negb (all_sep head) then rstrip_sep head else head,
   tail).

(** [os.path.dirname(p)] *)
Definition dirname (p : string) : string := fst (split p).

(** [os.path.basename(p)] *)
Definition basename (p : string) : string := snd (rsplit_sep p).

(** [os.path.join(a, b)] *)
Definition join (a b : string) : string :=
  if PyStr.startswith b "/" || bool_decide (a = "") then b
  else if PyStr.endswith a "/" then a +:+ b
  else a +:+ "/" +:+ b.

(** [(p[:i], p[i:])] for [i = p.rfind('.')], and [None] when there is no
    dot. *)
Fixpoint rsplit_dot (p : string) : option (string * string) :=
  match p with
  | EmptyString => None
  | String c r =>
      match rsplit_dot r with
      | Some (h, t) => Some (String c h, t)
      | None => if decide (c = "."%char) then Some (EmptyString, String c r) else None
      end
  end.

(** Whether [s] has a character other than a dot. *)
Fixpoint has_non_dot (s : string) : bool :=
  match s with
  | EmptyString => false
  | String c r => if decide (c = "."%char) then has_non_dot r else true
  end.

(** [os.path.splitext(p)]: the extension starts at the last dot of the
    last component, unless that component has only dots before it. *)
Definition splitext (p : string) : string * string :=
  let '(head, name) := rsplit_sep p in
  match rsplit_dot name with
  | Some (stem, ext) =>
      if has_non_dot stem then (head +:+ stem, ext) else (p, EmptyString)
  | None => (p, EmptyString)
  end.

(** [s.split('/')] *)
Fixpoint split_on_sep (s : string) : list string :=
  match s with
  | EmptyString => [EmptyString]
  | String c r =>
      if decide (c = sep) then EmptyString :: split_on_sep r
      else match split_on_sep r with
           | [] => [String c EmptyString]
           | w :: ws => String c w :: ws
           end
  end.

(** The loop of [normpath]; [new_comps] is kept reversed. *)
Fixpoint normpath_comps (initial_slashes : nat) (comps new_comps : list string)
  : list string :=
  match comps with
  | [] => rev new_comps
  | comp :: rest =>
      if bool_decide (comp = "") || bool_decide (comp = ".")
      then normpath_comps initial_slashes rest new_comps
      else if negb (bool_decide (comp = ".."))
              || (bool_decide (initial_slashes = 0%nat) && bool_decide (new_comps = []))
              || (match new_comps with top :: _ => bool_decide (top = "..") | [] => false end)
      then normpath_comps initial_slashes rest (comp :: new_comps)
      else normpath_comps initial_slashes rest (List.tl new_comps)
  end.

(** [os.path.normpath(path)] *)
Definition normpath (path : string) : string :=
  if bool_decide (path = "") then "."
  else
    let initial_slashes :=
      if PyStr.startswith path "/"
      then if PyStr.startswith path "//" && negb (PyStr.startswith path "///")
           then 2%nat else 1%nat
      else 0%nat in
    let comps := normpath_comps initial_slashes (split_on_sep path) [] in
    let path' := PyStr.replicate_char initial_slashes sep +:+ PyStr.join "/" comps in
    if bool_decide (path' = "") then "." else path'.

End PosixPath.

(** ** Exceptions *)

(** The exceptions the modelled calls raise.  [ParseError] stands for what
    the parsers taken as parameters raise ([json.JSONDecodeError],
    [xml.etree.ElementTree.ParseError], the errors of [pandas.read_excel]).
    [Unfinished] is what a loop modelled with a bound gives when the bound is
    reached; [version_loop_finishes] shows it is never the outcome. *)
Inductive exn : Type :=
  | FileNotFoundError
  | FileExistsError
  | NotADirectoryError
  | IsADirectoryError
  | SameFileError
  | IndexError
  | ValueError
  | TypeError
  | AttributeError
  | CsvError
  | ParseError
  | Unfinished.  (* not a Python exception: the bound of a modelled loop was reached *)

Global Instance exn_eq_dec : EqDecision exn.
Proof. solve_decision. Defined.

(** The outcome of a call: a value or a raised exception. *)
Inductive result (A : Type) : Type :=
  | Ok (a : A)
  | Raise (e : exn).
Arguments Ok {A} a.
Arguments Raise {A} e.

(** ** Text files *)
Module TextIO.

(** Reading in text mode with the default [newline=None]: the line ends
    CR LF and CR are translated to LF. *)
Fixpoint universal_newlines (s : string) : string :=
  match s with
  | EmptyString => EmptyString
  | String c r =>
      if decide (c = CR) then
        match r with
        | String c' r' =>
            if decide (c' = LF) then String LF (universal_newlines r')
            else String LF (universal_newlines r)
        | EmptyString => String LF EmptyString
        end
      else String c (universal_newlines r)
  end.

(** Iterating over a text file: the lines, each with its line feed (the
    last line may have none). *)
Fixpoint lines (s : string) : list string :=
  match s with
  | EmptyString => []
  | String c r =>
      if decide (c = LF) then String c EmptyString :: lines r
      else match lines r with
           | [] => [String c EmptyString]
           | l :: ls => String c l :: ls
           end
  end.

End TextIO.

(** ** [csv.reader] with the default dialect

    The dialect is [excel]: delimiter [,], quote character U+0022,
    [doublequote] on, no escape character, [skipinitialspace] off, not
    strict, [QUOTE_MINIMAL].  The parser states that only an escape
    character reaches are left out. *)
Module Csv.

Inductive parser_state : Type :=
  | START_RECORD
  | START_FIELD
  | IN_FIELD
  | IN_QUOTED_FIELD
  | QUOTE_IN_QUOTED_FIELD
  | EAT_CRNL.

Global Instance parser_state_eq_dec : EqDecision parser_state.
Proof. solve_decision. Defined.

Record reader : Type := mkReader {
  state : parser_state;
  fields : list string;   (* the fields of the record read so far *)
  field : string;         (* the field being read *)
  field_len : N
}.

Definition delimiter : ascii := ","%char.
Definition quotechar : ascii := dquote.
(** [csv.field_size_limit()] *)
Definition field_limit : N := 131072.

(** [parse_reset] *)
Definition parse_reset : reader :=
  {| state := START_RECORD; fields := []; field := ""; field_len := 0 |}.

(** [parse_save_field] *)
Definition parse_save_field (r : reader) : reader :=
  {| state := state r; fields := fields r ++ [field r]; field := ""; field_len := 0 |}.

(** [parse_add_char] *)
Definition parse_add_char (r : reader) (c : ascii) : result reader :=
  if field_limit <=? field_len r then Raise CsvError
  else Ok {| state := state r; fields := fields r;
             field := field r +:+ String c ""; field_len := field_len r + 1 |}.

Definition set_state (s : parser_state) (r : reader) : reader :=
  {| state := s; fields := fields r; field := field r; field_len := field_len r |}.

Definition is_newline (c : ascii) : bool :=
  bool_decide (c = LF) || bool_decide (c = CR).

(** The case [START_FIELD] of [parse_process_char]. *)
Definition process_start_field (r : reader) (c : option ascii) : result reader :=
  match c with
  | None => Ok (set_state START_RECORD (parse_save_field r))
  | Some ch =>
      if is_newline ch then Ok (set_state EAT_CRNL (parse_save_field r))
      else if decide (ch = quotechar) then Ok (set_state IN_QUOTED_FIELD r)
      else if decide (ch = delimiter) then Ok (parse_save_field r)
      else match parse_add_char r ch with
           | Ok r' => Ok (set_state IN_FIELD r')
           | Raise e => Raise e
           end
  end.

(** [parse_process_char]; the end-of-line marker [EOL] is [None]. *)
Definition parse_process_char (r : reader) (c : option ascii) : result reader :=
  match state r with
  | START_RECORD =>
      match c with
      | None => Ok r
      | Some ch =>
          if is_newline ch then Ok (set_state EAT_CRNL r)
          else process_start_field (set_state START_FIELD r) c
      end
  | START_FIELD => process_start_field r c
  | IN_FIELD =>
      match c with
      | None => Ok (set_state START_RECORD (parse_save_field r))
      | Some ch =>
          if is_newline ch then Ok (set_state EAT_CRNL (parse_save_field r))
          else if decide (ch = delimiter) then Ok (set_state START_FIELD (parse_save_field r))
          else parse_add_char r ch
      end
  | IN_QUOTED_FIELD =>
      match c with
      | None => Ok r
      | Some ch =>
          if decide (ch = quotechar) then Ok (set_state QUOTE_IN_QUOTED_FIELD r)
          else parse_add_char r ch
      end
  | QUOTE_IN_QUOTED_FIELD =>
      match c with
      | None => Ok (set_state START_RECORD (parse_save_field r))
      | Some ch =>
          if decide (ch = quotechar) then
            match parse_add_char r ch with
            | Ok r' => Ok (set_state IN_QUOTED_FIELD r')
            | Raise e => Raise e
            end
          else if decide (ch = delimiter) then Ok (set_state START_FIELD (parse_save_field r))
          else if is_newline ch then Ok (set_state EAT_CRNL (parse_save_field r))
          else match parse_add_char r ch with
               | Ok r' => Ok (set_state IN_FIELD r')
               | Raise e => Raise e
               end
      end
  | EAT_CRNL =>
      match c with
      | None => Ok (set_state START_RECORD r)
      | Some ch => if is_newline ch then Ok r else Raise CsvError
      end
  end.

(** The characters of one line, then the end-of-line marker. *)
Fixpoint feed_line (r : reader) (line : string) : result reader :=
  match line with
  | EmptyString => parse_process_char r None
  | String c rest =>
      match parse_process_char r (Some c) with
      | Ok r' => feed_line r' rest
      | Raise e => Raise e
      end
  end.

(** [list(csv.reader(f))] over the lines of [f].  [Reader_iternext] takes
    lines until the state is [START_RECORD] again and then yields the
    fields; at the end of the input it yields a last record when a field
    is under way, and stops otherwise.  [rows] holds the records yielded so
    far. *)
Fixpoint read_rows (r : reader) (rows : list (list string)) (lines : list string)
  : result (list (list string)) :=
  match lines with
  | [] =>
      if negb (field_len r =? 0) || bool_decide (state r = IN_QUOTED_FIELD)
      then Ok (rows ++ [fields (parse_save_field r)])
      else Ok rows
  | line :: rest =>
      match feed_line r line with
      | Ok r' =>
          if decide (state r' = START_RECORD)
          then read_rows parse_reset (rows ++ [fields r']) rest
          else read_rows r' rows rest
      | Raise e => Raise e
      end
  end.

(** [list(csv.reader(f))] for a file opened in text mode on [content]. *)
Definition reader_rows (content : string) : result (list (list string)) :=
  read_rows parse_reset [] (TextIO.lines (TextIO.universal_newlines content)).

End Csv.

(** ** The file system and the widgets *)

Inductive node : Type :=
  | Dir
  | File (content : string).

Global Instance node_eq_dec : EqDecision node.
Proof. solve_decision. Defined.

(** The file system maps a path to what is there. *)
Abbreviation FS := (gmap string node).

(** The effects on the file system, in the order they took place. *)
Inductive event : Type :=
  | EvMakedirs (path : string)             (* [os.makedirs] returned *)
  | EvCopy (src dst : string)              (* [shutil.copy] returned *)
  | EvCreate (path : string)               (* [open(path, "w")] returned *)
  | EvWrite (path : string) (text : string). (* [f.write(text)] returned *)

Global Instance event_eq_dec : EqDecision event.
Proof. solve_decision. Defined.

(** What a run acts on: the file system, the text of [file_label], the
    state of [migrate_button], and the effects so far. *)
Record world : Type := mkWorld {
  fs : FS;
  file_label : string;
  migrate_button : string;
  trace : list event
}.

Definition set_fs (f : FS) (w : world) : world :=
  {| fs := f; file_label := file_label w; migrate_button := migrate_button w;
     trace := trace w |}.

Definition log_event (e : event) (w : world) : world :=
  {| fs := fs w; file_label := file_label w; migrate_button := migrate_button w;
     trace := trace w ++ [e] |}.

(** A computation: from a world to a value or an exception, and the world
    it leaves. *)
Definition M (A : Type) : Type := world → result A * world.

Definition ret {A} (a : A) : M A := fun w => (Ok a, w).

Definition raise {A} (e : exn) : M A := fun w => (Raise e, w).

Definition bind {A B} (m : M A) (k : A → M B) : M B :=
  fun w =>
    match m w with
    | (Ok a, w') => k a w'
    | (Raise e, w') => (Raise e, w')
    end.

Notation "x <- c1 ;; c2" := (bind c1 (fun x => c2))
  (at level 100, c1 at next level, right associativity).
Notation "c1 ;; c2" := (bind c1 (fun _ => c2))
  (at level 100, right associativity).

(** [for x in items: body(x)] *)
Fixpoint for_each {A} (items : list A) (body : A → M unit) : M unit :=
  match items with
  | [] => ret tt
  | x :: rest => body x ;; for_each rest body
  end.

(** Lifts an outcome computed without effects. *)
Definition lift {A} (r : result A) : M A := fun w => (r, w).

Module Os.

(** [os.path.exists(path)] *)
Definition path_exists (f : FS) (path : string) : bool :=
  bool_decide (is_Some (f !! path)).

(** [os.path.isdir(path)] *)
Definition isdir (f : FS) (path : string) : bool :=
  bool_decide (f !! path = Some Dir).

(** Whether a new entry can be made at [path]: its directory is either
    the working directory (the empty [dirname]) or an existing directory. *)
Definition parent_check (f : FS) (path : string) : result unit :=
  let d := PosixPath.dirname path in
  if decide (d = "") then
    if decide (path = "") then Raise FileNotFoundError else Ok tt
  else match f !! d with
       | Some Dir => Ok tt
       | Some (File _) => Raise NotADirectoryError
       | None => Raise FileNotFoundError
       end.

(** [os.mkdir(path)] *)
Definition mkdir (path : string) (f : FS) : result FS :=
  match f !! path with
  | Some _ => Raise FileExistsError
  | None =>
      match parent_check f path with
      | Ok _ => Ok (<[path := Dir]> f)
      | Raise e => Raise e
      end
  end.

(** [os.makedirs(name, exist_ok=True)].  The recursion on the head of
    [os.path.split] is bounded by [fuel]; [makedirs] starts it with the
    length of the name, which the heads stay below.  The result comes with
    the file system as the call leaves it, also when it raises. *)
Fixpoint makedirs_rec (fuel : nat) (name : string) (f : FS) : result unit * FS :=
  let '(head, tail) := PosixPath.split name in
  let '(head, tail) :=
    if decide (tail = "") then PosixPath.split head else (head, tail) in
  (* [if head and tail and not path.exists(head)]: the value says whether
     the call returns right after ([tail == curdir]). *)
  let above : result bool * FS :=
    if negb (bool_decide (head = "")) && negb (bool_decide (tail = ""))
       && negb (path_exists f head)
    then match fuel with
         | O => (Ok false, f)
         | S fuel' =>
             match makedirs_rec fuel' head f with
             | (Ok _, f') => (Ok (bool_decide (tail = ".")), f')
             | (Raise FileExistsError, f') => (Ok (bool_decide (tail = ".")), f')
             | (Raise e, f') => (Raise e, f')
             end
         end
    else (Ok false, f) in
  match above with
  | (Raise e, f1) => (Raise e, f1)
  | (Ok true, f1) => (Ok tt, f1)
  | (Ok false, f1) =>
      match mkdir name f1 with
      | Ok f2 => (Ok tt, f2)
      | Raise e => if isdir f1 name then (Ok tt, f1) else (Raise e, f1)
      end
  end.

Definition makedirs (name : string) : M unit :=
  fun w =>
    match makedirs_rec (String.length name) name (fs w) with
    | (Ok _, f) => (Ok tt, log_event (EvMakedirs name) (set_fs f w))
    | (Raise e, f) => (Raise e, set_fs f w)
    end.

(** [os.path.exists(path)] as a computation. *)
Definition exists_ (path : string) : M bool :=
  fun w => (Ok (path_exists (fs w) path), w).

(** Opening [path] for reading and taking all of it: the content. *)
Definition read_file (path : string) : M string :=
  fun w =>
    match fs w !! path with
    | Some (File content) => (Ok content, w)
    | Some Dir => (Raise IsADirectoryError, w)
    | None => (Raise FileNotFoundError, w)
    end.

(** [open(path, 'r')] and reading all of it, in text mode. *)
Definition read_text (path : string) : M string :=
  content <- read_file path ;;
  ret (TextIO.universal_newlines content).

(** Creating or truncating the file at [path], as [open(path, "w")] and
    [open(path, "wb")] do. *)
Definition create (path : string) (f : FS) : result FS :=
  match f !! path with
  | Some Dir => Raise IsADirectoryError
  | Some (File _) => Ok (<[path := File ""]> f)
  | None =>
      match parent_check f path with
      | Ok _ => Ok (<[path := File ""]> f)
      | Raise e => Raise e
      end
  end.

(** [open(path, "w")] *)
Definition open_w (path : string) : M unit :=
  fun w =>
    match create path (fs w) with
    | Ok f => (Ok tt, log_event (EvCreate path) (set_fs f w))
    | Raise e => (Raise e, w)
    end.

(** [f.write(text)] for the file opened at [path]: the text goes after
    what the file holds. *)
Definition write (path text : string) : M unit :=
  fun w =>
    match fs w !! path with
    | Some (File content) =>
        (Ok tt, log_event (EvWrite path text)
                  (set_fs (<[path := File (content +:+ text)]> (fs w)) w))
    | _ => (Raise ValueError, w)
    end.

(** [shutil.copy(src, dst)]: into [dst] when it is a directory; the same
    file is refused; the content of [src] becomes the content of the
    target. *)
Definition copy (src dst : string) : M unit :=
  fun w =>
    let dst := if isdir (fs w) dst then PosixPath.join dst (PosixPath.basename src) else dst in
    if decide (src = dst) then (Raise SameFileError, w)
    else match fs w !! src with
         | None => (Raise FileNotFoundError, w)
         | Some Dir => (Raise IsADirectoryError, w)
         | Some (File content) =>
             match create dst (fs w) with
             | Ok f =>
                 (Ok tt, log_event (EvCopy src dst)
                           (set_fs (<[dst := File content]> f) w))
             | Raise e => (Raise e, w)
             end
         end.

End Os.

(** ** Python values *)

Local Set Warnings "-register-all".

(** The values [json.load] builds; [F] is the type of floats. *)
Inductive pyval (F : Type) : Type :=
  | PyNone
  | PyBool (b : bool)
  | PyInt (z : Z)
  | PyFloat (x : F)
  | PyStr (s : string)
  | PyList (items : list (pyval F))
  | PyDict (entries : list (string * pyval F)).
Arguments PyNone {F}.
Arguments PyBool {F} b.
Arguments PyInt {F} z.
Arguments PyFloat {F} x.
Arguments PyStr {F} s.
Arguments PyList {F} items.
Arguments PyDict {F} entries.

(** An element of an [xml.etree.ElementTree] tree. *)
Inductive element : Type :=
  | Element (tag : string) (text : option string) (children : list element).

Definition tag_of (e : element) : string := let 'Element t _ _ := e in t.
Definition text_of (e : element) : option string := let 'Element _ x _ := e in x.

(** [e.findall(".//*")]: the descendants of [e], in document order. *)
Fixpoint descendants (e : element) : list element :=
  let 'Element _ _ children := e in
  flat_map (fun c => c :: descendants c) children.

(** [e.findall(".//item")] *)
Definition find_items (e : element) : list element :=
  List.filter (fun d => bool_decide (tag_of d = "item")) (descendants e).

(** [str(z)] for an [int]. *)
Definition str_of_Z (z : Z) : string := NilZero.string_of_int (Z.to_int z).

(** ** The module's functions *)
Module Tool.
(** The parts of the platform taken as they are: floats and their [repr];
    [json.load], as a function of the text read; the cells of a data frame
    and their [repr]; [pandas.read_excel] and [ET.parse], as functions of
    the bytes of the file; the clock reading [datetime.now()] of the run,
    formatted by [strftime("%d-%m-%Y %H:%M:%S")]. *)
Record platform : Type := mkPlatform {
  pyfloat : Type;
  float_repr : pyfloat → string;
  json_load : string → result (pyval pyfloat);
  xlcell : Type;
  xlcell_repr : xlcell → string;
  read_excel : string → result (list (pyval pyfloat) * list (list xlcell));
  xml_parse : string → result element;
  timestamp : string
}.

Section Platform.

Variable P : platform.


(** [repr(v)] *)
Fixpoint repr (v : pyval (pyfloat P)) : string :=
  match v with
  | PyNone => "None"
  | PyBool b => if b then "True" else "False"
  | PyInt z => str_of_Z z
  | PyFloat x => float_repr P x
  | PyStr s => PyStr.repr s
  | PyList items => "[" +:+ PyStr.join ", " (List.map repr items) +:+ "]"
  | PyDict entries =>
      "{" +:+ PyStr.join ", "
                (List.map (fun kv => PyStr.repr (fst kv) +:+ ": " +:+ repr (snd kv)) entries)
          +:+ "}"
  end.

(** [repr(x)] for the text of an element: [None] or a [str]. *)
Definition repr_text (x : option string) : string :=
  match x with
  | None => "None"
  | Some s => PyStr.repr s
  end.

(** The f-string of the four converters:
    [f"INSERT INTO my_table ({', '.join(columns)}) VALUES ({', '.join(values)});\n"],
    [values] being the [repr] of each cell. *)
Definition insert_statement (columns values : list string) : string :=
  "INSERT INTO my_table (" +:+ PyStr.join ", " columns +:+ ") VALUES ("
    +:+ PyStr.join ", " values +:+ ");" +:+ String LF "".

(** [migrate_csv(filepath, new_file_path)] *)
Definition migrate_csv (filepath new_file_path : string) : M unit :=
  content <- Os.read_file filepath ;;
  rows <- lift (Csv.reader_rows content) ;;
  Os.open_w new_file_path ;;
  match rows with
  | [] => raise IndexError
  | columns :: data_rows =>
      for_each data_rows (fun row =>
        Os.write new_file_path (insert_statement columns (List.map PyStr.repr row)))
  end.

(** [', '.join(columns)] for the labels of a data frame: a label that is
    not a [str] is a [TypeError]. *)
Fixpoint str_items (labels : list (pyval (pyfloat P))) : result (list string) :=
  match labels with
  | [] => Ok []
  | PyStr s :: rest =>
      match str_items rest with
      | Ok l => Ok (s :: l)
      | Raise e => Raise e
      end
  | _ :: _ => Raise TypeError
  end.

(** [migrate_excel(filepath, new_file_path)] *)
Definition migrate_excel (filepath new_file_path : string) : M unit :=
  content <- Os.read_file filepath ;;
  df <- lift (read_excel P content) ;;
  Os.open_w new_file_path ;;
  let columns := fst df in
  for_each (snd df) (fun row =>
    names <- lift (str_items columns) ;;
    Os.write new_file_path (insert_statement names (List.map (xlcell_repr P) row))).

(** [for entry in data]: the items of a list, the keys of a dict, the
    characters of a [str]; the other values are not iterable. *)
Definition iterate (data : pyval (pyfloat P)) : result (list (pyval (pyfloat P))) :=
  match data with
  | PyList items => Ok items
  | PyDict entries => Ok (List.map (fun kv => PyStr (fst kv)) entries)
  | PyStr s => Ok (List.map (fun c => PyStr (String c "")) (list_ascii_of_string s))
  | _ => Raise TypeError
  end.

(** [migrate_json(filepath, new_file_path)] *)
Definition migrate_json (filepath new_file_path : string) : M unit :=
  content <- Os.read_file filepath ;;
  data <- lift (json_load P (TextIO.universal_newlines content)) ;;
  Os.open_w new_file_path ;;
  entries <- lift (iterate data) ;;
  for_each entries (fun entry =>
    match entry with
    | PyDict kvs =>
        let keys := List.map fst kvs in
        let values := List.map snd kvs in
        Os.write new_file_path (insert_statement keys (List.map repr values))
    | _ => raise AttributeError
    end).

(** [migrate_xml(filepath, new_file_path)] *)
Definition migrate_xml (filepath new_file_path : string) : M unit :=
  content <- Os.read_file filepath ;;
  root <- lift (xml_parse P content) ;;
  Os.open_w new_file_path ;;
  for_each (find_items root) (fun item =>
    let fields := descendants item in
    let keys := List.map tag_of fields in
    let values := List.map text_of fields in
    Os.write new_file_path (insert_statement keys (List.map repr_text values))).

(** The [while] loop of [migrate]: from [version_folder], the first
    version folder name whose path does not exist. *)
Fixpoint version_loop (fuel : nat) (f : FS) (type_folder_path version_folder : string)
  : result string :=
  if Os.path_exists f (PosixPath.join type_folder_path version_folder) then
    match fuel with
    | O => Raise Unfinished
    | S fuel' =>
        match PyStr.int_of_str (PyStr.tail version_folder) with
        | None => Raise ValueError
        | Some n =>
            let version := n + 1 in
            version_loop fuel' f type_folder_path
              ("v" +:+ PyStr.zfill 3 (PyStr.str_of_int version))
        end
    end
  else Ok version_folder.

(** The loop started at [v001]; it ends within as many steps as the file
    system has entries. *)
Definition find_version (type_folder_path : string) : M string :=
  fun w => (version_loop (S (size (fs w))) (fs w) type_folder_path "v001", w).

(** [file_label.config(text=t)] *)
Definition set_file_label (t : string) : M unit :=
  fun w => (Ok tt, {| fs := fs w; file_label := t;
                      migrate_button := migrate_button w; trace := trace w |}).

(** [migrate_button.config(state=st)] *)
Definition set_migrate_button (st : string) : M unit :=
  fun w => (Ok tt, {| fs := fs w; file_label := file_label w;
                      migrate_button := st; trace := trace w |}).

(** The paths of one run. *)
Record folders : Type := mkFolders {
  version_folder_path : string;
  data_folder : string;
  source_folder : string;
  log_folder : string
}.

(** Lines 81 to 104 of [migrate]: the migration root, the type folder, the
    next version folder and its three children. *)
Definition allocate (file_extension filepath : string) : M folders :=
  let migration_root := PosixPath.join (PosixPath.dirname filepath) "migrations" in
  Os.makedirs migration_root ;;
  let type_folder := PyStr.tail file_extension in
  let type_folder_path := PosixPath.join migration_root type_folder in
  Os.makedirs type_folder_path ;;
  version_folder <- find_version type_folder_path ;;
  let version_folder_path := PosixPath.join type_folder_path version_folder in
  Os.makedirs version_folder_path ;;
  let data_folder := PosixPath.join version_folder_path "data" in
  let source_folder := PosixPath.join version_folder_path "source" in
  let log_folder := PosixPath.join version_folder_path "log" in
  Os.makedirs data_folder ;;
  Os.makedirs source_folder ;;
  Os.makedirs log_folder ;;
  ret (mkFolders version_folder_path data_folder source_folder log_folder).

(** Lines 119 to 126 of [migrate]: the converter for the extension of the
    source file; no branch for any other extension. *)
Definition dispatch (filepath new_file_path : string) : M unit :=
  if PyStr.endswith (PyStr.lower filepath) ".csv" then migrate_csv filepath new_file_path
  else if PyStr.endswith (PyStr.lower filepath) ".xlsx" then migrate_excel filepath new_file_path
  else if PyStr.endswith (PyStr.lower filepath) ".json" then migrate_json filepath new_file_path
  else if PyStr.endswith (PyStr.lower filepath) ".xml" then migrate_xml filepath new_file_path
  else ret tt.

(** Lines 129 to 138 of [migrate]: the log file. *)
Definition write_log (log_folder filepath source_file_path new_file_path : string) : M unit :=
  let log_file_path := PosixPath.join log_folder "migration_log.txt" in
  Os.open_w log_file_path ;;
  Os.write log_file_path ("Migration Log - " +:+ timestamp P +:+ String LF "") ;;
  Os.write log_file_path ("Original File: " +:+ PosixPath.normpath filepath +:+ String LF "") ;;
  Os.write log_file_path ("Source File: " +:+ PosixPath.normpath source_file_path +:+ String LF "") ;;
  Os.write log_file_path ("Migrated File: " +:+ PosixPath.normpath new_file_path +:+ String LF "") ;;
  Os.write log_file_path ("-------------------------------------------------" +:+ String LF "").

(** [migrate(file_label, export_type_var, filepath)]; [file_extension] is
    [export_type_var.get()]. *)
Definition migrate (file_extension filepath : string) : M unit :=
  dirs <- allocate file_extension filepath ;;
  let original_filename := PosixPath.basename filepath in
  let name_without_extension := fst (PosixPath.splitext original_filename) in
  let source_file_path := PosixPath.join (source_folder dirs) original_filename in
  Os.copy filepath source_file_path ;;
  let new_filename := name_without_extension +:+ "_migration" +:+ file_extension in
  let new_file_path := PosixPath.join (data_folder dirs) new_filename in
  dispatch filepath new_file_path ;;
  write_log (log_folder dirs) filepath source_file_path new_file_path ;;
  set_file_label "File Published" ;;
  set_migrate_button "disabled".

End Platform.
End Tool.

(** ** Notions used in the statements *)

(** A name of one path component: not empty and with no separator. *)
Definition plain (b : string) : Prop :=
  b ≠ "" ∧ PyStr.contains PosixPath.sep b = false.

(** What [os.path.dirname] returns: only separators, or no separator at
    the end. *)
Definition dir_like (d : string) : Prop :=
  PosixPath.all_sep d = true ∨ PyStr.endswith d "/" = false.

(** What [os.path.join(d, b)] puts before a [b] that does not start with a
    separator. *)
Definition join_prefix (d : string) : string :=
  if bool_decide (d = "") then ""
  else if PyStr.endswith d "/" then d else d +:+ "/".

(** The statement [migrate_csv] writes for one row. *)
Definition csv_statement (columns row : list string) : string :=
  Tool.insert_statement columns (List.map PyStr.repr row).

(** The folder name of version [n]: [f"v{str(n).zfill(3)}"]. *)
Definition vname (n : N) : string := "v" +:+ PyStr.zfill 3 (PyStr.str_of_int n).

(** [f'] has the entries of [f] and, maybe, directories at paths that were
    free in [f]. *)
Definition grows (f f' : FS) : Prop :=
  ∀ p, f' !! p = f !! p ∨ (f !! p = None ∧ f' !! p = Some Dir).

Definition is_makedirs (e : event) : bool :=
  match e with EvMakedirs _ => true | _ => false end.

(** The exceptions of [os.mkdir]. *)
Definition os_error (e : exn) : Prop :=
  e = FileExistsError ∨ e = FileNotFoundError ∨ e = NotADirectoryError.

(** A computation that only adds to the record of effects. *)
Definition appends {A} (m : M A) : Prop :=
  ∀ w r w1, m w = (r, w1) → ∃ evs, trace w1 = trace w ++ evs.

(** A column name that the column list of a statement shows as one name:
    not empty and with no comma. *)
Definition simple_name (k : string) : Prop :=
  k ≠ "" ∧ PyStr.contains ","%char k = false.

(** [g] on every item in turn, up to the first exception. *)
Fixpoint traverse {A B} (g : A → result B) (items : list A) : result (list B) :=
  match items with
  | [] => Ok []
  | x :: rest =>
      match g x with
      | Raise e => Raise e
      | Ok y =>
          match traverse g rest with
          | Ok ys => Ok (y :: ys)
          | Raise e => Raise e
          end
      end
  end.

(** ** The components the specification names

    The Format Extractor and the Statement Generator of the specification,
    written from its sections 3, 4.1, 4.2 and 6, to compare [migrate] with. *)
Module Spec.

(** The detected format of a source file. *)
Inductive format : Type := csv | xlsx | json | xml.

(** The format is told by the extension of the source file. *)
Definition detect (path : string) : option format :=
  if PyStr.endswith (PyStr.lower path) ".csv" then Some csv
  else if PyStr.endswith (PyStr.lower path) ".xlsx" then Some xlsx
  else if PyStr.endswith (PyStr.lower path) ".json" then Some json
  else if PyStr.endswith (PyStr.lower path) ".xml" then Some xml
  else None.

(** A cell value: text of a delimited file, a value of a structured
    document, the text of a markup element or nothing, a spreadsheet cell. *)
Inductive cell (P : Tool.platform) : Type :=
  | Text (s : string)
  | Value (v : pyval (Tool.pyfloat P))
  | Markup (x : option string)
  | Sheet (x : Tool.xlcell P).
Arguments Text {P} s.
Arguments Value {P} v.
Arguments Markup {P} x.
Arguments Sheet {P} x.

(** A record: its column names and its values, aligned by position. *)
Definition tabular_record (P : Tool.platform) : Type := list string * list (cell P).

(** The value serialization rule: the debug representation. *)
Definition serialize {P : Tool.platform} (c : cell P) : string :=
  match c with
  | Text s => PyStr.repr s
  | Value v => Tool.repr P v
  | Markup x => Tool.repr_text x
  | Sheet x => Tool.xlcell_repr P x
  end.

(** [extract]: the records of a file of the given format.  The failures
    are the exceptions of the platform: a delimited file with no row is an
    [IndexError], and a parser raises what the platform says. *)
Definition extract (P : Tool.platform) (f : format) (content : string)
  : result (list (tabular_record P)) :=
  match f with
  | csv =>
      match Csv.reader_rows content with
      | Raise e => Raise e
      | Ok [] => Raise IndexError
      | Ok (columns :: rows) => Ok (List.map (λ row, (columns, List.map Text row)) rows)
      end
  | xlsx =>
      match Tool.read_excel P content with
      | Raise e => Raise e
      | Ok (labels, rows) =>
          traverse (λ row, match Tool.str_items P labels with
                           | Ok columns => Ok (columns, List.map Sheet row)
                           | Raise e => Raise e
                           end) rows
      end
  | json =>
      match Tool.json_load P (TextIO.universal_newlines content) with
      | Raise e => Raise e
      | Ok data =>
          match Tool.iterate P data with
          | Raise e => Raise e
          | Ok entries =>
              traverse (λ entry, match entry with
                                 | PyDict kvs =>
                                     Ok (List.map fst kvs, List.map (λ kv, Value (snd kv)) kvs)
                                 | _ => Raise AttributeError
                                 end) entries
          end
      end
  | xml =>
      match Tool.xml_parse P content with
      | Raise e => Raise e
      | Ok root =>
          Ok (List.map (λ item, (List.map tag_of (descendants item),
                                 List.map (λ d, Markup (text_of d)) (descendants item)))
                (find_items root))
      end
  end.

(** [render]: the line of one record. *)
Definition render {P : Tool.platform} (r : tabular_record P) : string :=
  "INSERT INTO my_table (" +:+ PyStr.join ", " (fst r) +:+ ") VALUES ("
    +:+ PyStr.join ", " (List.map serialize (snd r)) +:+ ");" +:+ String LF "".

End Spec.

(** What a converter that returns has written: the lines of the records the
    extractor gives for the content of the source. *)
Definition converted (P : Tool.platform) (f : Spec.format) (content p : string)
    (w w' : world) : Prop :=
  ∃ records,
    Spec.extract P f content = Ok records
    ∧ w' = {| fs := <[p := File (PyStr.concat (List.map Spec.render records))]> (fs w);
              file_label := file_label w; migrate_button := migrate_button w;
              trace := trace w ++ EvCreate p :: List.map (λ r, EvWrite p (Spec.render r))
                                                 records |}.

(** ** The inputs of the examples *)

(** The input of the scenario: the lines [id,name], [1,Ann] and
    [2,"O'Brien"], each ended by a line feed. *)
Definition scenario_csv : string :=
  "id,name" +:+ String LF ("1,Ann" +:+ String LF
    ("2," +:+ String dquote ("O'Brien" +:+ String dquote (String LF "")))).

(** A platform whose parsers refuse every file. *)
Definition null_platform : Tool.platform :=
  {| Tool.pyfloat := Empty_set;
     Tool.float_repr := λ x, match x with end;
     Tool.json_load := λ _, Raise ParseError;
     Tool.xlcell := Empty_set;
     Tool.xlcell_repr := λ x, match x with end;
     Tool.read_excel := λ _, Raise ParseError;
     Tool.xml_parse := λ _, Raise ParseError;
     Tool.timestamp := "29-03-2025 12:00:00" |}.

(** A directory [/work] that holds the one file [name]. *)
Definition work_dir (name content : string) : world :=
  {| fs := {[ "/" := Dir; "/work" := Dir; "/work/" +:+ name := File content ]};
     file_label := name; migrate_button := "normal"; trace := [] |}.

(** The output file of the scenario as the specification words it, and as
    the run writes it. *)
Definition scenario_as_stated : string :=
  "INSERT INTO my_table (id, name) VALUES (1, 'Ann');" +:+ String LF
    ("INSERT INTO my_table (id, name) VALUES (2, " +:+ String dquote
       ("O'Brien" +:+ String dquote (");" +:+ String LF ""))).

Definition scenario_output : string :=
  "INSERT INTO my_table (id, name) VALUES ('1', 'Ann');" +:+ String LF
    ("INSERT INTO my_table (id, name) VALUES ('2', " +:+ String dquote
       ("O'Brien" +:+ String dquote (");" +:+ String LF ""))).

(** A header whose first column name has a line feed inside quotes, and one
    data row. *)
Definition line_break_csv : string :=
  String dquote ("a" +:+ String LF ("b" +:+ String dquote (",c" +:+ String LF ("1,2" +:+ String LF "")))).

(** A word between double quotes. *)
Definition quoted (s : string) : string := String dquote (s +:+ String dquote "").

(** The text [[{"id": 1, "name": "Ann"}, {"id": 2, "email": null}]]. *)
Definition two_records_json : string :=
  "[{" +:+ quoted "id" +:+ ": 1, " +:+ quoted "name" +:+ ": " +:+ quoted "Ann"
    +:+ "}, {" +:+ quoted "id" +:+ ": 2, " +:+ quoted "email" +:+ ": null}]".

(** A platform whose [json.load] reads [two_records_json], and nothing
    else. *)
Definition two_records_platform : Tool.platform :=
  {| Tool.pyfloat := Empty_set;
     Tool.float_repr := λ x, match x with end;
     Tool.json_load := λ s,
       if decide (s = two_records_json)
       then Ok (PyList [PyDict [("id", PyInt 1); ("name", PyStr "Ann")];
                        PyDict [("id", PyInt 2); ("email", PyNone)]])
       else Raise ParseError;
     Tool.xlcell := Empty_set;
     Tool.xlcell_repr := λ x, match x with end;
     Tool.read_excel := λ _, Raise ParseError;
     Tool.xml_parse := λ _, Raise ParseError;
     Tool.timestamp := "29-03-2025 12:00:00" |}.

(** The text [[{"a, b": 1}, {"a": 1, "b": 2}]]. *)
Definition comma_key_json : string :=
  "[{" +:+ quoted "a, b" +:+ ": 1}, {" +:+ quoted "a" +:+ ": 1, " +:+ quoted "b" +:+ ": 2}]".

(** A platform whose [json.load] reads [comma_key_json], and nothing else. *)
Definition comma_key_platform : Tool.platform :=
  {| Tool.pyfloat := Empty_set;
     Tool.float_repr := λ x, match x with end;
     Tool.json_load := λ s,
       if decide (s = comma_key_json)
       then Ok (PyList [PyDict [("a, b", PyInt 1)]; PyDict [("a", PyInt 1); ("b", PyInt 2)]])
       else Raise ParseError;
     Tool.xlcell := Empty_set;
     Tool.xlcell_repr := λ x, match x with end;
     Tool.read_excel := λ _, Raise ParseError;
     Tool.xml_parse := λ _, Raise ParseError;
     Tool.timestamp := "29-03-2025 12:00:00" |}.

(** A header of two columns and a data row of one cell. *)
Definition short_row_csv : string := "a,b" +:+ String LF ("1" +:+ String LF "").

(** A header of two columns and a line with nothing on it. *)
Definition blank_line_csv : string := "a,b" +:+ String LF (String LF "").

(** A reading of the Unicode database: above U+007F, the characters from
    U+00A1 on are printable, the soft hyphen U+00AD and the line separator
    U+2028 apart. *)
Definition sample_isprintable (n : N) : bool :=
  PyStr.isprintable_high n && negb (n =? 8232).

(** The text [O'], the line separator U+2028 and the character U+1F600. *)
Definition sample_text : PyUnicode.str := [79; 39; 8232; 128512].

(** ** The window

    The callbacks [load_file] and [qc_check], and the widgets and
    variables they and [migrate] act on.  A widget is the option the module
    sets on it: the [state] of a button, the [text] of [file_label], the
    [bg] of [traffic_light].  [category_var] is set and never read. *)
Module Gui.

Record app : Type := mkApp {
  app_world : world;         (* the file system, [file_label], [migrate_button] *)
  qc_button : string;        (* the [state] of [qc_button] *)
  traffic_light : string;    (* the [bg] of [traffic_light] *)
  filepath : string;         (* the global [filepath] *)
  export_type_var : string   (* the value of [export_type_var] *)
}.

(** [file_label.config(text=label)] and [migrate_button.config(state=st)]. *)
Definition config (label st : string) (w : world) : world :=
  {| fs := fs w; file_label := label; migrate_button := st; trace := trace w |}.

(** [load_file(file_label, qc_button, migrate_button)]; [answer] is what
    [filedialog.askopenfilename] returns: the path chosen, or the empty
    string when the dialog is closed without a choice. *)
Definition load_file (answer : string) (a : app) : app :=
  if negb (bool_decide (answer = "")) then
    {| app_world := config (PosixPath.basename answer) "disabled" (app_world a);
       qc_button := "normal";
       traffic_light := traffic_light a;
       filepath := answer;
       export_type_var := export_type_var a |}
  else
    {| app_world := config "No file selected" "disabled" (app_world a);
       qc_button := "disabled";
       traffic_light := traffic_light a;
       filepath := answer;
       export_type_var := export_type_var a |}.

(** [qc_check(traffic_light, migrate_button)] *)
Definition qc_check (a : app) : app :=
  {| app_world := config (file_label (app_world a)) "normal" (app_world a);
     qc_button := qc_button a;
     traffic_light := "green";
     filepath := filepath a;
     export_type_var := export_type_var a |}.

(** The command of [migrate_button]:
    [lambda: migrate(file_label, export_type_var, filepath)].  An exception
    of the call is reported by the main loop, which goes on. *)
Definition migrate_command (P : Tool.platform) (a : app) : app :=
  {| app_world := snd (Tool.migrate P (export_type_var a) (filepath a) (app_world a));
     qc_button := qc_button a;
     traffic_light := traffic_light a;
     filepath := filepath a;
     export_type_var := export_type_var a |}.

(** The window as lines 193 to 251 build it, over the file system [f]. *)
Definition window (f : FS) : app :=
  {| app_world := {| fs := f; file_label := "No file selected";
                     migrate_button := "disabled"; trace := [] |};
     qc_button := "disabled";
     traffic_light := "grey";
     filepath := "";
     export_type_var := ".db" |}.

(** The two entries of the export type menu. *)
Inductive export_type : Type := db | sql.

Definition export_value (t : export_type) : string :=
  match t with db => ".db" | sql => ".sql" end.

(** What the user does: a click on one of the three buttons ([answer] is
    what the file dialog of [load_file] returns), or a choice in the export
    type menu. *)
Inductive click : Type :=
  | LoadFile (answer : string)
  | QcCheck
  | Migrate
  | ExportType (t : export_type).

(** A click on a button whose [state] is [st]: its command is called,
    unless the button is disabled. *)
Definition press (st : string) (command : app → app) (a : app) : app :=
  if bool_decide (st = "disabled") then a else command a.

Definition step (P : Tool.platform) (c : click) (a : app) : app :=
  match c with
  | LoadFile answer => load_file answer a
  | QcCheck => press (qc_button a) qc_check a
  | Migrate => press (migrate_button (app_world a)) (migrate_command P) a
  | ExportType t =>
      {| app_world := app_world a; qc_button := qc_button a;
         traffic_light := traffic_light a; filepath := filepath a;
         export_type_var := export_value t |}
  end.

(** The clicks of a session, in order. *)
Definition run (P : Tool.platform) (clicks : list click) (a : app) : app :=
  fold_left (λ a c, step P c a) clicks a.

End Gui.

(** What holds of the window at any time. *)
Definition window_invariant (a : Gui.app) : Prop :=
  (Gui.export_type_var a = ".db" ∨ Gui.export_type_var a = ".sql")
  ∧ (Gui.qc_button a = "normal" ∧ Gui.filepath a ≠ ""
     ∨ Gui.qc_button a = "disabled" ∧ Gui.filepath a = "")
  ∧ (migrate_button (Gui.app_world a) = "disabled"
     ∨ migrate_button (Gui.app_world a) = "normal"
       ∧ Gui.qc_button a = "normal" ∧ Gui.traffic_light a = "green").

(** ** What a call changes *)

(** [m] takes every world to a world that [R] relates to it, whatever it
    returns or raises. *)
Definition steps (R : world → world → Prop) {A} (m : M A) : Prop :=
  ∀ w r w1, m w = (r, w1) → R w w1.

(** The two widgets are as they were. *)
Definition same_widgets (w w1 : world) : Prop :=
  file_label w1 = file_label w ∧ migrate_button w1 = migrate_button w.

(** No entry has gone, and a directory is still a directory. *)
Definition keeps_entries (w w1 : world) : Prop :=
  ∀ p, (is_Some (fs w !! p) → is_Some (fs w1 !! p))
       ∧ (fs w !! p = Some Dir → fs w1 !! p = Some Dir).

(** The file system is as it was at every path outside [S]. *)
Definition same_outside (S : string → Prop) (w w1 : world) : Prop :=
  ∀ p, ¬ S p → fs w1 !! p = fs w !! p.

(** The paths below the directory [d]. *)
Definition below (d : string) (p : string) : Prop := ∃ rest, p = d +:+ "/" +:+ rest.

(** What the calls after the allocation do to a world: they leave the
    widgets, keep the entries, and write at paths of [S] only. *)
Definition writes_in (S : string → Prop) (w w1 : world) : Prop :=
  same_widgets w w1 ∧ keeps_entries w w1 ∧ same_outside S w w1.

(** ** What the converters write *)

(** The world after [open(p, "w")] and one [write] for each of [texts]. *)
Definition written (p : string) (texts : list string) (w : world) : world :=
  {| fs := <[p := File (PyStr.concat texts)]> (fs w);
     file_label := file_label w; migrate_button := migrate_button w;
     trace := trace w ++ EvCreate p :: List.map (EvWrite p) texts |}.

(** [g] on every item in turn: the results up to the first exception, and
    that exception. *)
Fixpoint run_until {A B} (g : A → result B) (items : list A) : list B * option exn :=
  match items with
  | [] => ([], None)
  | x :: rest =>
      match g x with
      | Raise e => ([], Some e)
      | Ok y => let '(ys, stop) := run_until g rest in (y :: ys, stop)
      end
  end.

(** The statement [migrate_json] writes for one object. *)
Definition json_statement (P : Tool.platform) (kvs : list (string * pyval (Tool.pyfloat P)))
  : string :=
  Tool.insert_statement (List.map fst kvs) (List.map (Tool.repr P) (List.map snd kvs)).

(** The statement [migrate_xml] writes for one [item]. *)
Definition xml_statement (item : element) : string :=
  Tool.insert_statement (List.map tag_of (descendants item))
    (List.map Tool.repr_text (List.map text_of (descendants item))).

(** The five lines of the log file. *)
Definition log_lines (P : Tool.platform) (filepath source_file_path new_file_path : string)
  : list string :=
  [ "Migration Log - " +:+ Tool.timestamp P +:+ String LF "";
    "Original File: " +:+ PosixPath.normpath filepath +:+ String LF "";
    "Source File: " +:+ PosixPath.normpath source_file_path +:+ String LF "";
    "Migrated File: " +:+ PosixPath.normpath new_file_path +:+ String LF "";
    "-------------------------------------------------" +:+ String LF "" ].

(** ** Delimited text with nothing to quote *)





(** What the parser of a format says of a content: the exception it raises,
    if it raises one. *)
Definition parse_failure (P : Tool.platform) (f : Spec.format) (content : string)
  : option exn :=
  match f with
  | Spec.csv =>
      match Csv.reader_rows content with Raise e => Some e | Ok _ => None end
  | Spec.xlsx =>
      match Tool.read_excel P content with Raise e => Some e | Ok _ => None end
  | Spec.json =>
      match Tool.json_load P (TextIO.universal_newlines content) with
      | Raise e => Some e
      | Ok _ => None
      end
  | Spec.xml =>
      match Tool.xml_parse P content with Raise e => Some e | Ok _ => None end
  end.

(** ** Further inputs *)

(** A directory [/work] that holds the file [a.csv] and a file named
    [migrations]. *)
Definition blocked_dir : world :=
  {| fs := {[ "/" := Dir; "/work" := Dir; "/work/a.csv" := File scenario_csv;
              "/work/migrations" := File "" ]};
     file_label := "a.csv"; migrate_button := "normal"; trace := [] |}.

(** A platform whose [json.load] gives [data] for every text. *)
Definition json_platform (data : pyval Empty_set) : Tool.platform :=
  {| Tool.pyfloat := Empty_set;
     Tool.float_repr := λ x, match x with end;
     Tool.json_load := λ _, Ok data;
     Tool.xlcell := Empty_set;
     Tool.xlcell_repr := λ x, match x with end;
     Tool.read_excel := λ _, Raise ParseError;
     Tool.xml_parse := λ _, Raise ParseError;
     Tool.timestamp := "29-03-2025 12:00:00" |}.

(** A platform whose [ET.parse] gives [root] for every file. *)
Definition xml_platform (root : element) : Tool.platform :=
  {| Tool.pyfloat := Empty_set;
     Tool.float_repr := λ x, match x with end;
     Tool.json_load := λ _, Raise ParseError;
     Tool.xlcell := Empty_set;
     Tool.xlcell_repr := λ x, match x with end;
     Tool.read_excel := λ _, Raise ParseError;
     Tool.xml_parse := λ _, Ok root;
     Tool.timestamp := "29-03-2025 12:00:00" |}.

(** A platform whose [pandas.read_excel] gives a frame of text cells with
    the labels [labels] and the rows [rows] for every file. *)
Definition excel_platform (labels : list (pyval Empty_set)) (rows : list (list string))
  : Tool.platform :=
  {| Tool.pyfloat := Empty_set;
     Tool.float_repr := λ x, match x with end;
     Tool.json_load := λ _, Raise ParseError;
     Tool.xlcell := string;
     Tool.xlcell_repr := PyStr.repr;
     Tool.read_excel := λ _, Ok (labels, rows);
     Tool.xml_parse := λ _, Raise ParseError;
     Tool.timestamp := "29-03-2025 12:00:00" |}.

(** An [item] with a field and an [item] inside, which has a field. *)
Definition inner_item : element := Element "item" None [Element "b" (Some "2") []].
Definition outer_item : element :=
  Element "item" None [Element "a" (Some "1") []; inner_item].
Definition nested_items : element := Element "root" None [outer_item].

(** * Theorems *)

(** ** The model on small inputs *)

Example repr_ann : PyStr.repr "Ann" = "'Ann'".
Proof. reflexivity. Qed.

Example repr_obrien :
  PyStr.repr "O'Brien" = String dquote ("O'Brien" +:+ String dquote "").
Proof. reflexivity. Qed.

Example repr_both_quotes :
  PyStr.repr (String squote (String dquote ""))
  = String squote (String backslash (String squote (String dquote (String squote "")))).
Proof. reflexivity. Qed.

Example repr_line_feed : PyStr.repr (String LF "") = String squote (String backslash "n'").
Proof. reflexivity. Qed.

Example splitext_a_csv : PosixPath.splitext "a.csv" = ("a", ".csv").
Proof. reflexivity. Qed.

Example splitext_hidden : PosixPath.splitext "/w/.bashrc" = ("/w/.bashrc", "").
Proof. reflexivity. Qed.

Example dirname_abs : PosixPath.dirname "/work/a.csv" = "/work".
Proof. reflexivity. Qed.

Example normpath_dots : PosixPath.normpath "/a/./b/../c//d" = "/a/c/d".
Proof. reflexivity. Qed.

Example scenario_csv_rows :
  Csv.reader_rows scenario_csv = Ok [["id"; "name"]; ["1"; "Ann"]; ["2"; "O'Brien"]].
Proof. reflexivity. Qed.

Example csv_blank_line_is_empty_row :
  Csv.reader_rows ("a,b" +:+ String LF (String LF "")) = Ok [["a"; "b"]; []].
Proof. reflexivity. Qed.

Example csv_empty_file : Csv.reader_rows "" = Ok [].
Proof. reflexivity. Qed.

Example vname_7 : vname 7 = "v007".
Proof. reflexivity. Qed.

Example vname_1000 : vname 1000 = "v1000".
Proof. reflexivity. Qed.

(** ** Strings *)

Lemma app_cons (c : ascii) (a b : string) : String c a +:+ b = String c (a +:+ b).
Proof. reflexivity. Qed.

Lemma app_empty_l (b : string) : "" +:+ b = b.
Proof. reflexivity. Qed.

Lemma app_empty_r (a : string) : a +:+ "" = a.
Proof. induction a as [|x a IH]; [done|]. by rewrite app_cons, IH. Qed.

Lemma app_assoc_s (a b c : string) : (a +:+ b) +:+ c = a +:+ (b +:+ c).
Proof. induction a as [|x a IH]; [done|]. by rewrite !app_cons, IH. Qed.

Lemma length_app_s (a b : string) :
  String.length (a +:+ b) = (String.length a + String.length b)%nat.
Proof. induction a as [|x a IH]; [done|]. rewrite app_cons. simpl. by rewrite IH. Qed.

Lemma contains_app (c : ascii) (a b : string) :
  PyStr.contains c (a +:+ b) = PyStr.contains c a || PyStr.contains c b.
Proof.
  induction a as [|x a IH]; [done|]. rewrite app_cons. simpl.
  destruct (decide (x = c)); [done | exact IH].
Qed.

Lemma contains_join (c : ascii) (sep : string) (items : list string) :
  PyStr.contains c sep = false →
  Forall (λ s, PyStr.contains c s = false) items →
  PyStr.contains c (PyStr.join sep items) = false.
Proof.
  intros Hsep. induction 1 as [|x l Hx Hl IH]; [done|].
  destruct l as [|y l]; [done|].
  change (PyStr.join sep (x :: y :: l)) with (x +:+ sep +:+ PyStr.join sep (y :: l)).
  by rewrite !contains_app, Hx, Hsep, IH.
Qed.

(** ** The monad *)

Lemma for_each_map {A B} (h : A → B) (items : list A) (body : B → M unit) (w : world) :
  for_each (List.map h items) body w = for_each items (λ x, body (h x)) w.
Proof.
  revert w. induction items as [|x l IH]; intros w; [done|].
  simpl. unfold bind. destruct (body (h x) w) as [[[]|e] w1]; [apply IH | done].
Qed.

Lemma for_each_ext {A} (f g : A → M unit) (items : list A) (w : world) :
  (∀ x w, f x w = g x w) → for_each items f w = for_each items g w.
Proof.
  intros Hfg. revert w. induction items as [|x l IH]; intros w; [done|].
  simpl. unfold bind. rewrite Hfg. destruct (g x w) as [[[]|e] w1]; [apply IH | done].
Qed.

(** The writes of a loop add up in the file, one event each. *)
Lemma for_each_write {A} (g : A → string) (path : string) (items : list A)
    (w : world) (c : string) :
  fs w !! path = Some (File c) →
  for_each items (λ x, Os.write path (g x)) w
  = (Ok tt,
     {| fs := <[path := File (c +:+ PyStr.concat (List.map g items))]> (fs w);
        file_label := file_label w; migrate_button := migrate_button w;
        trace := trace w ++ List.map (λ x, EvWrite path (g x)) items |}).
Proof.
  revert w c. induction items as [|x l IH]; intros w c Hc.
  - simpl. unfold ret. f_equal. destruct w as [f lb mb tr]; simpl in *.
    rewrite app_empty_r, app_nil_r. f_equal. by rewrite insert_id.
  - simpl. unfold bind, Os.write at 1. rewrite Hc.
    rewrite (IH _ (c +:+ g x)) by (simpl; apply lookup_insert_eq).
    simpl. f_equal. f_equal.
    + rewrite insert_insert_eq. by rewrite app_assoc_s.
    + by rewrite <- app_assoc.
Qed.

Lemma create_ok (path : string) (f f1 : FS) :
  Os.create path f = Ok f1 → f1 = <[path := File ""]> f.
Proof.
  unfold Os.create. destruct (f !! path) as [[|c]|]; [done | congruence |].
  destruct (Os.parent_check f path); congruence.
Qed.

(** ** [migrate_csv] *)

Lemma migrate_csv_rows (filepath new_file_path content : string)
    (columns : list string) (data_rows : list (list string)) (w : world) (f1 : FS) :
  fs w !! filepath = Some (File content) →
  Csv.reader_rows content = Ok (columns :: data_rows) →
  Os.create new_file_path (fs w) = Ok f1 →
  Tool.migrate_csv filepath new_file_path w
  = (Ok tt,
     {| fs := <[new_file_path :=
                  File (PyStr.concat (List.map (csv_statement columns) data_rows))]> (fs w);
        file_label := file_label w; migrate_button := migrate_button w;
        trace := trace w ++ EvCreate new_file_path
                   :: List.map (λ row, EvWrite new_file_path (csv_statement columns row))
                        data_rows |}).
Proof.
  intros Hf Hrows Hc. unfold Tool.migrate_csv, bind.
  unfold Os.read_file at 1. rewrite Hf. unfold lift. rewrite Hrows.
  unfold Os.open_w at 1. rewrite Hc. apply create_ok in Hc as ->.
  erewrite (for_each_write (csv_statement columns)) by (simpl; apply lookup_insert_eq).
  simpl. f_equal. f_equal.
  - by rewrite insert_insert_eq.
  - by rewrite <- app_assoc.
Qed.

(** ** Lines *)

Lemma lines_app_line (s rest : string) :
  PyStr.contains LF s = false →
  TextIO.lines (s +:+ String LF rest) = (s +:+ String LF "") :: TextIO.lines rest.
Proof.
  induction s as [|c s IH]; intros Hs.
  - reflexivity.
  - simpl in Hs. destruct (decide (c = LF)) as [|Hne]; [done|].
    rewrite !app_cons. simpl. rewrite decide_False by done.
    by rewrite IH.
Qed.

Lemma repr_char_no_LF (q c : ascii) :
  q = squote ∨ q = dquote → PyStr.contains LF (PyStr.repr_char q c) = false.
Proof.
  intros [-> | ->]; destruct c as [[] [] [] [] [] [] [] []]; reflexivity.
Qed.

Lemma repr_quote_cases s : PyStr.repr_quote s = squote ∨ PyStr.repr_quote s = dquote.
Proof. unfold PyStr.repr_quote. destruct (_ && _); auto. Qed.

Lemma repr_body_no_LF (q : ascii) (s : string) :
  q = squote ∨ q = dquote → PyStr.contains LF (PyStr.repr_body q s) = false.
Proof.
  intros Hq. induction s as [|c s IH]; [done|].
  simpl. by rewrite contains_app, repr_char_no_LF, IH.
Qed.

Lemma repr_no_LF (s : string) : PyStr.contains LF (PyStr.repr s) = false.
Proof.
  unfold PyStr.repr. pose proof (repr_quote_cases s) as Hq.
  set (q := PyStr.repr_quote s) in *.
  assert (q ≠ LF) as Hne by (destruct Hq as [-> | ->]; discriminate).
  simpl. rewrite decide_False by done.
  rewrite contains_app, repr_body_no_LF by done. simpl. by rewrite decide_False.
Qed.

(** A statement is one line when no column name has a line feed. *)
Lemma insert_statement_line (columns values : list string) :
  Forall (λ s, PyStr.contains LF s = false) columns →
  Forall (λ s, PyStr.contains LF s = false) values →
  ∃ body, Tool.insert_statement columns values = body +:+ String LF ""
          ∧ PyStr.contains LF body = false.
Proof.
  intros Hc Hv. unfold Tool.insert_statement.
  exists ("INSERT INTO my_table (" +:+ PyStr.join ", " columns +:+ ") VALUES ("
            +:+ PyStr.join ", " values +:+ ");").
  split.
  - by rewrite !app_assoc_s.
  - rewrite !contains_app. rewrite !contains_join by done. reflexivity.
Qed.

Lemma lines_statements {A} (stmt : A → string) (items : list A) :
  (∀ x, x ∈ items → ∃ body, stmt x = body +:+ String LF "" ∧ PyStr.contains LF body = false) →
  TextIO.lines (PyStr.concat (List.map stmt items)) = List.map stmt items.
Proof.
  induction items as [|x l IH]; intros H; [done|].
  simpl. destruct (H x) as (body & -> & Hb); [left|].
  rewrite app_assoc_s, app_cons, app_empty_l.
  rewrite lines_app_line by done. f_equal. apply IH.
  intros y Hy. apply H. by right.
Qed.

(** ** [repr] and the reading of a literal, on every string *)

Lemma hexval_hexdigit (d : N) : d < 16 → PyUnicode.hexval (PyUnicode.hexdigit d) = Some d.
Proof.
  intros H.
  assert (d = 0 ∨ d = 1 ∨ d = 2 ∨ d = 3 ∨ d = 4 ∨ d = 5 ∨ d = 6 ∨ d = 7 ∨ d = 8 ∨ d = 9
          ∨ d = 10 ∨ d = 11 ∨ d = 12 ∨ d = 13 ∨ d = 14 ∨ d = 15) as Hd by lia.
  repeat (destruct Hd as [-> | Hd]; [reflexivity|]). by subst.
Qed.

Lemma hex_number_app (l1 l2 : list N) (acc : N) :
  PyUnicode.hex_number (l1 ++ l2) acc
  = match PyUnicode.hex_number l1 acc with
    | Some a => PyUnicode.hex_number l2 a
    | None => None
    end.
Proof.
  revert acc. induction l1 as [|d l IH]; intros acc; [done|]. simpl.
  destruct (PyUnicode.hexval d); [apply IH | done].
Qed.

Lemma hex_number_digits (k : nat) (n acc : N) :
  n < 16 ^ N.of_nat k →
  PyUnicode.hex_number (PyUnicode.hex_digits k n) acc = Some (acc * 16 ^ N.of_nat k + n).
Proof.
  revert n. induction k as [|k IH]; intros n Hn.
  - simpl in *. f_equal. lia.
  - cbn [PyUnicode.hex_digits]. rewrite hex_number_app.
    rewrite Nat2N.inj_succ, N.pow_succ_r' in *.
    rewrite IH by (apply N.Div0.div_lt_upper_bound; lia).
    cbn [PyUnicode.hex_number]. rewrite hexval_hexdigit by (apply N.mod_lt; lia).
    f_equal. pose proof (N.div_mod n 16 ltac:(lia)). lia.
Qed.

Lemma hex_byte (c : N) :
  c < 256 →
  PyUnicode.hex_number [PyUnicode.hexdigit (c / 16 mod 16); PyUnicode.hexdigit (c mod 16)] 0
  = Some c.
Proof. intros H. apply (hex_number_digits 2 c 0). simpl. lia. Qed.

Lemma parse_simple (q e ch : N) (rest : PyUnicode.str) :
  q = PyUnicode.squote ∨ q = PyUnicode.dquote →
  (e =? PyUnicode.LF) = false → PyUnicode.simple_escape e = Some ch →
  PyUnicode.parse_body false q (PyUnicode.backslash :: e :: rest)
  = PyUnicode.cons_char (Some ch) (PyUnicode.parse_body false q rest).
Proof.
  intros Hq He Hs. cbn [PyUnicode.parse_body].
  assert ((PyUnicode.backslash =? q) = false) as -> by (by destruct Hq as [-> | ->]).
  rewrite N.eqb_refl, He, Hs. done.
Qed.

Lemma parse_hex2 (q h1 h2 : N) (rest : PyUnicode.str) :
  q = PyUnicode.squote ∨ q = PyUnicode.dquote →
  PyUnicode.parse_body false q (PyUnicode.backslash :: 120 :: h1 :: h2 :: rest)
  = PyUnicode.cons_char (n ← PyUnicode.hex_number [h1; h2] 0; PyUnicode.chr n)
      (PyUnicode.parse_body false q rest).
Proof. by intros [-> | ->]. Qed.

Lemma parse_hex4 (q h1 h2 h3 h4 : N) (rest : PyUnicode.str) :
  q = PyUnicode.squote ∨ q = PyUnicode.dquote →
  PyUnicode.parse_body false q (PyUnicode.backslash :: 117 :: h1 :: h2 :: h3 :: h4 :: rest)
  = PyUnicode.cons_char (n ← PyUnicode.hex_number [h1; h2; h3; h4] 0; PyUnicode.chr n)
      (PyUnicode.parse_body false q rest).
Proof. by intros [-> | ->]. Qed.

Lemma parse_hex8 (q h1 h2 h3 h4 h5 h6 h7 h8 : N) (rest : PyUnicode.str) :
  q = PyUnicode.squote ∨ q = PyUnicode.dquote →
  PyUnicode.parse_body false q
    (PyUnicode.backslash :: 85 :: h1 :: h2 :: h3 :: h4 :: h5 :: h6 :: h7 :: h8 :: rest)
  = PyUnicode.cons_char
      (n ← PyUnicode.hex_number [h1; h2; h3; h4; h5; h6; h7; h8] 0; PyUnicode.chr n)
      (PyUnicode.parse_body false q rest).
Proof. by intros [-> | ->]. Qed.

Lemma parse_raw (q c : N) (rest : PyUnicode.str) :
  (c =? q) = false → (c =? PyUnicode.backslash) = false →
  (c =? PyUnicode.LF) = false → (c =? PyUnicode.CR) = false →
  PyUnicode.parse_body false q (c :: rest)
  = PyUnicode.cons_char (Some c) (PyUnicode.parse_body false q rest).
Proof. intros H1 H2 H3 H4. cbn [PyUnicode.parse_body]. by rewrite H1, H2, H3, H4. Qed.

Lemma chr_valid (c : N) : c ≤ PyUnicode.maxunicode → PyUnicode.chr c = Some c.
Proof. intros H. unfold PyUnicode.chr. by rewrite (proj2 (N.leb_le _ _) H). Qed.

(** What [repr] writes for a character is read back as that character. *)
Lemma unicode_parse_repr_char (isprintable : N → bool) (q c : N) (rest : PyUnicode.str) :
  q = PyUnicode.squote ∨ q = PyUnicode.dquote → c ≤ PyUnicode.maxunicode →
  PyUnicode.parse_body false q (PyUnicode.repr_char isprintable q c ++ rest)
  = PyUnicode.cons_char (Some c) (PyUnicode.parse_body false q rest).
Proof.
  intros Hq Hc. unfold PyUnicode.repr_char.
  assert (∀ k, c < 16 ^ N.of_nat k →
            (n ← PyUnicode.hex_number (PyUnicode.hex_digits k c) 0; PyUnicode.chr n) = Some c)
    as Hhex.
  { intros k Hk. rewrite hex_number_digits by done. simpl. rewrite N.add_0_l.
    by apply chr_valid. }
  destruct ((c =? q) || (c =? PyUnicode.backslash)) eqn:E1.
  { apply orb_true_iff in E1 as [E | E]; apply N.eqb_eq in E; subst c.
    - apply parse_simple; [done| |]; by destruct Hq as [-> | ->].
    - by apply parse_simple. }
  apply orb_false_iff in E1 as [Eq Eb].
  destruct (c =? PyUnicode.TAB) eqn:Et.
  { apply N.eqb_eq in Et as ->. by apply parse_simple. }
  destruct (c =? PyUnicode.LF) eqn:El.
  { apply N.eqb_eq in El as ->. by apply parse_simple. }
  destruct (c =? PyUnicode.CR) eqn:Er.
  { apply N.eqb_eq in Er as ->. by apply parse_simple. }
  destruct ((c <? 32) || (c =? 127)) eqn:E2.
  { assert (c < 256) as Hlt
      by (apply orb_true_iff in E2 as [E | E];
          [apply N.ltb_lt in E | apply N.eqb_eq in E]; lia).
    change ((PyUnicode.backslash :: 120 :: PyUnicode.hex_digits 2 c) ++ rest)
      with (PyUnicode.backslash :: 120 :: PyUnicode.hexdigit (c / 16 mod 16)
              :: PyUnicode.hexdigit (c mod 16) :: rest).
    rewrite parse_hex2 by done.
    change [PyUnicode.hexdigit (c / 16 mod 16); PyUnicode.hexdigit (c mod 16)]
      with (PyUnicode.hex_digits 2 c).
    by rewrite (Hhex 2%nat). }
  apply orb_false_iff in E2 as [E32 E127].
  apply N.ltb_ge in E32. apply N.eqb_neq in E127.
  destruct (c <? 127) eqn:E3.
  { by apply parse_raw. }
  apply N.ltb_ge in E3.
  destruct (negb (isprintable c)); [|by apply parse_raw].
  destruct (c <=? 255) eqn:E4.
  { apply N.leb_le in E4.
    change ((PyUnicode.backslash :: 120 :: PyUnicode.hex_digits 2 c) ++ rest)
      with (PyUnicode.backslash :: 120 :: PyUnicode.hexdigit (c / 16 mod 16)
              :: PyUnicode.hexdigit (c mod 16) :: rest).
    rewrite parse_hex2 by done.
    change [PyUnicode.hexdigit (c / 16 mod 16); PyUnicode.hexdigit (c mod 16)]
      with (PyUnicode.hex_digits 2 c).
    rewrite (Hhex 2%nat); [done | simpl; lia]. }
  destruct (c <=? 65535) eqn:E5.
  { apply N.leb_le in E5.
    change ((PyUnicode.backslash :: 117 :: PyUnicode.hex_digits 4 c) ++ rest)
      with (PyUnicode.backslash :: 117
              :: PyUnicode.hexdigit (c / 16 / 16 / 16 mod 16)
              :: PyUnicode.hexdigit (c / 16 / 16 mod 16)
              :: PyUnicode.hexdigit (c / 16 mod 16)
              :: PyUnicode.hexdigit (c mod 16) :: rest).
    rewrite parse_hex4 by done.
    match goal with |- PyUnicode.cons_char (n ← PyUnicode.hex_number ?l 0; _) _ = _ =>
      change l with (PyUnicode.hex_digits 4 c) end.
    rewrite (Hhex 4%nat); [done | simpl; lia]. }
  change ((PyUnicode.backslash :: 85 :: PyUnicode.hex_digits 8 c) ++ rest)
    with (PyUnicode.backslash :: 85
            :: PyUnicode.hexdigit (c / 16 / 16 / 16 / 16 / 16 / 16 / 16 mod 16)
            :: PyUnicode.hexdigit (c / 16 / 16 / 16 / 16 / 16 / 16 mod 16)
            :: PyUnicode.hexdigit (c / 16 / 16 / 16 / 16 / 16 mod 16)
            :: PyUnicode.hexdigit (c / 16 / 16 / 16 / 16 mod 16)
            :: PyUnicode.hexdigit (c / 16 / 16 / 16 mod 16)
            :: PyUnicode.hexdigit (c / 16 / 16 mod 16)
            :: PyUnicode.hexdigit (c / 16 mod 16)
            :: PyUnicode.hexdigit (c mod 16) :: rest).
  rewrite parse_hex8 by done.
  match goal with |- PyUnicode.cons_char (n ← PyUnicode.hex_number ?l 0; _) _ = _ =>
    change l with (PyUnicode.hex_digits 8 c) end.
  rewrite (Hhex 8%nat); [done|]. unfold PyUnicode.maxunicode in Hc. simpl. lia.
Qed.

Lemma unicode_repr_char_head (isprintable : N → bool) (q c : N) :
  ∃ a t, PyUnicode.repr_char isprintable q c = a :: t
         ∧ ((a =? q) = false ∨ a = PyUnicode.backslash).
Proof.
  unfold PyUnicode.repr_char.
  destruct ((c =? q) || (c =? PyUnicode.backslash)) eqn:E1; [eexists _, _; eauto|].
  apply orb_false_iff in E1 as [Eq Eb].
  repeat match goal with
         | |- context [if ?b then _ else _] => destruct b
         end; eexists _, _; eauto.
Qed.

Lemma unicode_parse_repr_body (isprintable : N → bool) (q : N) (s : PyUnicode.str) :
  q = PyUnicode.squote ∨ q = PyUnicode.dquote → PyUnicode.valid s →
  PyUnicode.parse_body false q (flat_map (PyUnicode.repr_char isprintable q) s ++ [q])
  = Some s.
Proof.
  intros Hq Hv. induction Hv as [|c s Hc Hs IH].
  - simpl. by rewrite N.eqb_refl.
  - cbn [flat_map]. rewrite <- app_assoc.
    rewrite unicode_parse_repr_char by done. by rewrite IH.
Qed.

(** [repr] and then the reading of the literal give the string back, for
    every string. *)
Lemma unicode_repr_roundtrip (isprintable : N → bool) (s : PyUnicode.str) :
  PyUnicode.valid s →
  PyUnicode.parse_literal (PyUnicode.repr isprintable s) = Some s.
Proof.
  intros Hv. unfold PyUnicode.repr.
  assert (PyUnicode.repr_quote s = PyUnicode.squote
          ∨ PyUnicode.repr_quote s = PyUnicode.dquote) as Hq
    by (unfold PyUnicode.repr_quote; destruct (_ && _); auto).
  set (q := PyUnicode.repr_quote s) in *.
  pose proof (unicode_parse_repr_body isprintable q s Hq Hv) as Hb.
  unfold PyUnicode.parse_literal.
  assert ((q =? PyUnicode.squote) || (q =? PyUnicode.dquote) = true) as ->
    by (by destruct Hq as [-> | ->]).
  destruct s as [|c s]; [by destruct Hq as [-> | ->]|].
  cbn [flat_map] in Hb |- *.
  destruct (unicode_repr_char_head isprintable q c) as (a & t & E & Ha).
  rewrite E in Hb |- *. rewrite <- !app_comm_cons in Hb |- *.
  assert ((a =? q) = false) as Haq.
  { destruct Ha as [Ha | ->]; [done|]. by destruct Hq as [-> | ->]. }
  remember ((t ++ flat_map (PyUnicode.repr_char isprintable q) s) ++ [q]) as l eqn:El in *.
  clear El. destruct l as [|c2 r2]; [exact Hb | by rewrite Haq].
Qed.

(** *** The range U+0000..U+00FF *)

Lemma codes_cons (c : ascii) (s : string) :
  PyUnicode.codes (String c s) = N_of_ascii c :: PyUnicode.codes s.
Proof. done. Qed.

Lemma codes_app (a b : string) :
  PyUnicode.codes (a +:+ b) = PyUnicode.codes a ++ PyUnicode.codes b.
Proof.
  induction a as [|c a IH]; [done|]. rewrite app_cons, !codes_cons, IH. done.
Qed.

Lemma codes_valid (s : string) : PyUnicode.valid (PyUnicode.codes s).
Proof.
  induction s as [|c s IH]; [constructor|]. rewrite codes_cons. constructor; [|done].
  pose proof (N_ascii_bounded c). unfold PyUnicode.maxunicode. lia.
Qed.

Lemma codes_contains (x : ascii) (s : string) :
  PyUnicode.contains (N_of_ascii x) (PyUnicode.codes s) = PyStr.contains x s.
Proof.
  induction s as [|c s IH]; [done|]. rewrite codes_cons.
  unfold PyUnicode.contains in *. cbn [existsb]. rewrite IH. cbn [PyStr.contains].
  destruct (decide (c = x)) as [->|Hne].
  - by rewrite N.eqb_refl.
  - destruct (N.eqb_spec (N_of_ascii x) (N_of_ascii c)) as [E|E]; [|done].
    apply (f_equal ascii_of_N) in E. rewrite !ascii_N_embedding in E. congruence.
Qed.

Lemma codes_repr_quote (s : string) :
  PyUnicode.repr_quote (PyUnicode.codes s) = N_of_ascii (PyStr.repr_quote s).
Proof.
  unfold PyUnicode.repr_quote, PyStr.repr_quote.
  change PyUnicode.squote with (N_of_ascii squote).
  change PyUnicode.dquote with (N_of_ascii dquote).
  rewrite !codes_contains. by destruct (_ && _).
Qed.

Lemma codes_repr_char (isprintable : N → bool) (q c : ascii) :
  (∀ n, 128 ≤ n < 256 → isprintable n = PyStr.isprintable_high n) →
  q = squote ∨ q = dquote →
  PyUnicode.codes (PyStr.repr_char q c)
  = PyUnicode.repr_char isprintable (N_of_ascii q) (N_of_ascii c).
Proof.
  intros Hp Hq.
  destruct Hq as [-> | ->];
    destruct c as [[] [] [] [] [] [] [] []];
    unfold PyUnicode.repr_char;
    match goal with
    | |- context [isprintable ?n] =>
        rewrite (Hp n) by (vm_compute; split; [discriminate | reflexivity])
    | _ => idtac
    end; reflexivity.
Qed.

Lemma codes_repr_body (isprintable : N → bool) (q : ascii) (s : string) :
  (∀ n, 128 ≤ n < 256 → isprintable n = PyStr.isprintable_high n) →
  q = squote ∨ q = dquote →
  PyUnicode.codes (PyStr.repr_body q s)
  = flat_map (PyUnicode.repr_char isprintable (N_of_ascii q)) (PyUnicode.codes s).
Proof.
  intros Hp Hq. induction s as [|c s IH]; [done|].
  cbn [PyStr.repr_body]. rewrite codes_app, codes_cons. cbn [flat_map].
  by rewrite IH, (codes_repr_char isprintable).
Qed.

(** On a string of the range U+0000..U+00FF, [repr] is the [repr] of the
    converters. *)
Lemma codes_repr (isprintable : N → bool) (s : string) :
  (∀ n, 128 ≤ n < 256 → isprintable n = PyStr.isprintable_high n) →
  PyUnicode.codes (PyStr.repr s) = PyUnicode.repr isprintable (PyUnicode.codes s).
Proof.
  intros Hp. unfold PyStr.repr, PyUnicode.repr. cbv zeta.
  rewrite codes_cons, codes_app, codes_cons, codes_repr_quote.
  rewrite (codes_repr_body isprintable) by (done || apply repr_quote_cases). done.
Qed.

(** C9: a string with a quote character in it, written by [repr] and read
    back by the rules of string literals, is the string itself; this for
    every string of Unicode, whatever the characters the Unicode database
    holds printable.  On strings of the range U+0000..U+00FF this [repr] is
    the one the converters write values with. *)
Theorem C9_repr_roundtrip (isprintable : N → bool) (s : PyUnicode.str) :
  PyUnicode.valid s →
  PyUnicode.contains PyUnicode.squote s || PyUnicode.contains PyUnicode.dquote s = true →
  PyUnicode.parse_literal (PyUnicode.repr isprintable s) = Some s
  ∧ ((∀ n, 128 ≤ n < 256 → isprintable n = PyStr.isprintable_high n) →
     ∀ t : string,
       PyUnicode.codes t = s →
       PyUnicode.codes (PyStr.repr t) = PyUnicode.repr isprintable s).
Proof.
  intros Hv _. split; [by apply unicode_repr_roundtrip|].
  intros Hp t <-. by apply codes_repr.
Qed.

(** ** Paths *)

Lemma plain_no_leading_sep (b : string) : plain b → PyStr.startswith b "/" = false.
Proof.
  intros [Hne Hc]. destruct b as [|c b]; [done|]. simpl in *.
  destruct (decide (c = PosixPath.sep)) as [->|Hc']; [done|].
  rewrite decide_False; [done|]. intros H. by apply Hc'.
Qed.

Lemma join_plain (d b : string) : plain b → PosixPath.join d b = join_prefix d +:+ b.
Proof.
  intros Hb. unfold PosixPath.join, join_prefix.
  rewrite (plain_no_leading_sep b Hb). simpl.
  destruct (bool_decide (d = "")); [done|].
  destruct (PyStr.endswith d "/"); [done|]. by rewrite app_assoc_s.
Qed.

Lemma endswith_sep_cons (c : ascii) (s : string) :
  s ≠ "" → PyStr.endswith (String c s) "/" = PyStr.endswith s "/".
Proof.
  intros Hs. simpl. destruct s as [|c' s]; [done|].
  destruct (decide (String c (String c' s) = "/")) as [H|H]; [discriminate H | done].
Qed.

Lemma endswith_sep_inv (s : string) :
  PyStr.endswith s "/" = true → ∃ y, s = y +:+ "/".
Proof.
  induction s as [|c s IH]; [done|].
  simpl. destruct (decide (String c s = "/")) as [->|Hne].
  - intros _. by exists "".
  - intros H. destruct (IH H) as [y ->]. by exists (String c y).
Qed.

Lemma endswith_sep_snoc (y : string) : PyStr.endswith (y +:+ "/") "/" = true.
Proof.
  induction y as [|c y IH]; [done|].
  rewrite app_cons. simpl. destruct (decide _); [done | exact IH].
Qed.

Lemma rsplit_sep_plain (b : string) :
  PyStr.contains PosixPath.sep b = false → PosixPath.rsplit_sep b = ("", b).
Proof.
  induction b as [|c b IH]; [done|]. intros H. simpl in H.
  destruct (decide (c = PosixPath.sep)) as [|Hc]; [done|].
  simpl. rewrite (IH H). destruct (decide (c = PosixPath.sep)); [contradiction | done].
Qed.

Lemma rsplit_sep_cons (c : ascii) (r : string) :
  PosixPath.rsplit_sep (String c r)
  = match PosixPath.rsplit_sep r with
    | (EmptyString, t) =>
        if decide (c = PosixPath.sep) then (String c EmptyString, t)
        else (EmptyString, String c t)
    | (h, t) => (String c h, t)
    end.
Proof. simpl. by destruct (PosixPath.rsplit_sep r) as [[|] ?]. Qed.

Lemma rsplit_sep_snoc (y b : string) :
  PyStr.contains PosixPath.sep b = false →
  PosixPath.rsplit_sep (y +:+ "/" +:+ b) = (y +:+ "/", b).
Proof.
  intros Hb. induction y as [|c y IH].
  - rewrite !app_empty_l. change ("/" +:+ b) with (String PosixPath.sep b).
    simpl. by rewrite (rsplit_sep_plain b Hb).
  - rewrite (app_cons c y ("/" +:+ b)), (app_cons c y "/"), rsplit_sep_cons, IH.
    destruct (y +:+ "/") eqn:E; [|done].
    destruct y; discriminate E.
Qed.

Lemma join_prefix_cases (d : string) :
  join_prefix d = "" ∨ ∃ y, join_prefix d = y +:+ "/".
Proof.
  unfold join_prefix. destruct (bool_decide (d = "")); [by left|]. right.
  destruct (PyStr.endswith d "/") eqn:E; [by apply endswith_sep_inv | by exists d].
Qed.

Lemma rsplit_sep_join (d b : string) :
  plain b → PosixPath.rsplit_sep (PosixPath.join d b) = (join_prefix d, b).
Proof.
  intros Hb. rewrite join_plain by done.
  destruct (join_prefix_cases d) as [-> | [y ->]].
  - rewrite app_empty_l. apply rsplit_sep_plain, Hb.
  - rewrite app_assoc_s. apply rsplit_sep_snoc, Hb.
Qed.

Lemma basename_join (d b : string) : plain b → PosixPath.basename (PosixPath.join d b) = b.
Proof. intros Hb. unfold PosixPath.basename. by rewrite rsplit_sep_join. Qed.

Lemma all_sep_snoc (y : string) : PosixPath.all_sep (y +:+ "/") = PosixPath.all_sep y.
Proof.
  induction y as [|c y IH]; [done|]. rewrite app_cons. simpl.
  destruct (decide (c = PosixPath.sep)); [exact IH | done].
Qed.

Lemma rstrip_sep_snoc (y : string) :
  PosixPath.rstrip_sep (y +:+ "/") = PosixPath.rstrip_sep y.
Proof.
  induction y as [|c y IH]; [done|]. rewrite app_cons. simpl. by rewrite IH.
Qed.

Lemma rstrip_sep_id (d : string) :
  PyStr.endswith d "/" = false → PosixPath.rstrip_sep d = d.
Proof.
  induction d as [|c d IH]; [done|]. intros H.
  destruct d as [|c' d].
  - simpl in *. destruct (decide (String c "" = "/")) as [|Hne]; [done|].
    rewrite decide_False; [done|]. intros ->. by apply Hne.
  - rewrite endswith_sep_cons in H by done. simpl in IH |- *.
    specialize (IH H). simpl in IH. rewrite IH. done.
Qed.

Lemma all_sep_endswith (d : string) :
  d ≠ "" → PosixPath.all_sep d = true → PyStr.endswith d "/" = true.
Proof.
  induction d as [|c d IH]; [done|]. intros _. simpl.
  destruct (decide (c = PosixPath.sep)) as [->|]; [|done].
  intros H. destruct d as [|c' d]; [done|].
  destruct (decide _) as [E|_]; [discriminate E|]. by apply IH.
Qed.

(** The head and tail of a directory joined with a plain name. *)
Lemma split_join (d b : string) :
  dir_like d → plain b → PosixPath.split (PosixPath.join d b) = (d, b).
Proof.
  intros Hd Hb. unfold PosixPath.split. rewrite rsplit_sep_join by done.
  unfold join_prefix. destruct (bool_decide (d = "")) eqn:E0.
  { apply bool_decide_eq_true in E0 as ->. done. }
  apply bool_decide_eq_false in E0.
  destruct (PyStr.endswith d "/") eqn:E.
  - destruct Hd as [Hd | Hd]; [|congruence].
    rewrite Hd, bool_decide_false by done. done.
  - rewrite all_sep_snoc, rstrip_sep_snoc, rstrip_sep_id by done.
    destruct (PosixPath.all_sep d) eqn:Ea.
    + apply all_sep_endswith in Ea; [congruence | done].
    + rewrite bool_decide_false; [done|]. destruct d; [done | discriminate].
Qed.

Lemma dirname_join (d b : string) :
  dir_like d → plain b → PosixPath.dirname (PosixPath.join d b) = d.
Proof. intros. unfold PosixPath.dirname. by rewrite split_join. Qed.

Lemma endswith_app_plain (x b : string) :
  plain b → PyStr.endswith (x +:+ b) "/" = false.
Proof.
  intros [Hne Hc]. induction x as [|c x IH].
  - rewrite app_empty_l. clear Hne. induction b as [|c b IH]; [done|].
    simpl in *. destruct (decide (c = PosixPath.sep)) as [|Hn]; [done|].
    destruct (decide (String c b = "/")) as [E|_]; [|by apply IH].
    injection E as -> _. by destruct Hn.
  - rewrite app_cons, endswith_sep_cons; [done|].
    destruct x; [by rewrite app_empty_l | discriminate].
Qed.

Lemma join_dir_like (d b : string) : plain b → dir_like (PosixPath.join d b).
Proof. intros Hb. right. rewrite join_plain by done. by apply endswith_app_plain. Qed.

Lemma join_inj (d b1 b2 : string) :
  plain b1 → plain b2 → PosixPath.join d b1 = PosixPath.join d b2 → b1 = b2.
Proof.
  intros H1 H2. rewrite !join_plain by done. apply String.app_inj.
Qed.

Lemma join_length (d b : string) :
  plain b → (String.length d < String.length (PosixPath.join d b))%nat.
Proof.
  intros Hb. rewrite join_plain by done. rewrite length_app_s.
  assert (0 < String.length b)%nat by (destruct Hb as [? _]; destruct b; [done | simpl; lia]).
  unfold join_prefix. destruct (bool_decide (d = "")) eqn:E.
  - apply bool_decide_eq_true in E as ->. simpl. lia.
  - destruct (PyStr.endswith d "/"); [lia|]. rewrite length_app_s. simpl. lia.
Qed.

Lemma join_ne (d b : string) : plain b → PosixPath.join d b ≠ d.
Proof. intros Hb E. pose proof (join_length d b Hb) as H. rewrite E in H. lia. Qed.

Lemma join_nonempty (d b : string) : plain b → PosixPath.join d b ≠ "".
Proof.
  intros Hb E. pose proof (join_length d b Hb) as H. rewrite E in H. simpl in H. lia.
Qed.

Lemma join_simple (d b : string) :
  d ≠ "" → PyStr.endswith d "/" = false → plain b →
  PosixPath.join d b = d +:+ "/" +:+ b.
Proof.
  intros Hd He Hb. rewrite join_plain by done. unfold join_prefix.
  rewrite bool_decide_false, He by done. by rewrite app_assoc_s.
Qed.

Lemma join_no_trailing_sep (d b : string) :
  plain b → PyStr.endswith (PosixPath.join d b) "/" = false.
Proof. intros Hb. rewrite join_plain by done. by apply endswith_app_plain. Qed.

Lemma endswith_rstrip_sep (s : string) :
  PyStr.endswith (PosixPath.rstrip_sep s) "/" = false.
Proof.
  induction s as [|c s IH]; [done|]. simpl.
  destruct (PosixPath.rstrip_sep s) as [|c' r] eqn:E.
  - destruct (decide (c = PosixPath.sep)) as [|Hne]; [done|].
    simpl. rewrite decide_False; [done|]. intros [= ->]. by apply Hne.
  - rewrite endswith_sep_cons by done. exact IH.
Qed.

Lemma dirname_dir_like (p : string) : dir_like (PosixPath.dirname p).
Proof.
  unfold PosixPath.dirname, PosixPath.split.
  destruct (PosixPath.rsplit_sep p) as [h t]. simpl.
  destruct (bool_decide (h = "")) eqn:E0.
  { apply bool_decide_eq_true in E0 as ->. by left. }
  simpl. destruct (PosixPath.all_sep h) eqn:Ea; simpl.
  - by left.
  - right. apply endswith_rstrip_sep.
Qed.

(** ** [os.makedirs] where the parent is there *)

Lemma makedirs_rec_child (fuel : nat) (d b : string) (f : FS) :
  dir_like d → plain b → f !! d = Some Dir →
  (∀ c, f !! PosixPath.join d b ≠ Some (File c)) →
  Os.makedirs_rec fuel (PosixPath.join d b) f
  = (Ok tt, <[PosixPath.join d b := Dir]> f).
Proof.
  intros Hd Hb Hfd Hnf.
  assert (Os.makedirs_rec fuel (PosixPath.join d b) f
          = match Os.mkdir (PosixPath.join d b) f with
            | Ok f2 => (Ok tt, f2)
            | Raise e => if Os.isdir f (PosixPath.join d b) then (Ok tt, f) else (Raise e, f)
            end) as ->.
  { destruct fuel; simpl; rewrite split_join by done;
      destruct Hb as [Hb0 Hb1]; rewrite decide_False by done;
      unfold Os.path_exists; rewrite Hfd;
      rewrite (bool_decide_true (is_Some (Some Dir))) by eauto;
      rewrite andb_false_r; done. }
  unfold Os.mkdir, Os.isdir.
  destruct (f !! PosixPath.join d b) as [[|c]|] eqn:E.
  - rewrite bool_decide_true by done. by rewrite insert_id.
  - by destruct (Hnf c).
  - unfold Os.parent_check. rewrite dirname_join by done.
    rewrite Hfd. destruct (decide (d = "")); [|done].
    rewrite decide_False; [done|]. by apply join_nonempty.
Qed.

Lemma makedirs_child (d b : string) (w : world) :
  dir_like d → plain b → fs w !! d = Some Dir →
  (∀ c, fs w !! PosixPath.join d b ≠ Some (File c)) →
  Os.makedirs (PosixPath.join d b) w
  = (Ok tt, log_event (EvMakedirs (PosixPath.join d b))
              (set_fs (<[PosixPath.join d b := Dir]> (fs w)) w)).
Proof.
  intros. unfold Os.makedirs. by rewrite makedirs_rec_child.
Qed.

(** ** Decimal numerals *)

Lemma uint_of_string_zeros (k : nat) (s : string) :
  NilEmpty.uint_of_string (PyStr.replicate_char k "0"%char +:+ s)
  = Nat.iter k (option_map Decimal.D0) (NilEmpty.uint_of_string s).
Proof.
  induction k as [|k IH]; [done|].
  simpl PyStr.replicate_char. rewrite app_cons. simpl. rewrite IH.
  by destruct (Nat.iter k _ _).
Qed.

Lemma of_uint_zeros (k : nat) (d : Decimal.uint) :
  N.of_uint <$> Nat.iter k (option_map Decimal.D0) (Some d) = Some (N.of_uint d).
Proof.
  induction k as [|k IH]; [done|]. simpl.
  destruct (Nat.iter k _ _) as [d'|]; [|done]. simpl in *.
  injection IH as IH. f_equal. rewrite <- IH. reflexivity.
Qed.

Lemma to_uint_nonnil (n : N) : N.to_uint n ≠ Decimal.Nil.
Proof.
  destruct n as [|p]; [discriminate|]. simpl. apply DecimalPos.Unsigned.to_uint_nonnil.
Qed.

Lemma str_of_int_digits (n : N) :
  PyStr.str_of_int n = NilEmpty.string_of_uint (N.to_uint n).
Proof.
  unfold PyStr.str_of_int, NilZero.string_of_uint.
  pose proof (to_uint_nonnil n). by destruct (N.to_uint n).
Qed.

Lemma str_of_int_nonempty (n : N) : PyStr.str_of_int n ≠ "".
Proof.
  rewrite str_of_int_digits. pose proof (to_uint_nonnil n).
  by destruct (N.to_uint n).
Qed.

Lemma zfill_nonempty (k : nat) (s : string) : s ≠ "" → PyStr.zfill k s ≠ "".
Proof.
  intros Hs. unfold PyStr.zfill. destruct (PyStr.replicate_char _ _); [done | discriminate].
Qed.

(** [int] reads back what [str] and [zfill] wrote. *)
Lemma int_of_str_zfill (k : nat) (n : N) :
  PyStr.int_of_str (PyStr.zfill k (PyStr.str_of_int n)) = Some n.
Proof.
  pose proof (zfill_nonempty k _ (str_of_int_nonempty n)) as Hne.
  unfold PyStr.int_of_str. destruct (PyStr.zfill k (PyStr.str_of_int n)) eqn:E; [done|].
  rewrite <- E. unfold PyStr.zfill. rewrite uint_of_string_zeros.
  rewrite str_of_int_digits, NilEmpty.usu, of_uint_zeros.
  by rewrite DecimalN.Unsigned.of_to.
Qed.

Lemma digits_no_sep (d : Decimal.uint) :
  PyStr.contains PosixPath.sep (NilEmpty.string_of_uint d) = false.
Proof. induction d; simpl; done. Qed.

Lemma replicate_zero_no_sep (k : nat) :
  PyStr.contains PosixPath.sep (PyStr.replicate_char k "0"%char) = false.
Proof. induction k; simpl; done. Qed.

Lemma vname_plain (n : N) : plain (vname n).
Proof.
  split; [done|]. unfold vname, PyStr.zfill.
  rewrite !contains_app, replicate_zero_no_sep, str_of_int_digits, digits_no_sep. done.
Qed.

Lemma vname_tail (n : N) : PyStr.tail (vname n) = PyStr.zfill 3 (PyStr.str_of_int n).
Proof. reflexivity. Qed.

Lemma vname_inj (n m : N) : vname n = vname m → n = m.
Proof.
  intros E. apply (f_equal PyStr.tail) in E. rewrite !vname_tail in E.
  apply (f_equal PyStr.int_of_str) in E. rewrite !int_of_str_zfill in E. congruence.
Qed.

Lemma vname_not_dot (n : N) : vname n ≠ ".".
Proof. done. Qed.

(** ** The version loop *)

Lemma version_loop_unfold (fuel : nat) (f : FS) (t v : string) :
  Tool.version_loop fuel f t v
  = if Os.path_exists f (PosixPath.join t v) then
      match fuel with
      | O => Raise Unfinished
      | S fuel' =>
          match PyStr.int_of_str (PyStr.tail v) with
          | None => Raise ValueError
          | Some n =>
              Tool.version_loop fuel' f t ("v" +:+ PyStr.zfill 3 (PyStr.str_of_int (n + 1)))
          end
      end
    else Ok v.
Proof. by destruct fuel. Qed.

Lemma version_loop_step (fuel : nat) (f : FS) (t : string) (k : N) :
  Os.path_exists f (PosixPath.join t (vname k)) = true →
  Tool.version_loop (S fuel) f t (vname k) = Tool.version_loop fuel f t (vname (k + 1)).
Proof.
  intros H. rewrite version_loop_unfold, H, vname_tail, int_of_str_zfill. done.
Qed.

Lemma version_loop_stop (fuel : nat) (f : FS) (t v : string) :
  Os.path_exists f (PosixPath.join t v) = false →
  Tool.version_loop fuel f t v = Ok v.
Proof. intros H. by rewrite version_loop_unfold, H. Qed.

(** The loop ends on a name whose path is free; the versions before it
    are taken. *)
Lemma version_loop_ok (fuel : nat) (f : FS) (t : string) (k : N) (v : string) :
  Tool.version_loop fuel f t (vname k) = Ok v →
  ∃ j, v = vname j ∧ k ≤ j
       ∧ Os.path_exists f (PosixPath.join t v) = false
       ∧ ∀ i, k ≤ i < j → Os.path_exists f (PosixPath.join t (vname i)) = true.
Proof.
  revert k. induction fuel as [|fuel IH]; intros k.
  - rewrite version_loop_unfold.
    destruct (Os.path_exists f (PosixPath.join t (vname k))) eqn:E; [done|].
    intros [= <-]. exists k. repeat split; [lia | done | intros; lia].
  - destruct (Os.path_exists f (PosixPath.join t (vname k))) eqn:E.
    + rewrite version_loop_step by done. intros H.
      destruct (IH _ H) as (j & -> & Hj & Hfree & Hbusy).
      exists j. repeat split; [lia | done |].
      intros i Hi. destruct (decide (i = k)) as [->|]; [done|]. apply Hbusy. lia.
    + rewrite version_loop_stop by done. intros [= <-].
      exists k. repeat split; [lia | done | intros; lia].
Qed.

(** A failing loop has met [fuel + 1] versions that are all there. *)
Lemma version_loop_raise (fuel : nat) (f : FS) (t : string) (k : N) (e : exn) :
  Tool.version_loop fuel f t (vname k) = Raise e →
  ∀ i : nat, (i ≤ fuel)%nat →
    Os.path_exists f (PosixPath.join t (vname (k + N.of_nat i))) = true.
Proof.
  revert k. induction fuel as [|fuel IH]; intros k; rewrite version_loop_unfold.
  - destruct (Os.path_exists f (PosixPath.join t (vname k))) eqn:E; [|done].
    intros _ i Hi. assert (i = 0%nat) as -> by lia. by rewrite N.add_0_r.
  - destruct (Os.path_exists f (PosixPath.join t (vname k))) eqn:E; [|done].
    rewrite vname_tail, int_of_str_zfill. intros H i Hi.
    destruct i as [|i]; [by rewrite N.add_0_r|].
    specialize (IH _ H i ltac:(lia)).
    by replace (k + N.of_nat (S i)) with (k + 1 + N.of_nat i) by lia.
Qed.

Lemma version_keys_NoDup (t : string) (k : N) (n : nat) :
  NoDup (List.map (λ i : nat, PosixPath.join t (vname (k + N.of_nat i))) (seq 0 n)).
Proof.
  apply NoDup_fmap_2_strong; [|apply NoDup_seq].
  intros i j _ _ E. apply join_inj in E; [|apply vname_plain..].
  apply vname_inj in E. lia.
Qed.

(** The loop of [find_version] always ends with a name. *)
Lemma version_loop_finishes (f : FS) (t : string) :
  ∃ v, Tool.version_loop (S (size f)) f t "v001" = Ok v.
Proof.
  destruct (Tool.version_loop (S (size f)) f t "v001") as [v|e] eqn:E; [by exists v|].
  exfalso. change "v001" with (vname 1) in E.
  pose proof (version_loop_raise _ _ _ _ _ E) as Hall.
  set (keys := List.map (λ i : nat, PosixPath.join t (vname (1 + N.of_nat i)))
                 (seq 0 (S (S (size f))))).
  assert (keys ⊆+ (map_to_list f).*1) as Hsub.
  { apply NoDup_submseteq; [apply version_keys_NoDup|].
    intros x Hx. apply list_elem_of_fmap in Hx as (i & -> & Hi).
    apply elem_of_seq in Hi. specialize (Hall i ltac:(lia)).
    unfold Os.path_exists in Hall. apply bool_decide_eq_true in Hall as [nd Hnd].
    apply list_elem_of_fmap. exists (PosixPath.join t (vname (1 + N.of_nat i)), nd).
    split; [done|]. by apply elem_of_map_to_list. }
  apply submseteq_length in Hsub.
  rewrite length_fmap, length_map_to_list in Hsub.
  unfold keys in Hsub. rewrite length_map, length_seq in Hsub. lia.
Qed.

(** ** The allocator on a directory that is there *)

Lemma ne_by_length (a b : string) : String.length a ≠ String.length b → a ≠ b.
Proof. intros H ->. by apply H. Qed.

Lemma plain_literal (b : string) :
  negb (bool_decide (b = "")) && negb (PyStr.contains PosixPath.sep b) = true → plain b.
Proof.
  intros H. apply andb_true_iff in H as [H1 H2].
  apply negb_true_iff in H1, H2. apply bool_decide_eq_false in H1. by split.
Qed.

Lemma path_exists_false (f : FS) (p : string) :
  Os.path_exists f p = false → f !! p = None.
Proof.
  unfold Os.path_exists. intros H. apply bool_decide_eq_false in H.
  destruct (f !! p); [|done]. destruct H. eauto.
Qed.

Lemma path_exists_true (f : FS) (p : string) (x : node) :
  f !! p = Some x → Os.path_exists f p = true.
Proof. intros H. unfold Os.path_exists. apply bool_decide_eq_true. eauto. Qed.

Lemma path_exists_none (f : FS) (p : string) :
  f !! p = None → Os.path_exists f p = false.
Proof.
  intros H. unfold Os.path_exists. apply bool_decide_eq_false. rewrite H.
  by intros [? ?].
Qed.

Lemma version_loop_plain (fuel : nat) (f : FS) (t v : string) :
  Tool.version_loop fuel f t "v001" = Ok v → plain v ∧ f !! PosixPath.join t v = None.
Proof.
  change "v001" with (vname 1). intros H.
  apply version_loop_ok in H as (j & -> & _ & Hfree & _).
  split; [apply vname_plain | by apply path_exists_false].
Qed.

Ltac world_simpl :=
  unfold log_event, set_fs; cbn [fs file_label migrate_button trace].

Section Allocate.

Variables (file_extension filepath : string) (w : world) (v : string).

Let d := PosixPath.dirname filepath.
Let root := PosixPath.join d "migrations".
Let T := PosixPath.join root (PyStr.tail file_extension).
Let vp := PosixPath.join T v.
Let data := PosixPath.join vp "data".
Let source := PosixPath.join vp "source".
Let log := PosixPath.join vp "log".
Let f2 : FS := <[T := Dir]> (<[root := Dir]> (fs w)).

Hypothesis Hd : fs w !! d = Some Dir.
Hypothesis Hext : plain (PyStr.tail file_extension).
Hypothesis Hroot : ∀ c, fs w !! root ≠ Some (File c).
Hypothesis HT : ∀ c, fs w !! T ≠ Some (File c).
Hypothesis Hv : Tool.version_loop (S (size f2)) f2 T "v001" = Ok v.
Hypothesis Hdata : ∀ c, fs w !! data ≠ Some (File c).
Hypothesis Hsource : ∀ c, fs w !! source ≠ Some (File c).
Hypothesis Hlog : ∀ c, fs w !! log ≠ Some (File c).

Lemma allocate_ok :
  Tool.allocate file_extension filepath w
  = (Ok (Tool.mkFolders vp data source log),
     {| fs := <[log := Dir]> (<[source := Dir]> (<[data := Dir]> (<[vp := Dir]> f2)));
        file_label := file_label w; migrate_button := migrate_button w;
        trace := trace w ++ [EvMakedirs root; EvMakedirs T; EvMakedirs vp;
                             EvMakedirs data; EvMakedirs source; EvMakedirs log] |}).
Proof.
  destruct (version_loop_plain _ _ _ _ Hv) as [Hpv Hfree]. fold vp in Hfree.
  assert (plain "migrations") as Pm by (by apply plain_literal).
  assert (plain "data") as Pd by (by apply plain_literal).
  assert (plain "source") as Ps by (by apply plain_literal).
  assert (plain "log") as Pl by (by apply plain_literal).
  pose proof (join_length d "migrations" Pm) as L1. fold root in L1.
  pose proof (join_length root _ Hext) as L2. fold T in L2.
  pose proof (join_length T v Hpv) as L3. fold vp in L3.
  assert (String.length data = String.length vp + 5
          ∧ String.length source = String.length vp + 7
          ∧ String.length log = String.length vp + 4)%nat as (L4 & L5 & L6).
  { unfold data, source, log.
    rewrite !join_simple; try done; try (by apply join_nonempty);
      try (by apply join_no_trailing_sep).
    rewrite !length_app_s. simpl. lia. }
  assert (dir_like d) as Dd by apply dirname_dir_like.
  assert (dir_like root) as Dr by (by apply join_dir_like).
  assert (dir_like T) as Dt by (by apply join_dir_like).
  assert (dir_like vp) as Dv by (by apply join_dir_like).
  unfold Tool.allocate, bind.
  fold d. fold root. fold T.
  rewrite (makedirs_child d "migrations") by done. fold root. world_simpl.
  rewrite (makedirs_child root (PyStr.tail file_extension)); try done; fold T; world_simpl.
  2: { apply lookup_insert_eq. }
  2: { intros c. rewrite lookup_insert_ne by (apply ne_by_length; lia). apply HT. }
  unfold Tool.find_version. world_simpl. fold f2. rewrite Hv.
  fold vp. fold data. fold source. fold log.
  rewrite (makedirs_child T v); try done; fold vp; world_simpl; fold f2.
  2: { apply lookup_insert_eq. }
  2: { intros c. by rewrite Hfree. }
  rewrite (makedirs_child vp "data"); try done; fold data; world_simpl.
  2: { apply lookup_insert_eq. }
  2: { intros c. unfold f2. rewrite !lookup_insert_ne by (apply ne_by_length; lia). apply Hdata. }
  rewrite (makedirs_child vp "source"); try done; fold source; world_simpl.
  2: { rewrite lookup_insert_ne by (apply ne_by_length; lia). apply lookup_insert_eq. }
  2: { intros c. unfold f2. rewrite !lookup_insert_ne by (apply ne_by_length; lia). apply Hsource. }
  rewrite (makedirs_child vp "log"); try done; fold log; world_simpl.
  2: { rewrite !lookup_insert_ne by (apply ne_by_length; lia). apply lookup_insert_eq. }
  2: { intros c. unfold f2. rewrite !lookup_insert_ne by (apply ne_by_length; lia). apply Hlog. }
  unfold ret. f_equal. f_equal. by rewrite <- !app_assoc.
Qed.

End Allocate.

Ltac path_ne :=
  first
    [ apply ne_by_length; rewrite ?length_app_s; simpl; lia
    | let E := fresh in intros E; apply (inj (String.app _)) in E; discriminate E ].

Lemma version_path (T v : string) :
  T ≠ "" → PyStr.endswith T "/" = false → plain v →
  PosixPath.join T v = T +:+ "/" +:+ v.
Proof. apply join_simple. Qed.

Lemma version_child_path (T v child : string) :
  T ≠ "" → PyStr.endswith T "/" = false → plain v → plain child →
  PosixPath.join (PosixPath.join T v) child = T +:+ "/" +:+ v +:+ "/" +:+ child.
Proof.
  intros HT He Hv Hc.
  rewrite (join_simple (PosixPath.join T v)); [| by apply join_nonempty
                                               | by apply join_no_trailing_sep | done].
  rewrite (join_simple T v) by done. by rewrite !app_assoc_s.
Qed.

(** C5: two calls of the allocator in a row, on a root and type tag under
    which nothing whose name starts with [v] exists, take [v001] and then
    [v002]; the second call does not take [v001] again. *)
Theorem C5_allocate_twice (file_extension filepath : string) (w : world) :
  let root := PosixPath.join (PosixPath.dirname filepath) "migrations" in
  let type_folder_path := PosixPath.join root (PyStr.tail file_extension) in
  fs w !! PosixPath.dirname filepath = Some Dir →
  plain (PyStr.tail file_extension) →
  (∀ c, fs w !! root ≠ Some (File c)) →
  (∀ c, fs w !! type_folder_path ≠ Some (File c)) →
  (∀ rest, fs w !! (type_folder_path +:+ "/v" +:+ rest) = None) →
  ∃ dirs1 w1 dirs2 w2,
    Tool.allocate file_extension filepath w = (Ok dirs1, w1)
    ∧ Tool.version_folder_path dirs1 = PosixPath.join type_folder_path "v001"
    ∧ Tool.allocate file_extension filepath w1 = (Ok dirs2, w2)
    ∧ Tool.version_folder_path dirs2 = PosixPath.join type_folder_path "v002"
    ∧ Tool.version_folder_path dirs2 ≠ Tool.version_folder_path dirs1.
Proof.
  intros root T Hd Hext Hroot HT Hfresh.
  set (d := PosixPath.dirname filepath) in *.
  assert (plain "migrations") as Pm by (by apply plain_literal).
  assert (plain "data") as Pd by (by apply plain_literal).
  assert (plain "source") as Ps by (by apply plain_literal).
  assert (plain "log") as Pl by (by apply plain_literal).
  assert (plain "v001") as P1 by (by apply plain_literal).
  assert (plain "v002") as P2 by (by apply plain_literal).
  pose proof (join_length d "migrations" Pm) as L1. fold root in L1.
  pose proof (join_length root _ Hext) as L2. fold T in L2.
  assert (T ≠ "") as HTne by (by apply join_nonempty).
  assert (PyStr.endswith T "/" = false) as HTe by (by apply join_no_trailing_sep).
  (* the paths of the two versions *)
  assert (PosixPath.join T "v001" = T +:+ "/v001") as Ev1 by (by rewrite version_path).
  assert (PosixPath.join T "v002" = T +:+ "/v002") as Ev2 by (by rewrite version_path).
  assert (PosixPath.join (PosixPath.join T "v001") "data" = T +:+ "/v001/data") as Ed1
    by (by rewrite version_child_path).
  assert (PosixPath.join (PosixPath.join T "v001") "source" = T +:+ "/v001/source") as Es1
    by (by rewrite version_child_path).
  assert (PosixPath.join (PosixPath.join T "v001") "log" = T +:+ "/v001/log") as El1
    by (by rewrite version_child_path).
  assert (PosixPath.join (PosixPath.join T "v002") "data" = T +:+ "/v002/data") as Ed2
    by (by rewrite version_child_path).
  assert (PosixPath.join (PosixPath.join T "v002") "source" = T +:+ "/v002/source") as Es2
    by (by rewrite version_child_path).
  assert (PosixPath.join (PosixPath.join T "v002") "log" = T +:+ "/v002/log") as El2
    by (by rewrite version_child_path).
  (* the first call *)
  pose proof (allocate_ok file_extension filepath w "v001") as A1.
  fold d root T in A1. rewrite Ed1, Es1, El1, Ev1 in A1.
  specialize (A1 Hd Hext Hroot HT).
  assert (∀ f : FS, (∀ rest, f !! (T +:+ "/v" +:+ rest) = None) → ∀ n,
            Tool.version_loop n f T "v001" = Ok "v001") as Hstop.
  { intros f Hf n. apply version_loop_stop, path_exists_none. rewrite Ev1. apply (Hf "001"). }
  rewrite Hstop in A1.
  2: { intros rest. rewrite !lookup_insert_ne by path_ne. apply Hfresh. }
  specialize (A1 eq_refl).
  assert (∀ (f : FS) p, f !! p = None → ∀ c, f !! p ≠ Some (File c)) as Hno
    by (intros f p -> c; done).
  assert (∀ (f : FS) p, f !! p = Some Dir → ∀ c, f !! p ≠ Some (File c)) as Hdir
    by (intros f p -> c; done).
  specialize (A1 (Hno _ _ (Hfresh "001/data")) (Hno _ _ (Hfresh "001/source"))
                 (Hno _ _ (Hfresh "001/log"))).
  match type of A1 with _ = (_, ?w') => set (w1 := w') in * end.
  (* the second call *)
  pose proof (allocate_ok file_extension filepath w1 "v002") as A2.
  fold d root T in A2. rewrite Ed2, Es2, El2, Ev2 in A2.
  assert (fs w1 !! d = Some Dir) as Hd1.
  { unfold w1. cbn [fs]. by rewrite !lookup_insert_ne by path_ne. }
  assert (fs w1 !! root = Some Dir) as Hr1.
  { unfold w1. cbn [fs]. rewrite !lookup_insert_ne by path_ne. apply lookup_insert_eq. }
  assert (fs w1 !! T = Some Dir) as Ht1.
  { unfold w1. cbn [fs]. rewrite !lookup_insert_ne by path_ne. apply lookup_insert_eq. }
  assert (fs w1 !! (T +:+ "/v001") = Some Dir) as Hv1.
  { unfold w1. cbn [fs]. rewrite !lookup_insert_ne by path_ne. apply lookup_insert_eq. }
  assert (∀ rest, String.length rest = 3%nat ∨ (7 ≤ String.length rest)%nat →
            PyStr.startswith rest "002" = true →
            fs w1 !! (T +:+ "/v" +:+ rest) = None) as Hfresh1.
  { intros rest Hlen Hpre. unfold w1. cbn [fs].
    destruct rest as [|c0 r1]; [done|]. simpl in Hpre.
    destruct (decide ("0"%char = c0)) as [<-|]; [|done].
    destruct r1 as [|c1 r2]; [done|]. simpl in Hpre.
    destruct (decide ("0"%char = c1)) as [<-|]; [|done].
    destruct r2 as [|c2 r3]; [done|]. simpl in Hpre.
    destruct (decide ("2"%char = c2)) as [<-|]; [|done].
    rewrite !lookup_insert_ne; [apply (Hfresh (String "0" (String "0" (String "2" r3)))) | ..];
      try (intros E; apply (inj (String.app _)) in E; discriminate E);
      try (apply ne_by_length; rewrite ?length_app_s; simpl in *; lia). }
  specialize (A2 Hd1 Hext).
  specialize (A2 (Hdir _ _ Hr1) (Hdir _ _ Ht1)).
  assert (∀ f : FS, f !! (T +:+ "/v001") = Some Dir → f !! (T +:+ "/v002") = None →
            Tool.version_loop (S (size f)) f T "v001" = Ok "v002") as Hnext.
  { intros f Hf1 Hf2. change "v001" with (vname 1).
    rewrite version_loop_step by (rewrite <- Ev1 in Hf1; by eapply path_exists_true).
    change (vname (1 + 1)) with "v002".
    apply version_loop_stop, path_exists_none. by rewrite Ev2. }
  rewrite Hnext in A2.
  2: { by rewrite !lookup_insert_ne by path_ne. }
  2: { rewrite !lookup_insert_ne by path_ne. by apply (Hfresh1 "002"); [left|]. }
  specialize (A2 eq_refl).
  specialize (A2 (Hno _ _ (Hfresh1 "002/data" ltac:(right; simpl; lia) eq_refl))
                 (Hno _ _ (Hfresh1 "002/source" ltac:(right; simpl; lia) eq_refl))
                 (Hno _ _ (Hfresh1 "002/log" ltac:(right; simpl; lia) eq_refl))).
  eexists _, w1, _, _. split; [exact A1|]. split; [by rewrite Ev1|].
  split; [exact A2|]. split; [by rewrite Ev2|].
  cbn [Tool.version_folder_path]. path_ne.
Qed.

(** ** [os.makedirs] on any file system *)

Lemma grows_refl (f : FS) : grows f f.
Proof. intros p. by left. Qed.

Lemma grows_trans (f g h : FS) : grows f g → grows g h → grows f h.
Proof.
  intros H1 H2 p. destruct (H1 p) as [E1 | [E1 E1']], (H2 p) as [E2 | [E2 E2']].
  - left. congruence.
  - right. split; congruence.
  - right. split; congruence.
  - congruence.
Qed.

Lemma grows_insert (f : FS) (p : string) : f !! p = None → grows f (<[p := Dir]> f).
Proof.
  intros H q. destruct (decide (p = q)) as [<-|Hne].
  - right. by rewrite lookup_insert_eq.
  - left. by rewrite lookup_insert_ne.
Qed.

Lemma grows_keeps (f f' : FS) (p : string) (x : node) :
  grows f f' → f !! p = Some x → f' !! p = Some x.
Proof. intros H E. destruct (H p) as [-> | [E' _]]; congruence. Qed.

Lemma grows_free (f f' : FS) (p : string) : grows f f' → f' !! p = None → f !! p = None.
Proof. intros H E. destruct (H p) as [E' | [_ E']]; congruence. Qed.

Lemma grows_file (f f' : FS) (p c : string) :
  grows f f' → f' !! p = Some (File c) → f !! p = Some (File c).
Proof. intros H E. destruct (H p) as [E' | [_ E']]; congruence. Qed.

Lemma mkdir_ok (name : string) (f f2 : FS) :
  Os.mkdir name f = Ok f2 → f !! name = None ∧ f2 = <[name := Dir]> f.
Proof.
  unfold Os.mkdir. destruct (f !! name); [done|].
  destruct (Os.parent_check f name); [|done]. by intros [= <-].
Qed.

Lemma mkdir_raises (name : string) (f : FS) (e : exn) :
  Os.mkdir name f = Raise e → os_error e.
Proof.
  unfold Os.mkdir, Os.parent_check, os_error.
  destruct (f !! name); [intros [= <-]; auto|].
  destruct (decide (PosixPath.dirname name = "")).
  - destruct (decide (name = "")); [intros [= <-]; auto | done].
  - destruct (f !! PosixPath.dirname name) as [[|c]|]; [done | |]; intros [= <-]; auto.
Qed.

Lemma makedirs_rec_unfold (fuel : nat) (name : string) (f : FS) :
  Os.makedirs_rec fuel name f
  = let '(head, tail) := PosixPath.split name in
    let '(head, tail) :=
      if decide (tail = "") then PosixPath.split head else (head, tail) in
    let above : result bool * FS :=
      if negb (bool_decide (head = "")) && negb (bool_decide (tail = ""))
         && negb (Os.path_exists f head)
      then match fuel with
           | O => (Ok false, f)
           | S fuel' =>
               match Os.makedirs_rec fuel' head f with
               | (Ok _, f') => (Ok (bool_decide (tail = ".")), f')
               | (Raise FileExistsError, f') => (Ok (bool_decide (tail = ".")), f')
               | (Raise e, f') => (Raise e, f')
               end
           end
      else (Ok false, f) in
    match above with
    | (Raise e, f1) => (Raise e, f1)
    | (Ok true, f1) => (Ok tt, f1)
    | (Ok false, f1) =>
        match Os.mkdir name f1 with
        | Ok f2 => (Ok tt, f2)
        | Raise e => if Os.isdir f1 name then (Ok tt, f1) else (Raise e, f1)
        end
    end.
Proof. by destruct fuel. Qed.

(** [os.makedirs] only adds directories at free paths, whatever its outcome. *)
Lemma makedirs_rec_grows (fuel : nat) (name : string) (f : FS) r f' :
  Os.makedirs_rec fuel name f = (r, f') → grows f f'.
Proof.
  revert name f r f'. induction fuel as [|fuel IH]; intros name f r f';
    rewrite makedirs_rec_unfold;
    destruct (PosixPath.split name) as [h0 t0];
    destruct (if decide (t0 = "") then PosixPath.split h0 else (h0, t0)) as [head tail];
    cbv zeta;
    assert (∀ f1, grows f f1 →
              match Os.mkdir name f1 with
              | Ok f2 => (Ok tt, f2)
              | Raise e => if Os.isdir f1 name then (Ok tt, f1) else (Raise e, f1)
              end = (r, f') → grows f f') as Hlast.
  1, 3: (intros f1 Hg; destruct (Os.mkdir name f1) as [f2|e] eqn:Em;
         [ intros [= <- <-]; apply mkdir_ok in Em as [Hn ->];
           eapply grows_trans; [exact Hg | by apply grows_insert]
         | destruct (Os.isdir f1 name); by intros [= <- <-] ]).
  - destruct (negb _ && negb _ && negb _); apply Hlast, grows_refl.
  - destruct (negb _ && negb _ && negb _); [|apply Hlast, grows_refl].
    destruct (Os.makedirs_rec fuel head f) as [[[]|e] f1] eqn:Er.
    + apply IH in Er. destruct (bool_decide (tail = ".")).
      * by intros [= <- <-].
      * by apply Hlast.
    + apply IH in Er.
      destruct e; try (by intros [= <- <-]).
      destruct (bool_decide (tail = ".")).
      * by intros [= <- <-].
      * by apply Hlast.
Qed.

(** When [os.makedirs] returns, the directory is there. *)
Lemma makedirs_rec_ok_dir (fuel : nat) (name b : string) (f f' : FS) :
  snd (PosixPath.rsplit_sep name) = b → b ≠ "" → b ≠ "." →
  Os.makedirs_rec fuel name f = (Ok tt, f') → f' !! name = Some Dir.
Proof.
  intros Hb Hne Hdot. rewrite makedirs_rec_unfold.
  unfold PosixPath.split at 1. destruct (PosixPath.rsplit_sep name) as [h0 t0].
  simpl in Hb. subst t0. rewrite decide_False by done.
  rewrite (bool_decide_false (b = ".")) by done.
  match goal with |- context [Os.path_exists f ?h] => set (head := h) end. cbv zeta.
  assert (∀ f1, match Os.mkdir name f1 with
                | Ok f2 => (Ok tt, f2)
                | Raise e => if Os.isdir f1 name then (Ok tt, f1) else (Raise e, f1)
                end = (Ok tt, f') → f' !! name = Some Dir) as Hlast.
  { intros f1. destruct (Os.mkdir name f1) as [f2|e] eqn:Em.
    - intros [= <-]. apply mkdir_ok in Em as [_ ->]. apply lookup_insert_eq.
    - destruct (Os.isdir f1 name) eqn:Ed; [|done]. intros [= <-].
      by apply bool_decide_eq_true in Ed. }
  destruct (negb _ && negb _ && negb _); [|apply Hlast].
  destruct fuel as [|fuel]; [apply Hlast|].
  destruct (Os.makedirs_rec fuel head f) as [[[]|e] f1]; [apply Hlast|].
  destruct e; try done; apply Hlast.
Qed.

(** [os.makedirs] raises what [os.mkdir] raises, and never reaches the
    bound of the model. *)
Lemma makedirs_rec_raises (fuel : nat) (name : string) (f f' : FS) (e : exn) :
  Os.makedirs_rec fuel name f = (Raise e, f') → os_error e.
Proof.
  revert name f f' e. induction fuel as [|fuel IH]; intros name f f' e;
    rewrite makedirs_rec_unfold;
    destruct (PosixPath.split name) as [h0 t0];
    destruct (if decide (t0 = "") then PosixPath.split h0 else (h0, t0)) as [head tail];
    cbv zeta;
    assert (∀ f1, match Os.mkdir name f1 with
                  | Ok f2 => (Ok tt, f2)
                  | Raise e => if Os.isdir f1 name then (Ok tt, f1) else (Raise e, f1)
                  end = (Raise e, f') → os_error e) as Hlast.
  1, 3: (intros f1; destruct (Os.mkdir name f1) as [f2|e0] eqn:Em; [done|];
         destruct (Os.isdir f1 name); [done|]; intros [= <- _];
         by eapply mkdir_raises).
  - destruct (negb _ && negb _ && negb _); apply Hlast.
  - destruct (negb _ && negb _ && negb _); [|apply Hlast].
    destruct (Os.makedirs_rec fuel head f) as [[[]|e0] f1] eqn:Er.
    + destruct (bool_decide (tail = ".")); [done | apply Hlast].
    + apply IH in Er.
      destruct e0; try (intros [= <- _]; exact Er);
        (destruct (bool_decide (tail = ".")); [done | apply Hlast]).
Qed.

Lemma makedirs_inv (name b : string) (w : world) r (w1 : world) :
  snd (PosixPath.rsplit_sep name) = b → b ≠ "" → b ≠ "." →
  Os.makedirs name w = (r, w1) →
  grows (fs w) (fs w1)
  ∧ file_label w1 = file_label w ∧ migrate_button w1 = migrate_button w
  ∧ ((r = Ok tt ∧ trace w1 = trace w ++ [EvMakedirs name] ∧ fs w1 !! name = Some Dir)
     ∨ (∃ e, r = Raise e ∧ os_error e ∧ trace w1 = trace w)).
Proof.
  intros Hb Hne Hdot. unfold Os.makedirs.
  destruct (Os.makedirs_rec _ name (fs w)) as [[[]|e] f'] eqn:E; intros [= <- <-];
    pose proof (makedirs_rec_grows _ _ _ _ _ E) as Hg; cbn; (split; [done|]);
    (split; [done|]); (split; [done|]).
  - left. repeat split. by eapply makedirs_rec_ok_dir.
  - right. exists e. repeat split. by eapply makedirs_rec_raises.
Qed.

Lemma makedirs_inv_any (name : string) (w : world) r (w1 : world) :
  Os.makedirs name w = (r, w1) →
  grows (fs w) (fs w1)
  ∧ file_label w1 = file_label w ∧ migrate_button w1 = migrate_button w
  ∧ ((r = Ok tt ∧ trace w1 = trace w ++ [EvMakedirs name])
     ∨ (∃ e, r = Raise e ∧ os_error e ∧ trace w1 = trace w)).
Proof.
  unfold Os.makedirs.
  destruct (Os.makedirs_rec _ name (fs w)) as [[[]|e] f'] eqn:E; intros [= <- <-];
    pose proof (makedirs_rec_grows _ _ _ _ _ E) as Hg; cbn; (split; [done|]);
    (split; [done|]); (split; [done|]).
  - by left.
  - right. exists e. repeat split. by eapply makedirs_rec_raises.
Qed.

Lemma makedirs_inv_child (d b : string) (w : world) r (w1 : world) :
  plain b → b ≠ "." →
  Os.makedirs (PosixPath.join d b) w = (r, w1) →
  grows (fs w) (fs w1)
  ∧ file_label w1 = file_label w ∧ migrate_button w1 = migrate_button w
  ∧ ((r = Ok tt ∧ trace w1 = trace w ++ [EvMakedirs (PosixPath.join d b)]
      ∧ fs w1 !! PosixPath.join d b = Some Dir)
     ∨ (∃ e, r = Raise e ∧ os_error e ∧ trace w1 = trace w)).
Proof.
  intros Hb Hdot. apply (makedirs_inv _ b); [|apply Hb | done].
  by rewrite rsplit_sep_join.
Qed.

Lemma find_version_inv (t : string) (w : world) r (w1 : world) :
  Tool.find_version t w = (r, w1) →
  w1 = w ∧ ∃ j, r = Ok (vname j) ∧ 1 ≤ j ∧ fs w !! PosixPath.join t (vname j) = None
               ∧ ∀ i, 1 ≤ i < j → is_Some (fs w !! PosixPath.join t (vname i)).
Proof.
  unfold Tool.find_version.
  destruct (version_loop_finishes (fs w) t) as [v Hv]. rewrite Hv.
  intros [= <- <-]. split; [done|].
  change "v001" with (vname 1) in Hv.
  apply version_loop_ok in Hv as (j & -> & Hj & Hfree & Hbusy).
  exists j. repeat split; [done | by apply path_exists_false |].
  intros i Hi. specialize (Hbusy i Hi). unfold Os.path_exists in Hbusy.
  by apply bool_decide_eq_true in Hbusy.
Qed.

(** What a call of the allocator does, whatever the file system. *)
Lemma allocate_inv (file_extension filepath : string) (w : world) r (w1 : world) :
  let root := PosixPath.join (PosixPath.dirname filepath) "migrations" in
  let T := PosixPath.join root (PyStr.tail file_extension) in
  Tool.allocate file_extension filepath w = (r, w1) →
  grows (fs w) (fs w1)
  ∧ file_label w1 = file_label w ∧ migrate_button w1 = migrate_button w
  ∧ ((∃ e evs, r = Raise e ∧ os_error e ∧ trace w1 = trace w ++ evs
               ∧ Forall (λ ev, is_makedirs ev = true) evs)
     ∨ (∃ j, let vp := PosixPath.join T (vname j) in
          r = Ok (Tool.mkFolders vp (PosixPath.join vp "data")
                    (PosixPath.join vp "source") (PosixPath.join vp "log"))
          ∧ 1 ≤ j
          ∧ fs w !! vp = None
          ∧ (∀ i, 1 ≤ i < j → is_Some (fs w1 !! PosixPath.join T (vname i)))
          ∧ fs w1 !! vp = Some Dir
          ∧ fs w1 !! PosixPath.join vp "data" = Some Dir
          ∧ fs w1 !! PosixPath.join vp "source" = Some Dir
          ∧ fs w1 !! PosixPath.join vp "log" = Some Dir
          ∧ trace w1 = trace w ++ [EvMakedirs root; EvMakedirs T; EvMakedirs vp;
                                   EvMakedirs (PosixPath.join vp "data");
                                   EvMakedirs (PosixPath.join vp "source");
                                   EvMakedirs (PosixPath.join vp "log")])).
Proof.
  intros root T. unfold Tool.allocate, bind. fold root. fold T.
  assert (plain "data") as Pd by (by apply plain_literal).
  assert (plain "source") as Ps by (by apply plain_literal).
  assert (plain "log") as Pl by (by apply plain_literal).
  destruct (Os.makedirs root w) as [[[]|e1] wa] eqn:E1;
    apply makedirs_inv_any in E1 as (G1 & La & Ba & [([=] & T1) | (e & [= <-] & Ho & T1)]).
  2: { intros [= <- <-]. repeat split; try done. left. exists e1, [].
       rewrite app_nil_r. split; [done|]. split; [done|]. split; [done|]. constructor. }
  destruct (Os.makedirs T wa) as [[[]|e2] wb] eqn:E2;
    apply makedirs_inv_any in E2 as (G2 & Lb & Bb & [([=] & T2) | (e & [= <-] & Ho & T2)]).
  2: { intros [= <- <-]. split; [by eapply grows_trans|].
       split; [congruence|]. split; [congruence|].
       left. exists e2, [EvMakedirs root]. rewrite T2, T1. (split; [done|]); (split; [done|]); (split; [done|]); repeat constructor. }
  destruct (Tool.find_version T wb) as [rv wv] eqn:Ev.
  apply find_version_inv in Ev as (-> & j & -> & Hj & Hfree & Hbusy).
  set (vp := PosixPath.join T (vname j)) in *.
  destruct (Os.makedirs vp wb) as [[[]|e3] wc] eqn:E3;
    apply makedirs_inv_child in E3
      as (G3 & Lc & Bc & [([=] & T3 & D3) | (e & [= <-] & Ho & T3)]);
    try apply vname_plain; try apply vname_not_dot.
  2: { intros [= <- <-]. split; [eauto using grows_trans|].
       split; [congruence|]. split; [congruence|].
       left. exists e3, [EvMakedirs root; EvMakedirs T].
       rewrite T3, T2, T1, <- app_assoc. (split; [done|]); (split; [done|]); (split; [done|]); repeat constructor. }
  destruct (Os.makedirs (PosixPath.join vp "data") wc) as [[[]|e4] wd] eqn:E4;
    apply makedirs_inv_child in E4
      as (G4 & Ld & Bd & [([=] & T4 & D4) | (e & [= <-] & Ho & T4)]); try done.
  2: { intros [= <- <-]. split; [eauto using grows_trans|].
       split; [congruence|]. split; [congruence|].
       left. exists e4, [EvMakedirs root; EvMakedirs T; EvMakedirs vp].
       rewrite T4, T3, T2, T1, <- !app_assoc. (split; [done|]); (split; [done|]); (split; [done|]); repeat constructor. }
  destruct (Os.makedirs (PosixPath.join vp "source") wd) as [[[]|e5] we] eqn:E5;
    apply makedirs_inv_child in E5
      as (G5 & Le & Be & [([=] & T5 & D5) | (e & [= <-] & Ho & T5)]); try done.
  2: { intros [= <- <-]. split; [eauto 6 using grows_trans|].
       split; [congruence|]. split; [congruence|].
       left. exists e5, [EvMakedirs root; EvMakedirs T; EvMakedirs vp;
                         EvMakedirs (PosixPath.join vp "data")].
       rewrite T5, T4, T3, T2, T1, <- !app_assoc. (split; [done|]); (split; [done|]); (split; [done|]); repeat constructor. }
  destruct (Os.makedirs (PosixPath.join vp "log") we) as [[[]|e6] wf] eqn:E6;
    apply makedirs_inv_child in E6
      as (G6 & Lf & Bf & [([=] & T6 & D6) | (e & [= <-] & Ho & T6)]); try done.
  2: { intros [= <- <-]. split; [eauto 7 using grows_trans|].
       split; [congruence|]. split; [congruence|].
       left. exists e6, [EvMakedirs root; EvMakedirs T; EvMakedirs vp;
                         EvMakedirs (PosixPath.join vp "data");
                         EvMakedirs (PosixPath.join vp "source")].
       rewrite T6, T5, T4, T3, T2, T1, <- !app_assoc. (split; [done|]); (split; [done|]); (split; [done|]); repeat constructor. }
  unfold ret. intros [= <- <-].
  assert (grows (fs wb) (fs wf)) as Gbf by eauto 6 using grows_trans.
  split; [eauto 8 using grows_trans|].
  split; [congruence|]. split; [congruence|].
  right. exists j. cbv zeta. fold vp.
  split; [done|]. split; [done|].
  split; [eauto using grows_free, grows_trans|].
  split.
  { intros i Hi. destruct (Hbusy i Hi) as [x Hx]. exists x. by eapply grows_keeps. }
  split; [eauto 6 using grows_keeps, grows_trans|].
  split; [eauto 6 using grows_keeps, grows_trans|].
  split; [eauto 6 using grows_keeps, grows_trans|].
  split; [done|].
  rewrite T6, T5, T4, T3, T2, T1, <- !app_assoc. done.
Qed.

(** ** The record of effects *)

Lemma appends_ret {A} (a : A) : appends (ret a).
Proof. intros w r w1 [= <- <-]. exists []. by rewrite app_nil_r. Qed.

Lemma appends_raise {A} (e : exn) : appends (@raise A e).
Proof. intros w r w1 [= <- <-]. exists []. by rewrite app_nil_r. Qed.

Lemma appends_lift {A} (x : result A) : appends (lift x).
Proof. intros w r w1 [= <- <-]. exists []. by rewrite app_nil_r. Qed.

Lemma appends_bind {A B} (m : M A) (k : A → M B) :
  appends m → (∀ a, appends (k a)) → appends (bind m k).
Proof.
  intros Hm Hk w r w2. unfold bind. destruct (m w) as [[a|e] w1] eqn:E.
  - intros E2. destruct (Hm _ _ _ E) as [ev1 H1], (Hk _ _ _ _ E2) as [ev2 H2].
    exists (ev1 ++ ev2). by rewrite H2, H1, app_assoc.
  - intros [= <- <-]. by eapply Hm.
Qed.

Lemma appends_for_each {A} (items : list A) (body : A → M unit) :
  (∀ x, appends (body x)) → appends (for_each items body).
Proof.
  intros Hb. induction items as [|x l IH]; [apply appends_ret|].
  simpl. by apply appends_bind.
Qed.

Lemma appends_read_file (p : string) : appends (Os.read_file p).
Proof.
  intros w r w1. unfold Os.read_file. destruct (fs w !! p) as [[|c]|];
    intros [= <- <-]; exists []; by rewrite app_nil_r.
Qed.

Lemma appends_open_w (p : string) : appends (Os.open_w p).
Proof.
  intros w r w1. unfold Os.open_w. destruct (Os.create p (fs w)); intros [= <- <-].
  - by eexists.
  - exists []. by rewrite app_nil_r.
Qed.

Lemma appends_write (p t : string) : appends (Os.write p t).
Proof.
  intros w r w1. unfold Os.write. destruct (fs w !! p) as [[|c]|]; intros [= <- <-];
    try (exists []; by rewrite app_nil_r). by eexists.
Qed.

Lemma appends_copy (src dst : string) : appends (Os.copy src dst).
Proof.
  intros w r w1. unfold Os.copy.
  destruct (decide _); [intros [= <- <-]; exists []; by rewrite app_nil_r|].
  destruct (fs w !! src) as [[|c]|]; try (intros [= <- <-]; exists []; by rewrite app_nil_r).
  destruct (Os.create _ _); intros [= <- <-]; [by eexists | exists []; by rewrite app_nil_r].
Qed.

Lemma appends_set_file_label (t : string) : appends (Tool.set_file_label t).
Proof. intros w r w1 [= <- <-]. exists []. by rewrite app_nil_r. Qed.

Lemma appends_set_migrate_button (t : string) : appends (Tool.set_migrate_button t).
Proof. intros w r w1 [= <- <-]. exists []. by rewrite app_nil_r. Qed.

Create HintDb appends.
#[local] Hint Resolve appends_ret appends_raise appends_lift appends_read_file
  appends_open_w appends_write appends_copy appends_set_file_label
  appends_set_migrate_button : appends.

Ltac appends_tac :=
  repeat first
    [ progress intros
    | apply appends_bind
    | apply appends_for_each
    | solve [auto with appends]
    | match goal with |- appends (match ?x with _ => _ end) => destruct x end ].

Lemma appends_migrate_csv (a b : string) : appends (Tool.migrate_csv a b).
Proof. unfold Tool.migrate_csv. appends_tac. Qed.

Lemma appends_migrate_excel P (a b : string) : appends (Tool.migrate_excel P a b).
Proof. unfold Tool.migrate_excel. appends_tac. Qed.

Lemma appends_migrate_json P (a b : string) : appends (Tool.migrate_json P a b).
Proof. unfold Tool.migrate_json. appends_tac. Qed.

Lemma appends_migrate_xml P (a b : string) : appends (Tool.migrate_xml P a b).
Proof. unfold Tool.migrate_xml. appends_tac. Qed.

Lemma appends_dispatch P (a b : string) : appends (Tool.dispatch P a b).
Proof.
  unfold Tool.dispatch.
  repeat (destruct (PyStr.endswith _ _);
          [first [apply appends_migrate_csv | apply appends_migrate_excel
                 | apply appends_migrate_json | apply appends_migrate_xml]|]).
  apply appends_ret.
Qed.

Lemma appends_write_log P (a b c d : string) : appends (Tool.write_log P a b c d).
Proof. unfold Tool.write_log. appends_tac. Qed.

(** In every run, either the allocation raises an exception of [os.mkdir]
    and the run has only made directories, or the allocator has taken a
    version whose folder was not there, that folder and its [data],
    [source] and [log] are directories when the allocation returns, and
    the copy of the source and every write of the run come after the six
    calls of [os.makedirs]. *)
Lemma migrate_allocation_cases (P : Tool.platform)
    (file_extension filepath : string) (w : world) (r : result unit) (w' : world) :
  let root := PosixPath.join (PosixPath.dirname filepath) "migrations" in
  let type_folder_path := PosixPath.join root (PyStr.tail file_extension) in
  Tool.migrate P file_extension filepath w = (r, w') →
  (∃ e evs,
      Tool.allocate file_extension filepath w = (Raise e, w')
      ∧ r = Raise e
      ∧ os_error e
      ∧ trace w' = trace w ++ evs
      ∧ Forall (λ ev, is_makedirs ev = true) evs)
  ∨ (∃ dirs w1 later,
      Tool.allocate file_extension filepath w = (Ok dirs, w1)
      ∧ fs w !! Tool.version_folder_path dirs = None
      ∧ (∃ j, Tool.version_folder_path dirs = PosixPath.join type_folder_path (vname j))
      ∧ Tool.data_folder dirs = PosixPath.join (Tool.version_folder_path dirs) "data"
      ∧ Tool.source_folder dirs = PosixPath.join (Tool.version_folder_path dirs) "source"
      ∧ Tool.log_folder dirs = PosixPath.join (Tool.version_folder_path dirs) "log"
      ∧ fs w1 !! Tool.version_folder_path dirs = Some Dir
      ∧ fs w1 !! Tool.data_folder dirs = Some Dir
      ∧ fs w1 !! Tool.source_folder dirs = Some Dir
      ∧ fs w1 !! Tool.log_folder dirs = Some Dir
      ∧ trace w1 = trace w ++ [EvMakedirs root; EvMakedirs type_folder_path;
                               EvMakedirs (Tool.version_folder_path dirs);
                               EvMakedirs (Tool.data_folder dirs);
                               EvMakedirs (Tool.source_folder dirs);
                               EvMakedirs (Tool.log_folder dirs)]
      ∧ trace w' = trace w1 ++ later).
Proof.
  intros root T. unfold Tool.migrate. unfold bind at 1.
  destruct (Tool.allocate file_extension filepath w) as [[dirs|e] w1] eqn:Ea.
  - intros Hrest. right.
    apply allocate_inv in Ea
      as (_ & _ & _ & [(e & evs & [=] & _) | (j & [= Hd] & _ & Hfree & _ & D1 & D2 & D3 & D4 & Ht)]).
    fold root T in Hd, Hfree, D1, D2, D3, D4, Ht.
    assert (∃ later, trace w' = trace w1 ++ later) as [later Hl].
    { cbv beta in Hrest.
      match type of Hrest with ?m w1 = _ => assert (appends m) as Hap end;
        [|by eapply Hap].
      apply appends_bind; [apply appends_copy|]. intros _.
      apply appends_bind; [apply appends_dispatch|]. intros _.
      apply appends_bind; [apply appends_write_log|]. intros _.
      apply appends_bind; [apply appends_set_file_label|]. intros _.
      apply appends_set_migrate_button. }
    exists dirs, w1, later. subst dirs. cbn [Tool.version_folder_path Tool.data_folder
      Tool.source_folder Tool.log_folder].
    repeat split; try done. by exists j.
  - intros [= <- <-]. left.
    apply allocate_inv in Ea
      as (_ & _ & _ & [(e' & evs & [= <-] & Ho & Ht & Hmk) | (j & [=] & _)]).
    by exists e, evs.
Qed.

(** Where nothing stands in the way, the allocation returns. *)
Lemma allocate_returns (file_extension filepath : string) (w : world) :
  let root := PosixPath.join (PosixPath.dirname filepath) "migrations" in
  let type_folder_path := PosixPath.join root (PyStr.tail file_extension) in
  fs w !! PosixPath.dirname filepath = Some Dir →
  plain (PyStr.tail file_extension) →
  (∀ c, fs w !! root ≠ Some (File c)) →
  (∀ c, fs w !! type_folder_path ≠ Some (File c)) →
  (∀ j rest, fs w !! PosixPath.join type_folder_path (vname j) = None →
             fs w !! (PosixPath.join type_folder_path (vname j) +:+ "/" +:+ rest) = None) →
  ∃ dirs w1, Tool.allocate file_extension filepath w = (Ok dirs, w1).
Proof.
  intros root T Hd Hpe Hroot HT Hwf.
  assert (plain "migrations") as Pm by (by apply plain_literal).
  pose proof (join_length (PosixPath.dirname filepath) "migrations" Pm) as L1. fold root in L1.
  pose proof (join_length root _ Hpe) as L2. fold T in L2.
  set (f2 := <[T := Dir]> (<[root := Dir]> (fs w))).
  destruct (version_loop_finishes f2 T) as [v Hv].
  pose proof Hv as Hv'. change "v001" with (vname 1) in Hv'.
  apply version_loop_ok in Hv' as (j & -> & Hj & Hfree2 & _).
  pose proof (vname_plain j) as Pv.
  set (vp := PosixPath.join T (vname j)) in *.
  pose proof (join_length T _ Pv) as L3. fold vp in L3.
  assert (vp ≠ "") as Hvne by (by apply join_nonempty).
  assert (PyStr.endswith vp "/" = false) as Hve by (by apply join_no_trailing_sep).
  assert (fs w !! vp = None) as Hfree.
  { apply path_exists_false in Hfree2. unfold f2 in Hfree2.
    by rewrite !lookup_insert_ne in Hfree2 by (apply ne_by_length; lia). }
  assert (∀ child, plain child → ∀ c, fs w !! PosixPath.join vp child ≠ Some (File c)) as Hch.
  { intros child Pc c. rewrite join_simple by done.
    pose proof (Hwf j child Hfree) as Hx. fold vp in Hx. by rewrite Hx. }
  pose proof (allocate_ok file_extension filepath w (vname j)) as A.
  fold root T vp f2 in A.
  eexists _, _. apply A; try done; apply Hch; by apply plain_literal.
Qed.

(** C6: the version the allocator takes is one whose folder was not there,
    and that folder and its [data], [source] and [log] are made, as
    directories, before the copy of the source and before every write of
    the run.  This in every run where the allocation returns, and it does
    return where nothing stands in the way: the directory of the source
    file is there, no file has the name of the migration root or of the
    type folder, and nothing lies inside a version folder that is not
    there.  A run where it does not return has raised an exception of
    [os.mkdir] and has made directories only. *)
Theorem C6_fresh_version_made_before_writes (P : Tool.platform)
    (file_extension filepath : string) (w : world) (r : result unit) (w' : world) :
  let root := PosixPath.join (PosixPath.dirname filepath) "migrations" in
  let type_folder_path := PosixPath.join root (PyStr.tail file_extension) in
  let made :=
    ∃ dirs w1 later,
      Tool.allocate file_extension filepath w = (Ok dirs, w1)
      ∧ fs w !! Tool.version_folder_path dirs = None
      ∧ (∃ j, Tool.version_folder_path dirs = PosixPath.join type_folder_path (vname j))
      ∧ Tool.data_folder dirs = PosixPath.join (Tool.version_folder_path dirs) "data"
      ∧ Tool.source_folder dirs = PosixPath.join (Tool.version_folder_path dirs) "source"
      ∧ Tool.log_folder dirs = PosixPath.join (Tool.version_folder_path dirs) "log"
      ∧ fs w1 !! Tool.version_folder_path dirs = Some Dir
      ∧ fs w1 !! Tool.data_folder dirs = Some Dir
      ∧ fs w1 !! Tool.source_folder dirs = Some Dir
      ∧ fs w1 !! Tool.log_folder dirs = Some Dir
      ∧ trace w1 = trace w ++ [EvMakedirs root; EvMakedirs type_folder_path;
                               EvMakedirs (Tool.version_folder_path dirs);
                               EvMakedirs (Tool.data_folder dirs);
                               EvMakedirs (Tool.source_folder dirs);
                               EvMakedirs (Tool.log_folder dirs)]
      ∧ trace w' = trace w1 ++ later in
  Tool.migrate P file_extension filepath w = (r, w') →
  ((∃ e evs,
       Tool.allocate file_extension filepath w = (Raise e, w')
       ∧ r = Raise e
       ∧ os_error e
       ∧ trace w' = trace w ++ evs
       ∧ Forall (λ ev, is_makedirs ev = true) evs)
   ∨ made)
  ∧ (fs w !! PosixPath.dirname filepath = Some Dir →
     plain (PyStr.tail file_extension) →
     (∀ c, fs w !! root ≠ Some (File c)) →
     (∀ c, fs w !! type_folder_path ≠ Some (File c)) →
     (∀ j rest, fs w !! PosixPath.join type_folder_path (vname j) = None →
                fs w !! (PosixPath.join type_folder_path (vname j) +:+ "/" +:+ rest) = None) →
     made).
Proof.
  intros root T made Hrun.
  pose proof (migrate_allocation_cases P file_extension filepath w r w' Hrun)
    as Hcases. cbv zeta in Hcases. fold root T in Hcases.
  split; [exact Hcases|].
  intros Hd Hpe Hroot HT Hwf.
  destruct (allocate_returns file_extension filepath w Hd Hpe Hroot HT Hwf)
    as (dirs & w1 & Ha).
  destruct Hcases as [(e & evs & Ha' & _) | Hmade]; [congruence | exact Hmade].
Qed.

(** ** The converters and the extractor *)

Lemma traverse_total {A B} (h : A → B) (items : list A) :
  traverse (λ x, Ok (h x)) items = Ok (List.map h items).
Proof. induction items as [|x l IH]; [done|]. simpl. by rewrite IH. Qed.

Lemma traverse_ext {A B} (g g' : A → result B) (items : list A) :
  (∀ x, g x = g' x) → traverse g items = traverse g' items.
Proof. intros H. induction items as [|x l IH]; [done|]. simpl. by rewrite H, IH. Qed.

Lemma write_ok (p t c : string) (w : world) :
  fs w !! p = Some (File c) →
  Os.write p t w
  = (Ok tt, {| fs := <[p := File (c +:+ t)]> (fs w); file_label := file_label w;
               migrate_button := migrate_button w; trace := trace w ++ [EvWrite p t] |}).
Proof. intros H. unfold Os.write. by rewrite H. Qed.

(** A loop that writes one text per item, or stops at the first item that
    raises: when it returns, every item gave its text. *)
Lemma for_each_write_or_raise {A} (g : A → result string) (p : string) (items : list A)
    (w : world) (c : string) (w' : world) :
  fs w !! p = Some (File c) →
  for_each items (λ x, match g x with
                       | Ok t => Os.write p t
                       | Raise e => raise e
                       end) w = (Ok tt, w') →
  ∃ texts,
    traverse g items = Ok texts
    ∧ w' = {| fs := <[p := File (c +:+ PyStr.concat texts)]> (fs w);
              file_label := file_label w; migrate_button := migrate_button w;
              trace := trace w ++ List.map (EvWrite p) texts |}.
Proof.
  revert w c. induction items as [|x l IH]; intros w c Hc.
  - simpl. unfold ret. intros [= <-]. exists []. split; [done|].
    destruct w as [f lb mb tr]; simpl in *.
    rewrite app_empty_r, app_nil_r. f_equal. by rewrite insert_id.
  - simpl. unfold bind. destruct (g x) as [t|e]; [|done].
    rewrite (write_ok _ _ _ _ Hc). intros H.
    apply IH with (c := c +:+ t) in H as (texts & -> & ->);
      [|cbn [fs]; apply lookup_insert_eq].
    exists (t :: texts). split; [done|]. cbn [fs file_label migrate_button trace].
    f_equal.
    + rewrite insert_insert_eq. simpl. by rewrite app_assoc_s.
    + by rewrite <- app_assoc.
Qed.

Lemma traverse_fmap {A B C} (g : A → result B) (h : B → C) (items : list A) :
  traverse (λ x, match g x with Ok y => Ok (h y) | Raise e => Raise e end) items
  = match traverse g items with Ok ys => Ok (List.map h ys) | Raise e => Raise e end.
Proof.
  induction items as [|x l IH]; [done|]. simpl. destruct (g x); [|done].
  rewrite IH. by destruct (traverse g l).
Qed.

Lemma open_w_ok (p : string) (w w1 : world) :
  Os.open_w p w = (Ok tt, w1) →
  w1 = {| fs := <[p := File ""]> (fs w); file_label := file_label w;
          migrate_button := migrate_button w; trace := trace w ++ [EvCreate p] |}.
Proof.
  unfold Os.open_w. destruct (Os.create p (fs w)) eqn:E; [|done].
  intros [= <-]. by apply create_ok in E as ->.
Qed.

Lemma render_insert_statement {P} (columns : list string) (cells : list (Spec.cell P)) :
  Spec.render (columns, cells)
  = Tool.insert_statement columns (List.map Spec.serialize cells).
Proof. reflexivity. Qed.

(** The shape every converter has after it has read and parsed the source:
    open the output, then write a statement per item or raise. *)
Lemma convert_loop {P A} (g : A → result (Spec.tabular_record P)) (p : string)
    (items : list A) (w w' : world) :
  bind (Os.open_w p)
       (λ _, for_each items (λ x, match g x with
                                  | Ok r => Os.write p (Spec.render r)
                                  | Raise e => raise e
                                  end)) w = (Ok tt, w') →
  ∃ records,
    traverse g items = Ok records
    ∧ w' = {| fs := <[p := File (PyStr.concat (List.map Spec.render records))]> (fs w);
              file_label := file_label w; migrate_button := migrate_button w;
              trace := trace w ++ EvCreate p :: List.map (λ r, EvWrite p (Spec.render r))
                                                 records |}.
Proof.
  unfold bind. destruct (Os.open_w p w) as [[[]|e] w1] eqn:Eo; [|done].
  apply open_w_ok in Eo as ->. intros H.
  erewrite for_each_ext in H.
  2: { intros x w0.
       instantiate (1 := λ x, match (match g x with
                                     | Ok r => Ok (Spec.render r)
                                     | Raise e => Raise e
                                     end) with
                              | Ok t => Os.write p t
                              | Raise e => raise e
                              end).
       cbv beta. by destruct (g x). }
  apply for_each_write_or_raise with (c := "") in H as (texts & Ht & ->);
    [|cbn [fs]; apply lookup_insert_eq].
  rewrite traverse_fmap in Ht. destruct (traverse g items) as [records|]; [|done].
  injection Ht as <-. exists records. split; [done|].
  cbn [fs file_label migrate_button trace]. f_equal.
  - by rewrite insert_insert_eq, app_empty_l.
  - by rewrite <- app_assoc, map_map.
Qed.

Lemma convert_loop_ext {P A} (g : A → result (Spec.tabular_record P)) (p : string)
    (items : list A) (k : M unit) (w w' : world) :
  (∀ w0, k w0 = for_each items (λ x, match g x with
                                      | Ok r => Os.write p (Spec.render r)
                                      | Raise e => raise e
                                      end) w0) →
  bind (Os.open_w p) (λ _, k) w = (Ok tt, w') →
  ∃ records,
    traverse g items = Ok records
    ∧ w' = {| fs := <[p := File (PyStr.concat (List.map Spec.render records))]> (fs w);
              file_label := file_label w; migrate_button := migrate_button w;
              trace := trace w ++ EvCreate p :: List.map (λ r, EvWrite p (Spec.render r))
                                                 records |}.
Proof.
  intros Hk H. apply convert_loop. revert H. unfold bind.
  destruct (Os.open_w p w) as [[[]|e] w1]; [|done]. by rewrite Hk.
Qed.

Lemma serialize_text {P} (row : list string) :
  List.map (@Spec.serialize P) (List.map Spec.Text row) = List.map PyStr.repr row.
Proof. by rewrite map_map. Qed.

Lemma serialize_value {P} (kvs : list (string * pyval (Tool.pyfloat P))) :
  List.map (@Spec.serialize P) (List.map (λ kv, Spec.Value (snd kv)) kvs)
  = List.map (Tool.repr P) (List.map snd kvs).
Proof. by rewrite !map_map. Qed.

Lemma serialize_markup {P} (ds : list element) :
  List.map (@Spec.serialize P) (List.map (λ d, Spec.Markup (text_of d)) ds)
  = List.map Tool.repr_text (List.map text_of ds).
Proof. by rewrite !map_map. Qed.

Lemma serialize_sheet {P} (row : list (Tool.xlcell P)) :
  List.map (@Spec.serialize P) (List.map Spec.Sheet row) = List.map (Tool.xlcell_repr P) row.
Proof. by rewrite map_map. Qed.


Lemma migrate_csv_inv (P : Tool.platform) (filepath p content : string) (w w' : world) :
  fs w !! filepath = Some (File content) →
  Tool.migrate_csv filepath p w = (Ok tt, w') →
  converted P Spec.csv content p w w'.
Proof.
  intros Hf. unfold Tool.migrate_csv. unfold bind at 1, Os.read_file at 1. rewrite Hf.
  unfold bind at 1, lift at 1. unfold converted, Spec.extract.
  destruct (Csv.reader_rows content) as [[|columns rows]|e]; [| |done].
  - unfold bind. by destruct (Os.open_w p w) as [[[]|?] ?].
  - intros H.
    apply (convert_loop_ext (λ row, Ok (columns, List.map (@Spec.Text P) row)) _ rows) in H.
    + by rewrite traverse_total in H.
    + intros w0. apply for_each_ext. intros row w1.
      by rewrite render_insert_statement, serialize_text.
Qed.

Lemma migrate_json_inv (P : Tool.platform) (filepath p content : string) (w w' : world) :
  fs w !! filepath = Some (File content) →
  Tool.migrate_json P filepath p w = (Ok tt, w') →
  converted P Spec.json content p w w'.
Proof.
  intros Hf. unfold Tool.migrate_json. unfold bind at 1, Os.read_file at 1. rewrite Hf.
  unfold bind at 1, lift at 1. unfold converted, Spec.extract.
  destruct (Tool.json_load P _) as [data|e]; [|done].
  destruct (Tool.iterate P data) as [entries|e].
  - intros H.
    apply (convert_loop_ext
             (λ entry, match entry with
                       | PyDict kvs =>
                           Ok (List.map fst kvs, List.map (λ kv, @Spec.Value P (snd kv)) kvs)
                       | _ => Raise AttributeError
                       end) _ entries) in H; [done|].
    intros w0. unfold bind, lift. apply for_each_ext. intros entry w1.
    destruct entry; try done.
    by rewrite render_insert_statement, serialize_value.
  - unfold bind, lift. by destruct (Os.open_w p w) as [[[]|?] ?].
Qed.

Lemma migrate_xml_inv (P : Tool.platform) (filepath p content : string) (w w' : world) :
  fs w !! filepath = Some (File content) →
  Tool.migrate_xml P filepath p w = (Ok tt, w') →
  converted P Spec.xml content p w w'.
Proof.
  intros Hf. unfold Tool.migrate_xml. unfold bind at 1, Os.read_file at 1. rewrite Hf.
  unfold bind at 1, lift at 1. unfold converted, Spec.extract.
  destruct (Tool.xml_parse P content) as [root|e]; [|done].
  intros H.
  apply (convert_loop_ext
           (λ item, Ok (List.map tag_of (descendants item),
                        List.map (λ d, @Spec.Markup P (text_of d)) (descendants item)))
           _ (find_items root)) in H.
  - by rewrite traverse_total in H.
  - intros w0. apply for_each_ext. intros item w1.
    by rewrite render_insert_statement, serialize_markup.
Qed.

Lemma migrate_excel_inv (P : Tool.platform) (filepath p content : string) (w w' : world) :
  fs w !! filepath = Some (File content) →
  Tool.migrate_excel P filepath p w = (Ok tt, w') →
  converted P Spec.xlsx content p w w'.
Proof.
  intros Hf. unfold Tool.migrate_excel. unfold bind at 1, Os.read_file at 1. rewrite Hf.
  unfold bind at 1, lift at 1. unfold converted, Spec.extract.
  destruct (Tool.read_excel P content) as [[labels rows]|e]; [|done].
  intros H. cbn [fst snd] in H.
  apply (convert_loop_ext
           (λ row, match Tool.str_items P labels with
                   | Ok columns => Ok (columns, List.map (@Spec.Sheet P) row)
                   | Raise e => Raise e
                   end) _ rows) in H; [done|].
  intros w0. apply for_each_ext. intros row w1. unfold bind, lift.
  destruct (Tool.str_items P labels); [|done].
  by rewrite render_insert_statement, serialize_sheet.
Qed.

Lemma dispatch_inv (P : Tool.platform) (filepath p content : string) (w w' : world) :
  fs w !! filepath = Some (File content) →
  Tool.dispatch P filepath p w = (Ok tt, w') →
  match Spec.detect filepath with
  | Some f => converted P f content p w w'
  | None => w' = w
  end.
Proof.
  intros Hf. unfold Tool.dispatch, Spec.detect.
  destruct (PyStr.endswith _ ".csv"); [by apply migrate_csv_inv|].
  destruct (PyStr.endswith _ ".xlsx"); [by apply migrate_excel_inv|].
  destruct (PyStr.endswith _ ".json"); [by apply migrate_json_inv|].
  destruct (PyStr.endswith _ ".xml"); [by apply migrate_xml_inv|].
  by intros [= <-].
Qed.

(** ** The copy, the log and the output path *)

Lemma copy_ok (src dst : string) (w w2 : world) :
  Os.copy src dst w = (Ok tt, w2) →
  ∃ content target,
    fs w !! src = Some (File content) ∧ target ≠ src
    ∧ w2 = {| fs := <[target := File content]> (fs w); file_label := file_label w;
              migrate_button := migrate_button w;
              trace := trace w ++ [EvCopy src target] |}.
Proof.
  unfold Os.copy.
  set (target := if Os.isdir (fs w) dst then _ else _).
  destruct (decide (src = target)) as [|Hne]; [done|].
  destruct (fs w !! src) as [[|content]|]; [done| |done].
  destruct (Os.create target (fs w)) as [f|] eqn:Ec; [|done].
  apply create_ok in Ec as ->. intros [= <-].
  exists content, target. repeat split; [done|].
  unfold log_event, set_fs. cbn [fs file_label migrate_button trace].
  by rewrite insert_insert_eq.
Qed.

Lemma write_log_ok (P : Tool.platform) (log_folder filepath source_file_path new_file_path : string)
    (w w' : world) :
  Tool.write_log P log_folder filepath source_file_path new_file_path w = (Ok tt, w') →
  ∃ text later,
    w' = {| fs := <[PosixPath.join log_folder "migration_log.txt" := File text]> (fs w);
            file_label := file_label w; migrate_button := migrate_button w;
            trace := trace w ++ EvCreate (PosixPath.join log_folder "migration_log.txt")
                       :: later |}
    ∧ Forall (λ ev, ∃ t, ev = EvWrite (PosixPath.join log_folder "migration_log.txt") t) later.
Proof.
  unfold Tool.write_log. set (lp := PosixPath.join log_folder "migration_log.txt").
  unfold bind at 1. destruct (Os.open_w lp w) as [[[]|e] w1] eqn:Eo; [|done].
  apply open_w_ok in Eo as ->.
  unfold bind.
  repeat (erewrite write_ok by (cbn [fs]; apply lookup_insert_eq);
          cbn [fs file_label migrate_button trace]; rewrite ?insert_insert_eq).
  intros [= <-]. eexists _, _. split.
  - f_equal. rewrite <- !app_assoc. simpl. reflexivity.
  - repeat constructor; by eexists.
Qed.

Lemma rsplit_sep_tail_no_sep (p : string) :
  PyStr.contains PosixPath.sep (snd (PosixPath.rsplit_sep p)) = false.
Proof.
  induction p as [|c p IH]; [done|]. rewrite rsplit_sep_cons.
  destruct (PosixPath.rsplit_sep p) as [[|a h] t]; [|done]. simpl in *.
  destruct (decide (c = PosixPath.sep)) as [|Hne]; [done|].
  simpl. by rewrite decide_False.
Qed.

Lemma basename_no_sep (p : string) : PyStr.contains PosixPath.sep (PosixPath.basename p) = false.
Proof. apply rsplit_sep_tail_no_sep. Qed.

Lemma rsplit_dot_app (name s e : string) :
  PosixPath.rsplit_dot name = Some (s, e) → name = s +:+ e.
Proof.
  revert s e. induction name as [|c r IH]; [done|]. intros s e. simpl.
  destruct (PosixPath.rsplit_dot r) as [[h t]|].
  - intros [= <- <-]. rewrite app_cons. f_equal. by apply IH.
  - destruct (decide (c = "."%char)); [|done]. by intros [= <- <-].
Qed.

Lemma splitext_stem_no_sep (b : string) :
  PyStr.contains PosixPath.sep b = false →
  PyStr.contains PosixPath.sep (fst (PosixPath.splitext b)) = false.
Proof.
  intros Hb. unfold PosixPath.splitext. rewrite rsplit_sep_plain by done.
  destruct (PosixPath.rsplit_dot b) as [[s e]|] eqn:E; [|done].
  destruct (PosixPath.has_non_dot s); [|done]. cbn [fst]. rewrite app_empty_l.
  apply rsplit_dot_app in E. rewrite E, contains_app in Hb.
  by apply orb_false_iff in Hb as [? _].
Qed.

Lemma new_filename_no_leading_sep (filepath file_extension : string) :
  PyStr.startswith
    (fst (PosixPath.splitext (PosixPath.basename filepath)) +:+ "_migration" +:+ file_extension)
    "/" = false.
Proof.
  pose proof (splitext_stem_no_sep _ (basename_no_sep filepath)) as H.
  destruct (fst (PosixPath.splitext (PosixPath.basename filepath))) as [|c s]; [done|].
  rewrite app_cons. simpl in *. destruct (decide (c = PosixPath.sep)) as [|Hne]; [done|].
  rewrite decide_False; [done|]. intros E. by apply Hne.
Qed.

Lemma join_no_leading_sep (d b : string) :
  d ≠ "" → PyStr.endswith d "/" = false → PyStr.startswith b "/" = false →
  PosixPath.join d b = d +:+ "/" +:+ b.
Proof.
  intros Hd He Hb. unfold PosixPath.join.
  by rewrite Hb, bool_decide_false, He.
Qed.

(** The output file and the log file of a run are two paths. *)
Lemma new_file_path_not_log (vp name : string) :
  vp ≠ "" → PyStr.endswith vp "/" = false → PyStr.startswith name "/" = false →
  PosixPath.join (PosixPath.join vp "data") name
  ≠ PosixPath.join (PosixPath.join vp "log") "migration_log.txt".
Proof.
  intros Hv He Hn.
  assert (plain "data") as Pd by (by apply plain_literal).
  assert (plain "log") as Pl by (by apply plain_literal).
  rewrite (join_no_leading_sep (PosixPath.join vp "data"));
    [|by apply join_nonempty | by apply join_no_trailing_sep | done].
  rewrite (join_no_leading_sep (PosixPath.join vp "log"));
    [|by apply join_nonempty | by apply join_no_trailing_sep | done].
  rewrite !join_simple by done. rewrite !app_assoc_s.
  intros E. apply (inj (String.app vp)) in E. discriminate E.
Qed.

(** ** The bound of [os.makedirs] *)

Lemma rsplit_sep_app (p h t : string) : PosixPath.rsplit_sep p = (h, t) → p = h +:+ t.
Proof.
  revert h t. induction p as [|c p IH]; intros h t.
  - by intros [= <- <-].
  - rewrite rsplit_sep_cons. destruct (PosixPath.rsplit_sep p) as [[|a h'] t'] eqn:E.
    + specialize (IH _ _ eq_refl). rewrite app_empty_l in IH. subst t'.
      destruct (decide (c = PosixPath.sep)); by intros [= <- <-].
    + intros [= <- <-]. rewrite app_cons. f_equal. by apply IH.
Qed.

Lemma rstrip_sep_length (s : string) :
  (String.length (PosixPath.rstrip_sep s) ≤ String.length s)%nat.
Proof.
  induction s as [|c s IH]; [done|]. simpl.
  destruct (PosixPath.rstrip_sep s); [destruct (decide _)|]; simpl in *; lia.
Qed.

Lemma split_length (p h t : string) :
  PosixPath.split p = (h, t) →
  (String.length h + String.length t ≤ String.length p)%nat.
Proof.
  unfold PosixPath.split. destruct (PosixPath.rsplit_sep p) as [h' t'] eqn:E.
  apply rsplit_sep_app in E as ->. rewrite length_app_s.
  pose proof (rstrip_sep_length h').
  destruct (negb _ && negb _); intros [= <- <-]; lia.
Qed.

(** The heads [os.makedirs] recurses on get shorter, so a bound of the
    length of the name, or any larger one, is never reached. *)
Lemma makedirs_rec_fuel (n m : nat) (name : string) (f : FS) :
  (String.length name ≤ n)%nat → (String.length name ≤ m)%nat →
  Os.makedirs_rec n name f = Os.makedirs_rec m name f.
Proof.
  revert m name f. induction n as [|n IH]; intros m name f Hn Hm;
    rewrite (makedirs_rec_unfold _ name), (makedirs_rec_unfold m name).
  - destruct name; [|simpl in Hn; lia]. by destruct m.
  - destruct (PosixPath.split name) as [h0 t0] eqn:E0.
    apply split_length in E0.
    destruct (decide (t0 = "")) as [->|Ht0].
    + destruct (PosixPath.split h0) as [head tail] eqn:E1.
      apply split_length in E1. cbv zeta.
      destruct (bool_decide (tail = "")) eqn:Et.
      { by rewrite andb_false_r. }
      apply bool_decide_eq_false in Et.
      assert (0 < String.length tail)%nat by (destruct tail; [done | simpl; lia]).
      destruct (negb _ && negb _ && negb _); [|done].
      destruct m as [|m]; [simpl in *; lia|].
      by rewrite (IH m) by lia.
    + cbv zeta.
      assert (0 < String.length t0)%nat by (destruct t0; [done | simpl; lia]).
      destruct (negb _ && negb _ && negb _); [|done].
      destruct m as [|m]; [simpl in *; lia|].
      by rewrite (IH m) by lia.
Qed.

(** ** The scenario and the two failing inputs *)

(** C1, as stated: the output file of the scenario does not hold the two
    lines the specification gives, where the first value of each row is
    written bare. *)
Lemma C1_scenario_not_as_stated :
  fs (snd (Tool.migrate null_platform ".sql" "/work/a.csv" (work_dir "a.csv" scenario_csv)))
    !! "/work/migrations/sql/v001/data/a_migration.sql"
  ≠ Some (File scenario_as_stated).
Proof. vm_compute. discriminate. Qed.

(** C1, amended: in the scenario the run returns, the output file has two
    lines, with every cell in quotes since a cell of a delimited file is
    text, and the copy under [source] is the input. *)
Theorem C1_scenario (P : Tool.platform) :
  let run := Tool.migrate P ".sql" "/work/a.csv" (work_dir "a.csv" scenario_csv) in
  fst run = Ok tt
  ∧ fs (snd run) !! "/work/migrations/sql/v001/data/a_migration.sql"
    = Some (File scenario_output)
  ∧ fs (snd run) !! "/work/migrations/sql/v001/source/a.csv" = Some (File scenario_csv)
  ∧ TextIO.lines scenario_output
    = [ "INSERT INTO my_table (id, name) VALUES ('1', 'Ann');" +:+ String LF "";
        "INSERT INTO my_table (id, name) VALUES ('2', " +:+ String dquote
          ("O'Brien" +:+ String dquote (");" +:+ String LF "")) ].
Proof. vm_compute. done. Qed.

(** For an extension that is none of the four, the dispatch does nothing
    and returns. *)
Lemma dispatch_unsupported (P : Tool.platform) (filepath p : string) (w : world) :
  Spec.detect filepath = None → Tool.dispatch P filepath p w = (Ok tt, w).
Proof.
  unfold Spec.detect, Tool.dispatch.
  by repeat (destruct (PyStr.endswith _ _); [done|]).
Qed.

(** On a source of zero rows [migrate_csv] raises at [rows[0]], with the
    output file already made. *)
Lemma migrate_csv_no_rows (filepath new_file_path content : string) (w : world) (f1 : FS) :
  fs w !! filepath = Some (File content) →
  Csv.reader_rows content = Ok [] →
  Os.create new_file_path (fs w) = Ok f1 →
  Tool.migrate_csv filepath new_file_path w
  = (Raise IndexError,
     {| fs := <[new_file_path := File ""]> (fs w);
        file_label := file_label w; migrate_button := migrate_button w;
        trace := trace w ++ [EvCreate new_file_path] |}).
Proof.
  intros Hf Hrows Hc. unfold Tool.migrate_csv, bind.
  unfold Os.read_file at 1. rewrite Hf. unfold lift. rewrite Hrows.
  unfold Os.open_w at 1. rewrite Hc. by apply create_ok in Hc as ->.
Qed.

(** C2, on the code: for a source file [a.txt] the run returns without an
    exception, sets the label to [File Published], writes the log and
    makes no output file. *)
Theorem C2_unsupported_extension_published :
  let run := Tool.migrate null_platform ".sql" "/work/a.txt" (work_dir "a.txt" "hello") in
  fst run = Ok tt
  ∧ file_label (snd run) = "File Published"
  ∧ migrate_button (snd run) = "disabled"
  ∧ fs (snd run) !! "/work/migrations/sql/v001/data/a_migration.sql" = None
  ∧ is_Some (fs (snd run) !! "/work/migrations/sql/v001/log/migration_log.txt").
Proof. vm_compute. repeat split; eauto. Qed.

(** C3, on the code: for an empty [a.csv] the run raises [IndexError] at
    [rows[0]], after the output file has been opened for writing: the
    file is there, empty, and no log is written. *)
Theorem C3_empty_csv_leaves_output_file :
  let run := Tool.migrate null_platform ".sql" "/work/a.csv" (work_dir "a.csv" "") in
  Csv.reader_rows "" = Ok []
  ∧ fst run = Raise IndexError
  ∧ fs (snd run) !! "/work/migrations/sql/v001/data/a_migration.sql" = Some (File "")
  ∧ fs (snd run) !! "/work/migrations/sql/v001/log/migration_log.txt" = None.
Proof. vm_compute. done. Qed.

(** ** Delimited text *)

(** A header whose first column name has a line feed inside quotes, with
    one data row: the column names are joined as they are, and the output
    has two lines for the one row. *)
Lemma header_line_break_two_lines :
  ∃ columns data_rows text,
    Csv.reader_rows line_break_csv = Ok (columns :: data_rows)
    ∧ Forall (λ row, length row = length columns) data_rows
    ∧ fst (Tool.migrate null_platform ".sql" "/work/a.csv" (work_dir "a.csv" line_break_csv))
      = Ok tt
    ∧ fs (snd (Tool.migrate null_platform ".sql" "/work/a.csv"
                 (work_dir "a.csv" line_break_csv)))
        !! "/work/migrations/sql/v001/data/a_migration.sql" = Some (File text)
    ∧ length data_rows = 1%nat
    ∧ length (TextIO.lines text) = 2%nat.
Proof.
  eexists _, _, _. split; [vm_compute; reflexivity|].
  split; [repeat constructor|].
  split; [vm_compute; reflexivity|].
  split; [vm_compute; reflexivity|].
  split; reflexivity.
Qed.

(** When no column name has a line feed, the lines of the output are the
    statements of the data rows, one line per row; the statement of a row
    has the values of the cells of that row, as many as the row has. *)
Lemma migrate_csv_lines (filepath new_file_path content : string)
    (columns : list string) (data_rows : list (list string)) (w : world) (f1 : FS) :
  fs w !! filepath = Some (File content) →
  Csv.reader_rows content = Ok (columns :: data_rows) →
  Forall (λ name, PyStr.contains LF name = false) columns →
  Os.create new_file_path (fs w) = Ok f1 →
  ∃ w' text,
    Tool.migrate_csv filepath new_file_path w = (Ok tt, w')
    ∧ fs w' !! new_file_path = Some (File text)
    ∧ TextIO.lines text
      = List.map (λ row, Tool.insert_statement columns (List.map PyStr.repr row)) data_rows
    ∧ length (TextIO.lines text) = length data_rows.
Proof.
  intros Hf Hrows Hcols Hc.
  eexists _, _. split; [by eapply migrate_csv_rows|].
  cbn [fs]. split; [apply lookup_insert_eq|].
  assert (TextIO.lines (PyStr.concat (List.map (csv_statement columns) data_rows))
          = List.map (csv_statement columns) data_rows) as Hlines.
  { apply lines_statements. intros row _. apply insert_statement_line; [done|].
    apply Forall_forall. intros s Hs. apply list_elem_of_In, in_map_iff in Hs as (c & <- & _).
    apply repr_no_LF. }
  split; [exact Hlines|]. by rewrite Hlines, length_map.
Qed.

(** C4, on the code: a data row with fewer cells than the header is written
    with the cells it has and no more.  For the header [a,b] and the row
    [1] the run returns and the line of the output names two columns and
    gives one value; for a line with nothing on it, it gives no value. *)
Theorem C4_short_row_not_padded :
  let out := "/work/migrations/sql/v001/data/a_migration.sql" in
  let run := Tool.migrate null_platform ".sql" "/work/a.csv" (work_dir "a.csv" short_row_csv) in
  let blank :=
    Tool.migrate null_platform ".sql" "/work/a.csv" (work_dir "a.csv" blank_line_csv) in
  Csv.reader_rows short_row_csv = Ok [["a"; "b"]; ["1"]]
  ∧ fst run = Ok tt
  ∧ fs (snd run) !! out
    = Some (File ("INSERT INTO my_table (a, b) VALUES ('1');" +:+ String LF ""))
  ∧ Tool.insert_statement ["a"; "b"] (List.map PyStr.repr ["1"])
    = "INSERT INTO my_table (a, b) VALUES ('1');" +:+ String LF ""
  ∧ length (List.map PyStr.repr ["1"]) ≠ length ["a"; "b"]
  ∧ Csv.reader_rows blank_line_csv = Ok [["a"; "b"]; []]
  ∧ fst blank = Ok tt
  ∧ fs (snd blank) !! out
    = Some (File ("INSERT INTO my_table (a, b) VALUES ();" +:+ String LF "")).
Proof. vm_compute. repeat split; done. Qed.



(** ** [migrate_json] *)

Lemma migrate_json_records (P : Tool.platform) (filepath new_file_path content : string)
    (records : list (list (string * pyval (Tool.pyfloat P)))) (w : world) (f1 : FS) :
  fs w !! filepath = Some (File content) →
  Tool.json_load P (TextIO.universal_newlines content) = Ok (PyList (List.map PyDict records)) →
  Os.create new_file_path (fs w) = Ok f1 →
  Tool.migrate_json P filepath new_file_path w
  = (Ok tt,
     {| fs := <[new_file_path :=
                  File (PyStr.concat
                          (List.map (λ kvs, Tool.insert_statement (List.map fst kvs)
                                              (List.map (Tool.repr P) (List.map snd kvs)))
                             records))]> (fs w);
        file_label := file_label w; migrate_button := migrate_button w;
        trace := trace w ++ EvCreate new_file_path
                   :: List.map (λ kvs, EvWrite new_file_path
                                         (Tool.insert_statement (List.map fst kvs)
                                            (List.map (Tool.repr P) (List.map snd kvs))))
                        records |}).
Proof.
  intros Hf Hload Hc. unfold Tool.migrate_json, bind.
  unfold Os.read_file at 1. rewrite Hf. unfold lift at 1. rewrite Hload.
  unfold Os.open_w at 1. rewrite Hc. apply create_ok in Hc as ->.
  unfold lift, Tool.iterate. rewrite for_each_map.
  erewrite (for_each_write (λ kvs, Tool.insert_statement (List.map fst kvs)
                               (List.map (Tool.repr P) (List.map snd kvs))))
    by (unfold log_event, set_fs; cbn [fs]; apply lookup_insert_eq).
  unfold log_event, set_fs; cbn [fs file_label migrate_button trace]. f_equal. f_equal.
  - by rewrite insert_insert_eq.
  - by rewrite <- app_assoc.
Qed.

Lemma join_cons (sep x : string) (l : list string) :
  PyStr.join sep (x :: l)
  = x +:+ (match l with [] => "" | _ => sep +:+ PyStr.join sep l end).
Proof. destruct l; [by rewrite app_empty_r | done]. Qed.

(** A text that starts with a comma-free name followed by the end or by a
    comma has only one such reading. *)
Lemma comma_prefix_unique (x y r1 r2 : string) :
  PyStr.contains ","%char x = false → PyStr.contains ","%char y = false →
  (r1 = "" ∨ ∃ t, r1 = String ","%char t) → (r2 = "" ∨ ∃ t, r2 = String ","%char t) →
  x +:+ r1 = y +:+ r2 → x = y ∧ r1 = r2.
Proof.
  revert y. induction x as [|a x IH]; intros y Hx Hy H1 H2 E.
  - rewrite app_empty_l in E. destruct y as [|b y]; [done|].
    rewrite app_cons in E. simpl in Hy.
    destruct (decide (b = ","%char)) as [|Hb]; [done|].
    destruct H1 as [-> | [t ->]]; [done|]. injection E as E _. by destruct Hb.
  - simpl in Hx. destruct (decide (a = ","%char)) as [|Ha]; [done|].
    rewrite app_cons in E. destruct y as [|b y].
    + rewrite app_empty_l in E. destruct H2 as [-> | [t ->]]; [done|].
      injection E as E _. by destruct Ha.
    + rewrite app_cons in E. injection E as -> E. simpl in Hy.
      destruct (decide (b = ","%char)); [done|].
      destruct (IH y Hx Hy H1 H2 E) as [-> ->]. done.
Qed.

Lemma join_comma_inj (l1 l2 : list string) :
  Forall simple_name l1 → Forall simple_name l2 →
  PyStr.join ", " l1 = PyStr.join ", " l2 → l1 = l2.
Proof.
  intros H1. revert l2. induction H1 as [|x l1 [Hx0 Hx] Hl1 IH]; intros l2 H2 E.
  - destruct H2 as [|y l2 [Hy0 Hy] Hl2]; [done|].
    rewrite join_cons in E. simpl in E. destruct y; [done | discriminate E].
  - destruct H2 as [|y l2 [Hy0 Hy] Hl2].
    + rewrite join_cons in E. simpl in E. destruct x; [done | discriminate E].
    + rewrite !join_cons in E.
      apply comma_prefix_unique in E as [-> E]; try done.
      2: { destruct l1; [by left | right; by eexists]. }
      2: { destruct l2; [by left | right; by eexists]. }
      f_equal. destruct l1 as [|x1 l1], l2 as [|y1 l2]; try done.
      apply IH; [done|]. by apply (inj (String.app ", ")) in E.
Qed.

(** C7, as stated: the records [{"a, b": 1}] and [{"a": 1, "b": 2}] have
    different key sets, and the two statements written have the same
    column list, [(a, b)]. *)
Lemma C7_comma_in_key :
  ∃ ri rj : list (string * pyval (Tool.pyfloat comma_key_platform)),
    Tool.json_load comma_key_platform comma_key_json = Ok (PyList [PyDict ri; PyDict rj])
    ∧ (list_to_set (List.map fst ri) : gset string) ≠ list_to_set (List.map fst rj)
    ∧ fs (snd (Tool.migrate comma_key_platform ".sql" "/work/a.json"
                 (work_dir "a.json" comma_key_json)))
        !! "/work/migrations/sql/v001/data/a_migration.sql"
      = Some (File (Tool.insert_statement (List.map fst ri) ["1"]
                      +:+ Tool.insert_statement (List.map fst rj) ["1"; "2"]))
    ∧ Tool.insert_statement (List.map fst ri) ["1"]
      = "INSERT INTO my_table (a, b) VALUES (1);" +:+ String LF ""
    ∧ Tool.insert_statement (List.map fst rj) ["1"; "2"]
      = "INSERT INTO my_table (a, b) VALUES (1, 2);" +:+ String LF ""
    ∧ PyStr.join ", " (List.map fst ri) = PyStr.join ", " (List.map fst rj).
Proof.
  eexists _, _. split; [reflexivity|]. split.
  { intros E. assert ("a" ∈ (list_to_set ["a, b"] : gset string)) as H.
    { change (List.map fst [("a, b", PyInt 1)]) with ["a, b"] in E.
      rewrite E. set_solver. }
    set_solver. }
  split; [vm_compute; reflexivity|]. repeat split; reflexivity.
Qed.

(** C7, amended: every record of a JSON array of objects gets its own
    statement, built from that record's own keys, all of them and in
    their order; two records with different key sets get different lists
    of column names and, when the keys are not empty and have no comma,
    different column lists in the statements written. *)
Theorem C7_json_own_keys (P : Tool.platform) (filepath new_file_path content : string)
    (records : list (list (string * pyval (Tool.pyfloat P)))) (w : world) (f1 : FS) :
  fs w !! filepath = Some (File content) →
  Tool.json_load P (TextIO.universal_newlines content) = Ok (PyList (List.map PyDict records)) →
  Os.create new_file_path (fs w) = Ok f1 →
  ∃ w',
    Tool.migrate_json P filepath new_file_path w = (Ok tt, w')
    ∧ fs w' !! new_file_path
      = Some (File (PyStr.concat
                      (List.map (λ kvs, Tool.insert_statement (List.map fst kvs)
                                          (List.map (Tool.repr P) (List.map snd kvs)))
                         records)))
    ∧ trace w'
      = trace w ++ EvCreate new_file_path
          :: List.map (λ kvs, EvWrite new_file_path
                                (Tool.insert_statement (List.map fst kvs)
                                   (List.map (Tool.repr P) (List.map snd kvs))))
               records
    ∧ ∀ i j ri rj,
        records !! i = Some ri → records !! j = Some rj →
        (list_to_set (List.map fst ri) : gset string) ≠ list_to_set (List.map fst rj) →
        List.map fst ri ≠ List.map fst rj
        ∧ (Forall simple_name (List.map fst ri) → Forall simple_name (List.map fst rj) →
           PyStr.join ", " (List.map fst ri) ≠ PyStr.join ", " (List.map fst rj)).
Proof.
  intros Hf Hload Hc. eexists. split; [by eapply migrate_json_records|].
  cbn [fs trace]. split; [apply lookup_insert_eq|]. split; [done|].
  intros i j ri rj _ _ Hne.
  assert (List.map fst ri ≠ List.map fst rj) as Hl by (intros E; apply Hne; by rewrite E).
  split; [done|]. intros Hi Hj E. apply Hl. by apply join_comma_inj.
Qed.

(** C8: in a run that returns, the records written come from the extractor
    for the extension of the source file, applied to the content of the
    source file; the export extension is in the name of the type folder
    (after its first character) and at the end of the output file name. *)
Theorem C8_converter_by_source_extension (P : Tool.platform)
    (file_extension filepath : string) (w w' : world) :
  Tool.migrate P file_extension filepath w = (Ok tt, w') →
  ∃ j content,
    let type_folder_path :=
      PosixPath.join (PosixPath.join (PosixPath.dirname filepath) "migrations")
        (PyStr.tail file_extension) in
    let new_file_path :=
      PosixPath.join
        (PosixPath.join (PosixPath.join type_folder_path (vname j)) "data")
        (fst (PosixPath.splitext (PosixPath.basename filepath))
           +:+ "_migration" +:+ file_extension) in
    fs w !! filepath = Some (File content)
    ∧ match Spec.detect filepath with
      | Some f =>
          ∃ records,
            Spec.extract P f content = Ok records
            ∧ fs w' !! new_file_path
              = Some (File (PyStr.concat (List.map Spec.render records)))
            ∧ In (EvCreate new_file_path) (trace w')
      | None =>
          ∀ ev, In ev (trace w') → ¬ In ev (trace w) →
                ev ≠ EvCreate new_file_path ∧ ∀ t, ev ≠ EvWrite new_file_path t
      end.
Proof.
  unfold Tool.migrate. unfold bind at 1.
  destruct (Tool.allocate file_extension filepath w) as [[dirs|e] w1] eqn:Ea; [|done].
  apply allocate_inv in Ea
    as (G1 & _ & _ & [(e & evs & [=] & _) | (j & [= Hd] & _ & _ & _ & D1 & _ & _ & _ & Ht1)]).
  set (T := PosixPath.join (PosixPath.join (PosixPath.dirname filepath) "migrations")
              (PyStr.tail file_extension)) in *.
  set (vp := PosixPath.join T (vname j)) in *.
  subst dirs. cbn [Tool.source_folder Tool.data_folder Tool.log_folder].
  set (name := fst (PosixPath.splitext (PosixPath.basename filepath))
                 +:+ "_migration" +:+ file_extension).
  set (new := PosixPath.join (PosixPath.join vp "data") name).
  set (lp := PosixPath.join (PosixPath.join vp "log") "migration_log.txt").
  assert (new ≠ lp) as Hnl.
  { apply new_file_path_not_log;
      [by apply join_nonempty, vname_plain | by apply join_no_trailing_sep, vname_plain
      | apply new_filename_no_leading_sep]. }
  unfold bind at 1.
  destruct (Os.copy filepath _ w1) as [[[]|e] w2] eqn:Ec; [|done].
  apply copy_ok in Ec as (content & target & Hsrc & Hne & ->).
  unfold bind at 1.
  destruct (Tool.dispatch P filepath new _) as [[[]|e] w3] eqn:Ed; [|done].
  apply (dispatch_inv P filepath new content) in Ed;
    [|cbn [fs]; by rewrite lookup_insert_ne].
  unfold bind at 1.
  destruct (Tool.write_log P _ filepath _ new w3) as [[[]|e] w4] eqn:El; [|done].
  apply write_log_ok in El as (text & later & -> & Hlater). fold lp in Hlater |- *.
  unfold bind, Tool.set_file_label, Tool.set_migrate_button.
  cbn [fs file_label migrate_button trace]. intros [= <-].
  cbn [fs file_label migrate_button trace].
  exists j, content. cbv zeta. fold T vp name new.
  split; [by eapply grows_file|].
  destruct (Spec.detect filepath) as [f|].
  - destruct Ed as (records & Hx & ->). exists records.
    cbn [fs trace]. split; [done|]. split.
    + rewrite lookup_insert_ne by done. apply lookup_insert_eq.
    + rewrite !in_app_iff. left. right. by left.
  - subst w3. cbn [trace]. rewrite Ht1. intros ev Hin Hnot.
    rewrite !in_app_iff in Hin.
    destruct Hin as [[[Hin | Hin] | Hin] | Hin]; [done | | |].
    + simpl in Hin. destruct Hin as [<- | [<- | [<- | [<- | [<- | [<- | []]]]]]]; done.
    + simpl in Hin. destruct Hin as [<- | []]. done.
    + simpl in Hin. destruct Hin as [<- | Hin].
      * split; [|done]. intros [= E]. by apply Hnl.
      * rewrite Forall_forall in Hlater. apply list_elem_of_In in Hin.
        destruct (Hlater _ Hin) as [t ->]. split; [done|].
        intros t' [= E _]. by apply Hnl.
Qed.

(** ** The theorems at concrete inputs *)

(** C5 at the directory of the scenario and the extension [.sql]. *)
Lemma C5_witness :
  ∃ dirs1 w1 dirs2 w2,
    Tool.allocate ".sql" "/work/a.csv" (work_dir "a.csv" scenario_csv) = (Ok dirs1, w1)
    ∧ Tool.version_folder_path dirs1 = "/work/migrations/sql/v001"
    ∧ Tool.allocate ".sql" "/work/a.csv" w1 = (Ok dirs2, w2)
    ∧ Tool.version_folder_path dirs2 = "/work/migrations/sql/v002"
    ∧ Tool.version_folder_path dirs2 ≠ Tool.version_folder_path dirs1.
Proof.
  apply (C5_allocate_twice ".sql" "/work/a.csv" (work_dir "a.csv" scenario_csv)).
  - vm_compute; reflexivity.
  - by apply plain_literal.
  - intros c H. vm_compute in H. discriminate H.
  - intros c H. vm_compute in H. discriminate H.
  - intros rest. vm_compute. reflexivity.
Defined.

(** C6 at the run of the scenario: the allocation returns and the folders
    are made. *)
Lemma C6_witness :
  let w := work_dir "a.csv" scenario_csv in
  let run := Tool.migrate null_platform ".sql" "/work/a.csv" w in
  ∃ dirs w1 later,
    Tool.allocate ".sql" "/work/a.csv" w = (Ok dirs, w1)
    ∧ fs w !! Tool.version_folder_path dirs = None
    ∧ (∃ j, Tool.version_folder_path dirs
            = PosixPath.join "/work/migrations/sql" (vname j))
    ∧ Tool.data_folder dirs = PosixPath.join (Tool.version_folder_path dirs) "data"
    ∧ Tool.source_folder dirs = PosixPath.join (Tool.version_folder_path dirs) "source"
    ∧ Tool.log_folder dirs = PosixPath.join (Tool.version_folder_path dirs) "log"
    ∧ fs w1 !! Tool.version_folder_path dirs = Some Dir
    ∧ fs w1 !! Tool.data_folder dirs = Some Dir
    ∧ fs w1 !! Tool.source_folder dirs = Some Dir
    ∧ fs w1 !! Tool.log_folder dirs = Some Dir
    ∧ trace w1 = trace w ++ [EvMakedirs "/work/migrations";
                             EvMakedirs "/work/migrations/sql";
                             EvMakedirs (Tool.version_folder_path dirs);
                             EvMakedirs (Tool.data_folder dirs);
                             EvMakedirs (Tool.source_folder dirs);
                             EvMakedirs (Tool.log_folder dirs)]
    ∧ trace (snd run) = trace w1 ++ later.
Proof.
  intros w run.
  refine (proj2 (C6_fresh_version_made_before_writes null_platform ".sql" "/work/a.csv" w (fst run) (snd run)
                   (surjective_pairing _)) _ _ _ _ _).
  - vm_compute; reflexivity.
  - by apply plain_literal.
  - intros c H. vm_compute in H. discriminate H.
  - intros c H. vm_compute in H. discriminate H.
  - intros j rest _. vm_compute. reflexivity.
Defined.

(** C7 at a file read as two records, one with the keys [id], [name] and
    one with the keys [id], [email]. *)
Lemma C7_witness :
  let w := work_dir "a.json" two_records_json in
  let records : list (list (string * pyval (Tool.pyfloat two_records_platform))) :=
    [[("id", PyInt 1); ("name", PyStr "Ann")]; [("id", PyInt 2); ("email", PyNone)]] in
  ∃ w',
    Tool.migrate_json two_records_platform "/work/a.json" "/work/out.sql" w = (Ok tt, w')
    ∧ fs w' !! "/work/out.sql"
      = Some (File ("INSERT INTO my_table (id, name) VALUES (1, 'Ann');" +:+ String LF
                      ("INSERT INTO my_table (id, email) VALUES (2, None);" +:+ String LF "")))
    ∧ trace w'
      = trace w ++ EvCreate "/work/out.sql"
          :: List.map (λ kvs, EvWrite "/work/out.sql"
                                (Tool.insert_statement (List.map fst kvs)
                                   (List.map (Tool.repr two_records_platform)
                                      (List.map snd kvs))))
               records
    ∧ ∀ i j ri rj,
        records !! i = Some ri → records !! j = Some rj →
        (list_to_set (List.map fst ri) : gset string) ≠ list_to_set (List.map fst rj) →
        List.map fst ri ≠ List.map fst rj
        ∧ (Forall simple_name (List.map fst ri) → Forall simple_name (List.map fst rj) →
           PyStr.join ", " (List.map fst ri) ≠ PyStr.join ", " (List.map fst rj)).
Proof.
  apply (C7_json_own_keys two_records_platform "/work/a.json" "/work/out.sql"
           two_records_json
           [[("id", PyInt 1); ("name", PyStr "Ann")]; [("id", PyInt 2); ("email", PyNone)]]
           (work_dir "a.json" two_records_json)
           (<["/work/out.sql" := File ""]> (fs (work_dir "a.json" two_records_json)))).
  - vm_compute; reflexivity.
  - reflexivity.
  - vm_compute; reflexivity.
Defined.

(** C8 at the run of the scenario. *)
Lemma C8_witness :
  let w := work_dir "a.csv" scenario_csv in
  let w' := snd (Tool.migrate null_platform ".sql" "/work/a.csv" w) in
  ∃ j content,
    fs w !! "/work/a.csv" = Some (File content)
    ∧ ∃ records,
        Spec.extract null_platform Spec.csv content = Ok records
        ∧ fs w' !! PosixPath.join (PosixPath.join (PosixPath.join "/work/migrations/sql" (vname j))
                                     "data") "a_migration.sql"
          = Some (File (PyStr.concat (List.map Spec.render records)))
        ∧ In (EvCreate (PosixPath.join (PosixPath.join
                                          (PosixPath.join "/work/migrations/sql" (vname j))
                                          "data") "a_migration.sql")) (trace w').
Proof.
  apply (C8_converter_by_source_extension null_platform ".sql" "/work/a.csv"
           (work_dir "a.csv" scenario_csv)).
  vm_compute. reflexivity.
Defined.

(** C9 at a text with a single quote, the line separator U+2028, which is
    not printable, and a character beyond U+FFFF. *)
Lemma C9_witness :
  PyUnicode.parse_literal (PyUnicode.repr sample_isprintable sample_text) = Some sample_text
  ∧ ((∀ n, 128 ≤ n < 256 → sample_isprintable n = PyStr.isprintable_high n) →
     ∀ t : string,
       PyUnicode.codes t = sample_text →
       PyUnicode.codes (PyStr.repr t) = PyUnicode.repr sample_isprintable sample_text).
Proof.
  apply (C9_repr_roundtrip sample_isprintable sample_text).
  - repeat constructor; vm_compute; discriminate.
  - reflexivity.
Defined.

(** ** The paths a call writes at *)

Lemma bind_inv {A B} (m : M A) (k : A → M B) (w : world) r (w' : world) :
  bind m k w = (r, w') →
  (∃ a w1, m w = (Ok a, w1) ∧ k a w1 = (r, w'))
  ∨ (∃ e, m w = (Raise e, w') ∧ r = Raise e).
Proof.
  unfold bind. destruct (m w) as [[a|e] w1]; intros H.
  - left. by exists a, w1.
  - right. injection H as <- <-. by exists e.
Qed.

Section Steps.

Context (R : world → world → Prop).
Context (R_refl : ∀ w, R w w) (R_trans : ∀ a b c, R a b → R b c → R a c).

Lemma steps_ret {A} (a : A) : steps R (ret a).
Proof using R_refl. intros w r w1 [= <- <-]. apply R_refl. Qed.

Lemma steps_raise {A} (e : exn) : steps R (@raise A e).
Proof using R_refl. intros w r w1 [= <- <-]. apply R_refl. Qed.

Lemma steps_lift {A} (x : result A) : steps R (lift x).
Proof using R_refl. intros w r w1 [= <- <-]. apply R_refl. Qed.

Lemma steps_read_file (p : string) : steps R (Os.read_file p).
Proof using R_refl.
  intros w r w1. unfold Os.read_file.
  destruct (fs w !! p) as [[|c]|]; intros [= <- <-]; apply R_refl.
Qed.

Lemma steps_bind {A B} (m : M A) (k : A → M B) :
  steps R m → (∀ a, steps R (k a)) → steps R (bind m k).
Proof using R_trans.
  intros Hm Hk w r w1 H. apply bind_inv in H as [(a & w0 & H1 & H2) | (e & H1 & _)].
  - eapply R_trans; [by eapply Hm | by eapply Hk].
  - by eapply Hm.
Qed.

Lemma steps_for_each {A} (items : list A) (body : A → M unit) :
  (∀ x, steps R (body x)) → steps R (for_each items body).
Proof using R_refl R_trans.
  intros Hb. induction items as [|x l IH]; simpl.
  - apply steps_ret.
  - apply steps_bind; [apply Hb | intros _; apply IH].
Qed.

End Steps.

Lemma writes_in_refl (S : string → Prop) (w : world) : writes_in S w w.
Proof. repeat split; done. Qed.

Lemma writes_in_trans (S : string → Prop) (a b c : world) :
  writes_in S a b → writes_in S b c → writes_in S a c.
Proof.
  intros ((L1 & B1) & K1 & O1) ((L2 & B2) & K2 & O2). split; [|split].
  - split; congruence.
  - intros p. destruct (K1 p) as [k1 d1], (K2 p) as [k2 d2]. split; auto.
  - intros p Hp. rewrite O2, O1; done.
Qed.

Lemma writes_in_mono (S S' : string → Prop) (w w1 : world) :
  (∀ p, S p → S' p) → writes_in S w w1 → writes_in S' w w1.
Proof.
  intros HS (L & K & O). split; [done|]. split; [done|].
  intros p Hp. apply O. intros Hs. by apply Hp, HS.
Qed.

Lemma steps_mono {A} (S S' : string → Prop) (m : M A) :
  (∀ p, S p → S' p) → steps (writes_in S) m → steps (writes_in S') m.
Proof. intros HS Hm w r w1 H. eapply writes_in_mono; [exact HS | by eapply Hm]. Qed.

(** A file put at a path that held no directory. *)
Lemma writes_in_insert (S : string → Prop) (w : world) (p c : string) (evs : list event) :
  S p → fs w !! p ≠ Some Dir →
  writes_in S w {| fs := <[p := File c]> (fs w); file_label := file_label w;
                   migrate_button := migrate_button w; trace := evs |}.
Proof.
  intros Hp Hnd. split; [done|]. split.
  - intros q. cbn [fs]. destruct (decide (p = q)) as [<-|Hne].
    + rewrite lookup_insert_eq. split; [by eexists | done].
    + by rewrite lookup_insert_ne.
  - intros q Hq. cbn [fs]. apply lookup_insert_ne. by intros <-.
Qed.

Lemma create_not_dir (p : string) (f f1 : FS) : Os.create p f = Ok f1 → f !! p ≠ Some Dir.
Proof. unfold Os.create. by destruct (f !! p) as [[|c]|]. Qed.

Lemma steps_open_w (p : string) : steps (writes_in (eq p)) (Os.open_w p).
Proof.
  intros w r w1. unfold Os.open_w.
  destruct (Os.create p (fs w)) as [f|e] eqn:E; intros [= <- <-].
  - rewrite (create_ok _ _ _ E). world_simpl.
    apply writes_in_insert; [done | by eapply create_not_dir].
  - apply writes_in_refl.
Qed.

Lemma steps_write (p t : string) : steps (writes_in (eq p)) (Os.write p t).
Proof.
  intros w r w1. unfold Os.write.
  destruct (fs w !! p) as [[|c]|] eqn:E; intros [= <- <-]; try apply writes_in_refl.
  world_simpl. apply writes_in_insert; [done | by rewrite E].
Qed.

Lemma steps_copy (src dst : string) :
  steps (writes_in (λ p, p = dst ∨ p = PosixPath.join dst (PosixPath.basename src)))
        (Os.copy src dst).
Proof.
  intros w r w1. unfold Os.copy.
  set (target := if Os.isdir (fs w) dst then _ else _).
  assert (target = dst ∨ target = PosixPath.join dst (PosixPath.basename src)) as Ht
    by (unfold target; destruct (Os.isdir _ _); auto).
  destruct (decide (src = target)); [intros [= <- <-]; apply writes_in_refl|].
  destruct (fs w !! src) as [[|c]|]; try (intros [= <- <-]; apply writes_in_refl).
  destruct (Os.create target (fs w)) as [f|e] eqn:E; intros [= <- <-];
    [|apply writes_in_refl].
  rewrite (create_ok _ _ _ E). world_simpl. rewrite insert_insert_eq.
  apply writes_in_insert; [done | by eapply create_not_dir].
Qed.

Ltac steps_tac :=
  repeat first
    [ progress intros
    | apply steps_bind; [apply writes_in_trans | |]
    | apply steps_for_each; [apply writes_in_refl | apply writes_in_trans |]
    | apply steps_ret; apply writes_in_refl
    | apply steps_raise; apply writes_in_refl
    | apply steps_lift; apply writes_in_refl
    | apply steps_read_file; apply writes_in_refl
    | apply steps_open_w
    | apply steps_write
    | match goal with |- steps _ (match ?x with _ => _ end) => destruct x end ].

Lemma steps_migrate_csv (a p : string) : steps (writes_in (eq p)) (Tool.migrate_csv a p).
Proof. unfold Tool.migrate_csv. steps_tac. Qed.

Lemma steps_migrate_excel P (a p : string) : steps (writes_in (eq p)) (Tool.migrate_excel P a p).
Proof. unfold Tool.migrate_excel. steps_tac. Qed.

Lemma steps_migrate_json P (a p : string) : steps (writes_in (eq p)) (Tool.migrate_json P a p).
Proof. unfold Tool.migrate_json. steps_tac. Qed.

Lemma steps_migrate_xml P (a p : string) : steps (writes_in (eq p)) (Tool.migrate_xml P a p).
Proof. unfold Tool.migrate_xml. steps_tac. Qed.

Lemma steps_dispatch P (a p : string) : steps (writes_in (eq p)) (Tool.dispatch P a p).
Proof.
  unfold Tool.dispatch.
  repeat match goal with |- steps _ (if ?c then _ else _) => destruct c end;
    [apply steps_migrate_csv | apply steps_migrate_excel | apply steps_migrate_json
    | apply steps_migrate_xml | apply steps_ret, writes_in_refl].
Qed.

Lemma steps_write_log P (l a b c : string) :
  steps (writes_in (eq (PosixPath.join l "migration_log.txt"))) (Tool.write_log P l a b c).
Proof. unfold Tool.write_log. steps_tac. Qed.

(** ** [migrate] keeps what is there *)

Lemma no_sep_no_leading_sep (b : string) :
  PyStr.contains PosixPath.sep b = false → PyStr.startswith b "/" = false.
Proof.
  destruct b as [|c b]; [done|]. simpl.
  destruct (decide (c = PosixPath.sep)) as [->|Hc]; [done|]. intros _.
  destruct (decide ("/"%char = c)) as [<-|]; done.
Qed.

Lemma basename_no_leading_sep (p : string) :
  PyStr.startswith (PosixPath.basename p) "/" = false.
Proof. apply no_sep_no_leading_sep, basename_no_sep. Qed.

Lemma below_join (vp a b : string) :
  below vp a → PyStr.startswith b "/" = false → below vp (PosixPath.join a b).
Proof.
  intros [rest ->] Hb. unfold PosixPath.join. rewrite Hb. simpl.
  assert (vp +:+ "/" +:+ rest ≠ "") as Hne.
  { destruct vp; [done|]. by rewrite app_cons. }
  rewrite bool_decide_eq_false_2 by done.
  destruct (PyStr.endswith _ "/").
  - exists (rest +:+ b). by rewrite !app_assoc_s.
  - exists (rest +:+ "/" +:+ b). by rewrite !app_assoc_s.
Qed.

Lemma below_child (vp c : string) :
  vp ≠ "" → PyStr.endswith vp "/" = false → plain c → below vp (PosixPath.join vp c).
Proof. intros H1 H2 Hc. exists c. by apply join_simple. Qed.

(** A run of [migrate]: the allocation raises, or it returns and what
    follows writes below the version folder only; the two widgets change
    when the run returns, and only then. *)
Lemma migrate_inv (P : Tool.platform) (file_extension filepath : string)
    (w : world) r (w' : world) :
  Tool.migrate P file_extension filepath w = (r, w') →
  (∃ e, Tool.allocate file_extension filepath w = (Raise e, w') ∧ r = Raise e)
  ∨ (∃ dirs w1 w2,
       Tool.allocate file_extension filepath w = (Ok dirs, w1)
       ∧ writes_in (below (Tool.version_folder_path dirs)) w1 w2
       ∧ ((r = Ok tt
           ∧ w' = {| fs := fs w2; file_label := "File Published";
                     migrate_button := "disabled"; trace := trace w2 |})
          ∨ (∃ e, r = Raise e ∧ w' = w2))).
Proof.
  unfold Tool.migrate. intros H.
  apply bind_inv in H as [(dirs & w1 & Ha & H) | (e & Ha & ->)].
  all: swap 1 2. { left. by exists e. } right.
  exists dirs, w1.
  enough (∃ w2, writes_in (below (Tool.version_folder_path dirs)) w1 w2
                ∧ ((r = Ok tt
                    ∧ w' = {| fs := fs w2; file_label := "File Published";
                              migrate_button := "disabled"; trace := trace w2 |})
                   ∨ (∃ e, r = Raise e ∧ w' = w2))) as (w2 & ? & ?) by by exists w2.
  pose proof Ha as Hinv.
  apply allocate_inv in Hinv
    as (_ & _ & _ & [(e & evs & [=] & _) | (j & [= Hd] & _)]).
  set (T := PosixPath.join (PosixPath.join (PosixPath.dirname filepath) "migrations")
              (PyStr.tail file_extension)) in *.
  set (vp := PosixPath.join T (vname j)) in *.
  assert (vp ≠ "") as Hne by apply join_nonempty, vname_plain.
  assert (PyStr.endswith vp "/" = false) as He by apply join_no_trailing_sep, vname_plain.
  subst dirs. cbn [Tool.source_folder Tool.data_folder Tool.log_folder
                   Tool.version_folder_path] in *.
  assert (∀ c, negb (bool_decide (c = "")) && negb (PyStr.contains PosixPath.sep c) = true →
            below vp (PosixPath.join vp c)) as Hchild.
  { intros c Hc. apply below_child; [done..|by apply plain_literal]. }
  set (S := below vp).
  assert (∀ a b c : world, writes_in S a b → writes_in S b c → writes_in S a c) as Htr
    by apply writes_in_trans.
  apply bind_inv in H as [([] & wa & Hc & H) | (e & Hc & ->)].
  2: { exists w'. split; [|right; by exists e].
       apply steps_copy in Hc. eapply writes_in_mono; [|exact Hc].
       intros p [-> | ->]; repeat first [by apply Hchild | apply below_join];
         auto using basename_no_leading_sep. }
  assert (writes_in S w1 wa) as W1.
  { apply steps_copy in Hc. eapply writes_in_mono; [|exact Hc].
    intros p [-> | ->]; repeat first [by apply Hchild | apply below_join];
      auto using basename_no_leading_sep. }
  apply bind_inv in H as [([] & wb & Hdp & H) | (e & Hdp & ->)].
  2: { exists w'. split; [|right; by exists e].
       eapply Htr; [exact W1|]. apply steps_dispatch in Hdp.
       eapply writes_in_mono; [|exact Hdp].
       intros p <-. apply below_join; [by apply Hchild|].
       apply new_filename_no_leading_sep. }
  assert (writes_in S w1 wb) as W2.
  { eapply Htr; [exact W1|]. apply steps_dispatch in Hdp.
    eapply writes_in_mono; [|exact Hdp].
    intros p <-. apply below_join; [by apply Hchild|].
    apply new_filename_no_leading_sep. }
  apply bind_inv in H as [([] & wc & Hl & H) | (e & Hl & ->)].
  2: { exists w'. split; [|right; by exists e].
       eapply Htr; [exact W2|]. apply steps_write_log in Hl.
       eapply writes_in_mono; [|exact Hl].
       intros p <-. apply below_join; [by apply Hchild | done]. }
  assert (writes_in S w1 wc) as W3.
  { eapply Htr; [exact W2|]. apply steps_write_log in Hl.
    eapply writes_in_mono; [|exact Hl].
    intros p <-. apply below_join; [by apply Hchild | done]. }
  exists wc. split; [done|]. left.
  unfold bind, Tool.set_file_label, Tool.set_migrate_button in H.
  cbn [fs file_label migrate_button trace] in H. by injection H as <- <-.
Qed.

Lemma migrate_widgets (P : Tool.platform) (file_extension filepath : string) (w : world) :
  let run := Tool.migrate P file_extension filepath w in
  match fst run with
  | Ok _ => file_label (snd run) = "File Published" ∧ migrate_button (snd run) = "disabled"
  | Raise _ => file_label (snd run) = file_label w
               ∧ migrate_button (snd run) = migrate_button w
  end.
Proof.
  intros run. destruct run as [r w'] eqn:E. unfold run in E. cbn [fst snd].
  pose proof E as Hinv. apply migrate_inv in Hinv
    as [(e & Ha & ->) | (dirs & w1 & w2 & Ha & (Hw & _) & [(-> & ->) | (e & -> & ->)])].
  - by apply allocate_inv in Ha as (_ & L & B & _).
  - done.
  - apply allocate_inv in Ha as (_ & L & B & _). destruct Hw as [L2 B2].
    split; congruence.
Qed.

(** X9: after a run of [migrate], returned or raised after its
    allocation, the folder of its version is a directory, and the allocation
    of any later run, for whatever file and export type, takes a version
    folder that is not there yet, so another one than this. *)
Theorem later_run_takes_another_version (P : Tool.platform)
    (extension1 filepath1 extension2 filepath2 : string)
    (w : world) r (w1 wa wb : world) (dirs1 dirs2 : Tool.folders) :
  Tool.allocate extension1 filepath1 w = (Ok dirs1, wa) →
  Tool.migrate P extension1 filepath1 w = (r, w1) →
  Tool.allocate extension2 filepath2 w1 = (Ok dirs2, wb) →
  fs w1 !! Tool.version_folder_path dirs1 = Some Dir
  ∧ fs w1 !! Tool.version_folder_path dirs2 = None
  ∧ Tool.version_folder_path dirs2 ≠ Tool.version_folder_path dirs1.
Proof.
  intros Ha Hm Hb.
  apply migrate_inv in Hm as [(e & Ha' & _) | (dirs & w1' & w2 & Ha' & (_ & K & _) & Hw)];
    [congruence|].
  rewrite Ha in Ha'. injection Ha' as <- <-.
  apply allocate_inv in Ha
    as (_ & _ & _ & [(e & evs & [=] & _) | (j & [= ->] & _ & _ & _ & D1 & _)]).
  apply allocate_inv in Hb
    as (_ & _ & _ & [(e & evs & [=] & _) | (j2 & [= ->] & _ & Hfree & _)]).
  cbn [Tool.version_folder_path].
  assert (fs w2 !! PosixPath.join
            (PosixPath.join (PosixPath.join (PosixPath.dirname filepath1) "migrations")
               (PyStr.tail extension1)) (vname j) = Some Dir) as D2 by by apply K.
  assert (fs w1 = fs w2) as Efs by (destruct Hw as [(_ & ->) | (e & _ & ->)]; done).
  rewrite Efs in *. split; [done|]. split; [done|]. intros E. rewrite E in Hfree. congruence.
Qed.

(** X8: a run of [migrate], whether it returns or raises, removes and
    changes nothing: every file and directory of the file system before the
    run is there after it, with the same content (as long as nothing lies
    below a version folder that is not there). *)
Theorem migrate_keeps_what_was_there (P : Tool.platform)
    (file_extension filepath : string) (w : world) :
  let type_folder_path :=
    PosixPath.join (PosixPath.join (PosixPath.dirname filepath) "migrations")
      (PyStr.tail file_extension) in
  (∀ j rest, fs w !! PosixPath.join type_folder_path (vname j) = None →
             fs w !! (PosixPath.join type_folder_path (vname j) +:+ "/" +:+ rest) = None) →
  ∀ p x, fs w !! p = Some x →
         fs (snd (Tool.migrate P file_extension filepath w)) !! p = Some x.
Proof.
  intros T Hwf p x Hp.
  destruct (Tool.migrate P file_extension filepath w) as [r w'] eqn:E. cbn [snd].
  apply migrate_inv in E as [(e & Ha & _) | (dirs & w1 & w2 & Ha & (_ & _ & O) & Hw)].
  - apply allocate_inv in Ha as (G & _). by eapply grows_keeps.
  - apply allocate_inv in Ha
      as (G & _ & _ & [(e & evs & [=] & _) | (j & [= ->] & _ & Hfree & _)]).
    cbn [Tool.version_folder_path] in O. fold T in O, Hfree.
    assert (fs w' = fs w2) as -> by (destruct Hw as [(_ & ->) | (e & _ & ->)]; done).
    rewrite O; [by eapply grows_keeps|].
    intros [rest ->]. rewrite (Hwf j rest Hfree) in Hp. done.
Qed.

(** ** The window *)

Lemma run_invariant (P : Tool.platform) (I : Gui.app → Prop) :
  (∀ c a, I a → I (Gui.step P c a)) →
  ∀ clicks a, I a → I (Gui.run P clicks a).
Proof.
  intros Hstep clicks. unfold Gui.run.
  induction clicks as [|c l IH]; intros a Ha; [done|]. simpl. by apply IH, Hstep.
Qed.

Lemma window_invariant_step (P : Tool.platform) (c : Gui.click) (a : Gui.app) :
  window_invariant a → window_invariant (Gui.step P c a).
Proof.
  intros (He & Hq & Hm). destruct c as [answer| | |t]; simpl.
  - unfold Gui.load_file. case_bool_decide as Ha; simpl.
    + repeat split; auto.
    + split; [done|]. split; [left; done | by left].
  - unfold Gui.press. case_bool_decide as Hd; [done|].
    destruct Hq as [(Hn & Hf) | (Hn & _)]; [|done].
    split; [done|]. split; [by left|]. right. done.
  - unfold Gui.press. case_bool_decide as Hd; [done|].
    destruct Hm as [Hm | (Hn & Hqn & Hg)]; [done|].
    split; [done|]. split; [done|]. unfold Gui.migrate_command. cbn.
    pose proof (migrate_widgets P (Gui.export_type_var a) (Gui.filepath a) (Gui.app_world a))
      as Hw. cbv zeta in Hw.
    destruct (fst (Tool.migrate P _ _ _)).
    + left. apply Hw.
    + right. destruct Hw as [_ ->]. done.
  - split; [destruct t; auto|]. done.
Qed.

Lemma window_invariant_start (f : FS) : window_invariant (Gui.window f).
Proof. split; [by left|]. split; [by right | by left]. Qed.

(** X16: at any time of a session, whatever was clicked: the export type
    is one of the two of the menu; the QC button is enabled exactly when a
    file is chosen; and the Migrate button is enabled only with a file
    chosen, the QC button enabled and the traffic light green. *)
Theorem migrate_enabled_only_after_qc (P : Tool.platform) (f : FS) (clicks : list Gui.click) :
  let a := Gui.run P clicks (Gui.window f) in
  (Gui.export_type_var a = ".db" ∨ Gui.export_type_var a = ".sql")
  ∧ (Gui.qc_button a = "normal" ↔ Gui.filepath a ≠ "")
  ∧ (migrate_button (Gui.app_world a) ≠ "disabled" →
     Gui.filepath a ≠ "" ∧ Gui.qc_button a = "normal" ∧ Gui.traffic_light a = "green").
Proof.
  intros a.
  assert (window_invariant a) as (He & Hq & Hm).
  { apply run_invariant; [apply window_invariant_step | apply window_invariant_start]. }
  split; [done|]. split.
  - destruct Hq as [(-> & Hf) | (-> & ->)]; split; done.
  - intros Hn. destruct Hm as [Hm | (_ & Hqn & Hg)]; [done|].
    destruct Hq as [(_ & Hf) | (Hqd & _)]; [done | congruence].
Qed.

Lemma traffic_light_step (P : Tool.platform) (c : Gui.click) (a : Gui.app) :
  Gui.traffic_light a = "green" → Gui.traffic_light (Gui.step P c a) = "green".
Proof.
  intros Hg. destruct c as [answer| | |t]; simpl; try done.
  - unfold Gui.load_file. by destruct (negb _).
  - unfold Gui.press. by destruct (bool_decide _).
  - unfold Gui.press. by destruct (bool_decide _).
Qed.

(** X17: once the traffic light is green it stays green, whatever is
    clicked: when another file is chosen afterwards it is still green,
    while the Migrate button is disabled again. *)
Theorem traffic_light_stays_green (P : Tool.platform) (clicks : list Gui.click)
    (answer : string) (a : Gui.app) :
  Gui.traffic_light a = "green" →
  let a' := Gui.load_file answer (Gui.run P clicks a) in
  Gui.traffic_light a' = "green" ∧ migrate_button (Gui.app_world a') = "disabled".
Proof.
  intros Hg a'.
  assert (Gui.traffic_light (Gui.run P clicks a) = "green") as Hr.
  { apply (run_invariant P (λ a, Gui.traffic_light a = "green")); [|done].
    intros c a0. apply traffic_light_step. }
  unfold a', Gui.load_file. by destruct (negb _).
Qed.

(** X1: the search for a version folder (the loop of lines 90 to 95) ends
    on every file system and changes nothing; the name it gives is that of
    the least number from 1 on whose folder is not there: every lower
    version is there, the one taken is not. *)
Theorem find_version_least_free (type_folder_path : string) (w : world) :
  ∃ j, Tool.find_version type_folder_path w = (Ok (vname j), w)
       ∧ 1 ≤ j
       ∧ fs w !! PosixPath.join type_folder_path (vname j) = None
       ∧ ∀ i, 1 ≤ i < j → is_Some (fs w !! PosixPath.join type_folder_path (vname i)).
Proof.
  destruct (Tool.find_version type_folder_path w) as [r w1] eqn:E.
  apply find_version_inv in E as (-> & j & -> & H1 & H2 & H3). by exists j.
Qed.

(** ** The converters, statement by statement *)

Lemma written_nil (p : string) (w : world) (f1 : FS) :
  written p [] w = {| fs := <[p := File ""]> (fs w); file_label := file_label w;
                      migrate_button := migrate_button w;
                      trace := trace w ++ [EvCreate p] |}.
Proof. done. Qed.

(** A loop of writes that an exception may end. *)
Lemma for_each_write_until {A} (g : A → result string) (p : string) (items : list A)
    (w : world) (c : string) :
  fs w !! p = Some (File c) →
  for_each items (λ x, match g x with
                       | Ok t => Os.write p t
                       | Raise e => raise e
                       end) w
  = (match snd (run_until g items) with None => Ok tt | Some e => Raise e end,
     {| fs := <[p := File (c +:+ PyStr.concat (fst (run_until g items)))]> (fs w);
        file_label := file_label w; migrate_button := migrate_button w;
        trace := trace w ++ List.map (EvWrite p) (fst (run_until g items)) |}).
Proof.
  revert w c. induction items as [|x l IH]; intros w c Hc.
  - simpl. unfold ret. f_equal. destruct w as [f lb mb tr]; simpl in *.
    rewrite app_empty_r, app_nil_r. f_equal. by rewrite insert_id.
  - simpl. unfold bind. destruct (g x) as [t|e].
    + rewrite (write_ok p t c) by done.
      rewrite (IH _ (c +:+ t)) by (simpl; apply lookup_insert_eq).
      destruct (run_until g l) as [ys stop]. cbn [fst snd fs file_label migrate_button trace].
      f_equal. f_equal.
      * rewrite insert_insert_eq. simpl. by rewrite app_assoc_s.
      * simpl. by rewrite <- app_assoc.
    + unfold raise. simpl. f_equal. destruct w as [f lb mb tr]; simpl in *.
      rewrite app_empty_r, app_nil_r. f_equal. by rewrite insert_id.
Qed.

(** [open(p, "w")] and then such a loop. *)
Lemma write_loop {A} (g : A → result string) (p : string) (items : list A)
    (w : world) (f1 : FS) :
  Os.create p (fs w) = Ok f1 →
  bind (Os.open_w p)
       (λ _, for_each items (λ x, match g x with
                                  | Ok t => Os.write p t
                                  | Raise e => raise e
                                  end)) w
  = (match snd (run_until g items) with None => Ok tt | Some e => Raise e end,
     written p (fst (run_until g items)) w).
Proof.
  intros Hc. unfold bind, Os.open_w. rewrite Hc. apply create_ok in Hc as ->.
  rewrite (for_each_write_until g p items _ "") by (world_simpl; apply lookup_insert_eq).
  world_simpl. unfold written. f_equal. f_equal.
  - by rewrite insert_insert_eq.
  - by rewrite <- app_assoc.
Qed.

Lemma run_until_total {A B} (h : A → B) (items : list A) :
  run_until (λ x, Ok (h x)) items = (List.map h items, None).
Proof. induction items as [|x l IH]; [done|]. simpl. by rewrite IH. Qed.

Lemma run_until_app {A B} (g : A → result B) (l1 l2 : list A) (ys : list B) :
  run_until g l1 = (ys, None) →
  run_until g (l1 ++ l2) = (ys ++ fst (run_until g l2), snd (run_until g l2)).
Proof.
  revert ys. induction l1 as [|x l IH]; intros ys.
  - intros [= <-]. simpl. by destruct (run_until g l2).
  - simpl. destruct (g x) as [y|e]; [|done].
    destruct (run_until g l) as [ys' stop] eqn:E. intros [= <- ->].
    rewrite (IH ys') by done. done.
Qed.

(** ** [migrate_json] on any value *)

Lemma migrate_json_run (P : Tool.platform) (filepath p content : string)
    (data : pyval (Tool.pyfloat P)) (w : world) (f1 : FS) :
  fs w !! filepath = Some (File content) →
  Tool.json_load P (TextIO.universal_newlines content) = Ok data →
  Os.create p (fs w) = Ok f1 →
  Tool.migrate_json P filepath p w
  = match Tool.iterate P data with
    | Raise e => (Raise e, written p [] w)
    | Ok entries =>
        let g := λ entry : pyval (Tool.pyfloat P),
                   match entry with
                   | PyDict kvs => Ok (json_statement P kvs)
                   | _ => Raise AttributeError
                   end in
        (match snd (run_until g entries) with None => Ok tt | Some e => Raise e end,
         written p (fst (run_until g entries)) w)
    end.
Proof.
  intros Hf Hload Hc. unfold Tool.migrate_json.
  unfold bind at 1. unfold Os.read_file at 1. rewrite Hf.
  unfold bind at 1. unfold lift at 1. rewrite Hload.
  destruct (Tool.iterate P data) as [entries|e] eqn:Ei.
  - cbv zeta. erewrite <- write_loop by done.
    unfold bind. destruct (Os.open_w p w) as [[[]|e] w1]; [|done].
    unfold lift. apply for_each_ext. intros x w0. by destruct x.
  - unfold bind, Os.open_w. rewrite Hc. apply create_ok in Hc as ->. unfold lift. done.
Qed.

(** X12: when the JSON array has an entry that is not an object after some
    objects, [migrate_json] raises [AttributeError] at that entry; the output
    file holds the statements of the objects before it, and nothing of the
    entries after it. *)
Theorem migrate_json_stops_at_non_object (P : Tool.platform)
    (filepath new_file_path content : string)
    (records : list (list (string * pyval (Tool.pyfloat P))))
    (other : pyval (Tool.pyfloat P)) (rest : list (pyval (Tool.pyfloat P)))
    (w : world) (f1 : FS) :
  fs w !! filepath = Some (File content) →
  Tool.json_load P (TextIO.universal_newlines content)
  = Ok (PyList (List.map PyDict records ++ other :: rest)) →
  (∀ kvs, other ≠ PyDict kvs) →
  Os.create new_file_path (fs w) = Ok f1 →
  Tool.migrate_json P filepath new_file_path w
  = (Raise AttributeError,
     {| fs := <[new_file_path :=
                  File (PyStr.concat (List.map (json_statement P) records))]> (fs w);
        file_label := file_label w; migrate_button := migrate_button w;
        trace := trace w ++ EvCreate new_file_path
                   :: List.map (λ kvs, EvWrite new_file_path (json_statement P kvs))
                        records |}).
Proof.
  intros Hf Hload Hother Hc.
  rewrite (migrate_json_run P filepath new_file_path content _ w f1) by done.
  cbn [Tool.iterate]. cbv zeta.
  rewrite (run_until_app _ _ _ (List.map (json_statement P) records)).
  2: { clear. induction records as [|kvs l IH]; [done|]. simpl. by rewrite IH. }
  cbn [fst snd]. 
  assert (run_until (λ entry : pyval (Tool.pyfloat P),
                       match entry with
                       | PyDict kvs => Ok (json_statement P kvs)
                       | _ => Raise AttributeError
                       end) (other :: rest) = ([], Some AttributeError)) as ->.
  { simpl. destruct other; try done. by destruct (Hother entries). }
  cbn [fst snd]. rewrite app_nil_r. unfold written. by rewrite map_map.
Qed.

(** X13: when the JSON text is not an array, the loop runs over what it
    is: [migrate_json] returns for an empty object or an empty string,
    raises [AttributeError] for another object or string (at its first key or
    character) and [TypeError] for a number, a boolean or [null]; in each
    case the output file is created and left empty. *)
Theorem migrate_json_top_level_not_a_list (P : Tool.platform)
    (filepath new_file_path content : string) (data : pyval (Tool.pyfloat P))
    (w : world) (f1 : FS) :
  fs w !! filepath = Some (File content) →
  Tool.json_load P (TextIO.universal_newlines content) = Ok data →
  (∀ items, data ≠ PyList items) →
  Os.create new_file_path (fs w) = Ok f1 →
  Tool.migrate_json P filepath new_file_path w
  = (match data with
     | PyDict [] | PyStr "" => Ok tt
     | PyDict (_ :: _) | PyStr (String _ _) => Raise AttributeError
     | _ => Raise TypeError
     end,
     {| fs := <[new_file_path := File ""]> (fs w);
        file_label := file_label w; migrate_button := migrate_button w;
        trace := trace w ++ [EvCreate new_file_path] |}).
Proof.
  intros Hf Hload Hnl Hc.
  rewrite (migrate_json_run P filepath new_file_path content _ w f1) by done.
  destruct data as [| | | |s|items|entries]; try done.
  - by destruct s.
  - by destruct (Hnl items).
  - by destruct entries.
Qed.

(** ** [migrate_xml] *)

Lemma migrate_xml_run (P : Tool.platform)
    (filepath new_file_path content : string) (root : element) (w : world) (f1 : FS) :
  fs w !! filepath = Some (File content) →
  Tool.xml_parse P content = Ok root →
  Os.create new_file_path (fs w) = Ok f1 →
  Tool.migrate_xml P filepath new_file_path w
  = (Ok tt,
     {| fs := <[new_file_path :=
                  File (PyStr.concat (List.map xml_statement (find_items root)))]> (fs w);
        file_label := file_label w; migrate_button := migrate_button w;
        trace := trace w ++ EvCreate new_file_path
                   :: List.map (λ item, EvWrite new_file_path (xml_statement item))
                        (find_items root) |}).
Proof.
  intros Hf Hparse Hc. unfold Tool.migrate_xml.
  unfold bind at 1. unfold Os.read_file at 1. rewrite Hf.
  unfold bind at 1. unfold lift at 1. rewrite Hparse.
  pose proof (write_loop (λ item, Ok (xml_statement item)) new_file_path
                (find_items root) w f1 Hc) as Hl.
  rewrite run_until_total in Hl. cbn [fst snd] in Hl.
  unfold written in Hl. rewrite map_map in Hl. exact Hl.
Qed.

Lemma element_ind_nested (Q : element → Prop) :
  (∀ t x children, Forall Q children → Q (Element t x children)) → ∀ e, Q e.
Proof.
  intros H. fix IH 1. intros [t x children]. apply H.
  induction children as [|c l IHl]; constructor; [apply IH | exact IHl].
Qed.

Lemma descendants_trans (a b c : element) :
  In a (descendants b) → In b (descendants c) → In a (descendants c).
Proof.
  intros Hab. revert c. apply (element_ind_nested (λ c, In b (descendants c) → In a (descendants c))).
  intros t x children IH. simpl. rewrite !in_flat_map.
  intros (ch & Hch & [-> | Hb]).
  - exists b. split; [done|]. by right.
  - exists ch. split; [done|]. right.
    rewrite Forall_forall in IH. apply (IH ch); [by apply list_elem_of_In | done].
Qed.

(** X15: an [item] element inside an [item] gets a statement of its own,
    and each of its fields is also a field of the outer item: nested items
    are written twice. *)
Theorem xml_nested_item_repeats_fields (root outer inner : element) :
  In outer (find_items root) →
  In inner (descendants outer) →
  tag_of inner = "item" →
  In inner (find_items root)
  ∧ ∀ field, In field (descendants inner) → In field (descendants outer).
Proof.
  unfold find_items. rewrite !filter_In. intros [Ho _] Hi Ht. split.
  - split; [by eapply descendants_trans | by apply bool_decide_eq_true].
  - intros field Hf. by eapply descendants_trans.
Qed.

(** ** [migrate_excel] *)

Lemma str_items_not_text (P : Tool.platform) (labels : list (pyval (Tool.pyfloat P))) :
  Exists (λ l, ∀ s, l ≠ PyStr s) labels → Tool.str_items P labels = Raise TypeError.
Proof.
  induction 1 as [l rest Hl | l rest _ IH].
  - simpl. destruct l; try done. by destruct (Hl s).
  - simpl. destruct l; try done. by rewrite IH.
Qed.

(** X11: when a column label of the frame is not a string (a number, as
    for a header cell [2024]), [', '.join(columns)] raises [TypeError] at
    the first row and [migrate_excel] leaves an empty output file; with no
    row at all it returns, the output file being empty as well. *)
Theorem migrate_excel_label_not_text (P : Tool.platform)
    (filepath new_file_path content : string)
    (labels : list (pyval (Tool.pyfloat P))) (rows : list (list (Tool.xlcell P)))
    (w : world) (f1 : FS) :
  fs w !! filepath = Some (File content) →
  Tool.read_excel P content = Ok (labels, rows) →
  Exists (λ l, ∀ s, l ≠ PyStr s) labels →
  Os.create new_file_path (fs w) = Ok f1 →
  Tool.migrate_excel P filepath new_file_path w
  = (match rows with [] => Ok tt | _ :: _ => Raise TypeError end,
     {| fs := <[new_file_path := File ""]> (fs w);
        file_label := file_label w; migrate_button := migrate_button w;
        trace := trace w ++ [EvCreate new_file_path] |}).
Proof.
  intros Hf Hread Hl Hc. unfold Tool.migrate_excel.
  unfold bind at 1. unfold Os.read_file at 1. rewrite Hf.
  unfold bind at 1. unfold lift at 1. rewrite Hread. cbn [fst snd].
  unfold bind at 1. unfold Os.open_w. rewrite Hc. apply create_ok in Hc as ->.
  destruct rows as [|row rows]; [done|].
  simpl. unfold bind, lift. by rewrite str_items_not_text.
Qed.

(** ** The steps of [migrate] after the allocation *)

(** ** Calls that go through *)

Lemma parent_check_child (f : FS) (d b : string) :
  dir_like d → plain b → f !! d = Some Dir → Os.parent_check f (PosixPath.join d b) = Ok tt.
Proof.
  intros Hd Hb Hf. unfold Os.parent_check. rewrite dirname_join by done. rewrite Hf.
  destruct (decide (d = "")); [|done]. rewrite decide_False; [done|]. by apply join_nonempty.
Qed.

Lemma create_child (f : FS) (d b : string) :
  dir_like d → plain b → f !! d = Some Dir → f !! PosixPath.join d b = None →
  Os.create (PosixPath.join d b) f = Ok (<[PosixPath.join d b := File ""]> f).
Proof.
  intros Hd Hb Hf Hn. unfold Os.create. rewrite Hn. by rewrite parent_check_child.
Qed.

Lemma copy_child (src d b content : string) (w : world) :
  dir_like d → plain b →
  fs w !! src = Some (File content) → fs w !! d = Some Dir →
  fs w !! PosixPath.join d b = None →
  Os.copy src (PosixPath.join d b) w
  = (Ok tt, {| fs := <[PosixPath.join d b := File content]> (fs w);
               file_label := file_label w; migrate_button := migrate_button w;
               trace := trace w ++ [EvCopy src (PosixPath.join d b)] |}).
Proof.
  intros Hd Hb Hs Hf Hn. unfold Os.copy, Os.isdir. rewrite Hn.
  rewrite bool_decide_eq_false_2 by done.
  rewrite decide_False by (intros ->; congruence).
  rewrite Hs. rewrite create_child by done. world_simpl. by rewrite insert_insert_eq.
Qed.

Lemma write_log_run (P : Tool.platform) (log_folder filepath source_file_path new_file_path : string)
    (w : world) (f1 : FS) :
  Os.create (PosixPath.join log_folder "migration_log.txt") (fs w) = Ok f1 →
  Tool.write_log P log_folder filepath source_file_path new_file_path w
  = (Ok tt, written (PosixPath.join log_folder "migration_log.txt")
              (log_lines P filepath source_file_path new_file_path) w).
Proof.
  intros Hc. unfold Tool.write_log. set (lp := PosixPath.join log_folder _) in *.
  unfold bind, Os.open_w. rewrite Hc. apply create_ok in Hc as ->.
  erewrite write_ok by (world_simpl; apply lookup_insert_eq). world_simpl.
  erewrite write_ok by (world_simpl; apply lookup_insert_eq). world_simpl.
  erewrite write_ok by (world_simpl; apply lookup_insert_eq). world_simpl.
  erewrite write_ok by (world_simpl; apply lookup_insert_eq). world_simpl.
  erewrite write_ok by (world_simpl; apply lookup_insert_eq). world_simpl.
  unfold written, log_lines. f_equal. f_equal.
  - rewrite !insert_insert_eq. f_equal. f_equal. simpl.
    rewrite !app_assoc_s. rewrite !app_empty_l. by rewrite ?app_empty_r.
  - simpl. by rewrite <- !app_assoc.
Qed.

(** ** The converters when the extractor returns *)

Lemma run_until_traverse {A B C} (g' : A → result B) (g : A → result C) (h : B → C)
    (items : list A) (ys : list B) :
  (∀ x y, g' x = Ok y → g x = Ok (h y)) →
  traverse g' items = Ok ys → run_until g items = (List.map h ys, None).
Proof.
  intros Hg. revert ys. induction items as [|x l IH]; intros ys; simpl.
  - by intros [= <-].
  - destruct (g' x) as [y|e] eqn:E; [|done]. rewrite (Hg _ _ E).
    destruct (traverse g' l) as [ys'|e]; [|done]. intros [= <-].
    by rewrite (IH ys').
Qed.

Lemma migrate_excel_run (P : Tool.platform) (filepath p content : string)
    (labels : list (pyval (Tool.pyfloat P))) (rows : list (list (Tool.xlcell P)))
    (w : world) (f1 : FS) :
  fs w !! filepath = Some (File content) →
  Tool.read_excel P content = Ok (labels, rows) →
  Os.create p (fs w) = Ok f1 →
  let g := λ row, match Tool.str_items P labels with
                  | Ok names => Ok (Tool.insert_statement names
                                      (List.map (Tool.xlcell_repr P) row))
                  | Raise e => Raise e
                  end in
  Tool.migrate_excel P filepath p w
  = (match snd (run_until g rows) with None => Ok tt | Some e => Raise e end,
     written p (fst (run_until g rows)) w).
Proof.
  intros Hf Hread Hc g. unfold Tool.migrate_excel.
  unfold bind at 1. unfold Os.read_file at 1. rewrite Hf.
  unfold bind at 1. unfold lift at 1. rewrite Hread. cbn [fst snd].
  erewrite <- write_loop by done.
  unfold bind at 1 3. destruct (Os.open_w p w) as [[[]|e] w1]; [|done].
  apply for_each_ext. intros row w0. unfold bind, lift, g.
  by destruct (Tool.str_items P labels).
Qed.

Lemma dispatch_run (P : Tool.platform) (filepath p content : string) (f : Spec.format)
    (records : list (Spec.tabular_record P)) (w : world) (f1 : FS) :
  Spec.detect filepath = Some f →
  fs w !! filepath = Some (File content) →
  Spec.extract P f content = Ok records →
  Os.create p (fs w) = Ok f1 →
  Tool.dispatch P filepath p w = (Ok tt, written p (List.map Spec.render records) w).
Proof.
  intros Hdet Hf Hx Hc.
  assert (Tool.dispatch P filepath p
          = match f with
            | Spec.csv => Tool.migrate_csv filepath p
            | Spec.xlsx => Tool.migrate_excel P filepath p
            | Spec.json => Tool.migrate_json P filepath p
            | Spec.xml => Tool.migrate_xml P filepath p
            end) as ->.
  { unfold Spec.detect in Hdet. unfold Tool.dispatch.
    repeat match type of Hdet with (if ?c then _ else _) = _ => destruct c end;
      first [discriminate Hdet | by injection Hdet as <-]. }
  destruct f; simpl in Hx.
  - destruct (Csv.reader_rows content) as [[|columns rows]|e] eqn:Er; try done.
    injection Hx as <-. erewrite migrate_csv_rows by done.
    assert (List.map Spec.render
              (List.map (λ row, (columns, List.map (@Spec.Text P) row)) rows)
            = List.map (csv_statement columns) rows) as ->.
    { rewrite map_map. apply map_ext. intros row. rewrite render_insert_statement.
      cbn [fst snd]. by rewrite serialize_text. }
    unfold written. by rewrite map_map.
  - destruct (Tool.read_excel P content) as [[labels rows]|e] eqn:Er; [|done].
    erewrite migrate_excel_run by done. cbv zeta.
    erewrite (run_until_traverse _ _ Spec.render); [done| |exact Hx].
    intros row y. cbv beta. destruct (Tool.str_items P labels); [|done].
    intros [= <-]. rewrite render_insert_statement. cbn [fst snd].
    by rewrite serialize_sheet.
  - destruct (Tool.json_load P _) as [data|e] eqn:El; [|done].
    erewrite migrate_json_run by done.
    destruct (Tool.iterate P data) as [entries|e]; [|done]. cbv zeta.
    erewrite (run_until_traverse _ _ Spec.render); [done| |exact Hx].
    intros entry y. cbv beta. destruct entry; try done.
    intros [= <-]. rewrite render_insert_statement. cbn [fst snd].
    unfold json_statement. by rewrite serialize_value.
  - destruct (Tool.xml_parse P content) as [root|e] eqn:Ep; [|done].
    injection Hx as <-. erewrite migrate_xml_run by done.
    assert (List.map Spec.render
              (List.map (λ item, (List.map tag_of (descendants item),
                                  List.map (λ d, @Spec.Markup P (text_of d))
                                    (descendants item)))
                 (find_items root))
            = List.map xml_statement (find_items root)) as ->.
    { rewrite map_map. apply map_ext. intros item. rewrite render_insert_statement.
      cbn [fst snd]. by rewrite serialize_markup. }
    unfold written. by rewrite map_map.
Qed.

(** ** The run up to the copy of the source *)

Lemma app_no_sep (a b : string) :
  PyStr.contains PosixPath.sep a = false → PyStr.contains PosixPath.sep b = false →
  PyStr.contains PosixPath.sep (a +:+ b) = false.
Proof. intros Ha Hb. by rewrite contains_app, Ha, Hb. Qed.

Lemma new_filename_plain (filepath file_extension : string) :
  PyStr.contains PosixPath.sep file_extension = false →
  plain (fst (PosixPath.splitext (PosixPath.basename filepath))
           +:+ "_migration" +:+ file_extension).
Proof.
  intros He. split.
  - intros E. apply (f_equal String.length) in E. rewrite !length_app_s in E. simpl in E. lia.
  - apply app_no_sep; [apply splitext_stem_no_sep, basename_no_sep|].
    by apply app_no_sep.
Qed.

Section Run.

Context (P : Tool.platform) (file_extension filepath content : string) (w : world).

Let d := PosixPath.dirname filepath.
Let name := PosixPath.basename filepath.
Let root := PosixPath.join d "migrations".
Let T := PosixPath.join root (PyStr.tail file_extension).

Hypothesis Hext : file_extension = ".db" ∨ file_extension = ".sql".
Hypothesis Hfile : fs w !! filepath = Some (File content).
Hypothesis Hd : fs w !! d = Some Dir.
Hypothesis Hname : name ≠ "".
Hypothesis Hroot : ∀ c, fs w !! root ≠ Some (File c).
Hypothesis HT : ∀ c, fs w !! T ≠ Some (File c).
Hypothesis Hwf : ∀ j rest, fs w !! PosixPath.join T (vname j) = None →
                           fs w !! (PosixPath.join T (vname j) +:+ "/" +:+ rest) = None.

(** The run up to the call of the converter: the six folders and the copy
    of the source. *)
Lemma migrate_start :
  ∃ j,
    1 ≤ j
    ∧ fs w !! PosixPath.join T (vname j) = None
    ∧ (∀ i, 1 ≤ i < j → is_Some (fs w !! PosixPath.join T (vname i)))
    ∧ let vp := PosixPath.join T (vname j) in
      let data := PosixPath.join vp "data" in
      let source := PosixPath.join vp "source" in
      let log := PosixPath.join vp "log" in
      let source_file_path := PosixPath.join source name in
      let new_file_path :=
        PosixPath.join data (fst (PosixPath.splitext name) +:+ "_migration" +:+ file_extension) in
      let log_file_path := PosixPath.join log "migration_log.txt" in
      let f1 := <[source_file_path := File content]>
                  (<[log := Dir]> (<[source := Dir]> (<[data := Dir]> (<[vp := Dir]>
                     (<[T := Dir]> (<[root := Dir]> (fs w))))))) in
      let w1 := {| fs := f1; file_label := file_label w; migrate_button := migrate_button w;
                   trace := trace w ++ [EvMakedirs root; EvMakedirs T; EvMakedirs vp;
                                        EvMakedirs data; EvMakedirs source; EvMakedirs log;
                                        EvCopy filepath source_file_path] |} in
      Tool.migrate P file_extension filepath w
      = bind (Tool.dispatch P filepath new_file_path)
             (λ _, bind (Tool.write_log P log filepath source_file_path new_file_path)
                        (λ _, bind (Tool.set_file_label "File Published")
                                   (λ _, Tool.set_migrate_button "disabled"))) w1
      ∧ f1 !! filepath = Some (File content)
      ∧ f1 !! new_file_path = None
      ∧ f1 !! log_file_path = None
      ∧ f1 !! data = Some Dir
      ∧ f1 !! log = Some Dir
      ∧ new_file_path ≠ log_file_path
      ∧ new_file_path ≠ filepath ∧ log_file_path ≠ filepath
      ∧ new_file_path ≠ log ∧ dir_like data ∧ dir_like log
      ∧ f1 !! vp = Some Dir
      ∧ new_file_path ≠ vp ∧ new_file_path ≠ source_file_path.
Proof using All.
  assert (plain (PyStr.tail file_extension)) as Hpe
    by (destruct Hext as [-> | ->]; by apply plain_literal).
  assert (PyStr.contains PosixPath.sep file_extension = false) as Hse
    by (destruct Hext as [-> | ->]; done).
  assert (plain "migrations") as Pm by (by apply plain_literal).
  assert (plain "data") as Pd by (by apply plain_literal).
  assert (plain "source") as Ps by (by apply plain_literal).
  assert (plain "log") as Pl by (by apply plain_literal).
  assert (plain "migration_log.txt") as Plf by (by apply plain_literal).
  assert (plain name) as Pn by (split; [done | apply basename_no_sep]).
  set (nm := fst (PosixPath.splitext name) +:+ "_migration" +:+ file_extension).
  assert (plain nm) as Pnm by (by apply new_filename_plain).
  pose proof (join_length d "migrations" Pm) as L1. fold root in L1.
  pose proof (join_length root _ Hpe) as L2. fold T in L2.
  set (f2 := <[T := Dir]> (<[root := Dir]> (fs w))).
  destruct (version_loop_finishes f2 T) as [v Hv].
  pose proof Hv as Hv'. change "v001" with (vname 1) in Hv'.
  apply version_loop_ok in Hv' as (j & -> & Hj & Hfree2 & Hprev2).
  exists j.
  pose proof (vname_plain j) as Pv.
  set (vp := PosixPath.join T (vname j)) in *.
  pose proof (join_length T _ Pv) as L3. fold vp in L3.
  assert (vp ≠ "") as Hvne by (by apply join_nonempty).
  assert (PyStr.endswith vp "/" = false) as Hve by (by apply join_no_trailing_sep).
  assert (fs w !! vp = None) as Hfree.
  { apply path_exists_false in Hfree2. unfold f2 in Hfree2.
    by rewrite !lookup_insert_ne in Hfree2 by (apply ne_by_length; lia). }
  split; [done|]. split; [done|]. split.
  { intros i Hi. specialize (Hprev2 i Hi). unfold Os.path_exists in Hprev2.
    apply bool_decide_eq_true in Hprev2. unfold f2 in Hprev2.
    pose proof (join_length T _ (vname_plain i)) as L4.
    by rewrite !lookup_insert_ne in Hprev2 by (apply ne_by_length; lia). }
  cbv zeta.
  set (data := PosixPath.join vp "data").
  set (source := PosixPath.join vp "source").
  set (log := PosixPath.join vp "log").
  set (sp := PosixPath.join source name).
  set (np := PosixPath.join data nm).
  set (lp := PosixPath.join log "migration_log.txt").
  (* the paths, as the version folder and what follows it *)
  assert (data = vp +:+ "/data") as Ed by (by apply join_simple).
  assert (source = vp +:+ "/source") as Es by (by apply join_simple).
  assert (log = vp +:+ "/log") as El by (by apply join_simple).
  assert (sp = vp +:+ "/source/" +:+ name) as Esp.
  { unfold sp. rewrite join_simple; [|by apply join_nonempty|by apply join_no_trailing_sep|done].
    fold source. rewrite Es. by rewrite !app_assoc_s. }
  assert (np = vp +:+ "/data/" +:+ nm) as Enp.
  { unfold np. rewrite join_simple; [|by apply join_nonempty|by apply join_no_trailing_sep|done].
    fold data. rewrite Ed. by rewrite !app_assoc_s. }
  assert (lp = vp +:+ "/log/migration_log.txt") as Elp.
  { unfold lp. rewrite join_simple; [|by apply join_nonempty|by apply join_no_trailing_sep|done].
    fold log. rewrite El. by rewrite !app_assoc_s. }
  assert (∀ rest, fs w !! (vp +:+ "/" +:+ rest) = None) as Hin by (intros; by apply Hwf).
  assert (∀ (f : FS) p, f !! p = None → ∀ c, f !! p ≠ Some (File c)) as Hno
    by (intros f p -> c; done).
  (* the allocation *)
  pose proof (allocate_ok file_extension filepath w (vname j)) as A.
  fold d root T vp data source log f2 in A.
  specialize (A Hd Hpe Hroot HT Hv).
  assert (∀ c, fs w !! data ≠ Some (File c)) as Hda
    by (apply Hno; rewrite Ed; apply (Hin "data")).
  assert (∀ c, fs w !! source ≠ Some (File c)) as Hso
    by (apply Hno; rewrite Es; apply (Hin "source")).
  assert (∀ c, fs w !! log ≠ Some (File c)) as Hlo
    by (apply Hno; rewrite El; apply (Hin "log")).
  specialize (A Hda Hso Hlo).
  match type of A with _ = (_, ?w') => set (wa := w') in * end.
  assert (dir_like vp) as Dv by (by apply join_dir_like).
  assert (dir_like data) as Dd by (by apply join_dir_like).
  assert (dir_like source) as Ds by (by apply join_dir_like).
  assert (dir_like log) as Dl by (by apply join_dir_like).
  assert (fs wa !! filepath = Some (File content)) as Hfa.
  { apply allocate_inv in A as (G & _). by eapply grows_keeps. }
  assert (fs wa !! source = Some Dir) as Hsa.
  { unfold wa. cbn [fs]. rewrite lookup_insert_ne; [apply lookup_insert_eq|].
    rewrite El, Es. intros E. apply (inj (String.app vp)) in E. discriminate E. }
  assert (fs wa !! sp = None) as Hspa.
  { unfold wa, f2. cbn [fs]. rewrite Esp, El, Es, Ed.
    rewrite !lookup_insert_ne; [apply (Hin ("source/" +:+ name)) | ..];
      try (apply ne_by_length; rewrite ?length_app_s; simpl; lia);
      try (intros E; apply (inj (String.app vp)) in E; discriminate E).
  }
  unfold Tool.migrate. unfold bind at 1. rewrite A.
  cbn [Tool.source_folder Tool.data_folder Tool.log_folder]. fold name sp nm np.
  pose proof (copy_child filepath source name content wa Ds Pn Hfa Hsa Hspa) as Hcp.
  fold sp in Hcp. unfold bind at 1. rewrite Hcp. split.
  { unfold wa. cbn [fs file_label migrate_button trace]. unfold f2.
    by rewrite <- app_assoc. }
  unfold wa, f2. cbn [fs].
  assert (sp ≠ filepath) as Hsf by (intros E; rewrite E in Hspa; congruence).
  split; [by rewrite lookup_insert_ne|].
  assert (np ≠ sp) as Hns.
  { rewrite Enp, Esp. intros E. apply (inj (String.app vp)) in E. discriminate E. }
  assert (lp ≠ sp) as Hls.
  { rewrite Elp, Esp. intros E. apply (inj (String.app vp)) in E. discriminate E. }
  assert (np ≠ lp) as Hnl.
  { rewrite Enp, Elp. intros E. apply (inj (String.app vp)) in E. discriminate E. }
  assert (String.length nm ≠ 0)%nat as Hnm0.
  { unfold nm. rewrite !length_app_s. simpl. lia. }
  split.
  { rewrite lookup_insert_ne by done. rewrite Enp, El, Es, Ed.
    rewrite !lookup_insert_ne; [apply (Hin ("data/" +:+ nm)) | ..];
      try (apply ne_by_length; rewrite ?length_app_s; simpl; lia);
      try (intros E; apply (inj (String.app vp)) in E; discriminate E). }
  split.
  { rewrite lookup_insert_ne by done. rewrite Elp, El, Es, Ed.
    rewrite !lookup_insert_ne; [apply (Hin "log/migration_log.txt") | ..];
      try (apply ne_by_length; rewrite ?length_app_s; simpl; lia);
      try (intros E; apply (inj (String.app vp)) in E; discriminate E). }
  split.
  { rewrite Esp, El, Es, Ed.
    do 3 (rewrite lookup_insert_ne
            by (intros E; apply (inj (String.app vp)) in E; discriminate E)).
    apply lookup_insert_eq. }
  split.
  { rewrite Esp, El.
    rewrite lookup_insert_ne
      by (intros E; apply (inj (String.app vp)) in E; discriminate E).
    apply lookup_insert_eq. }
  split; [done|].
  assert (fs w !! np = None) as Hnw by (rewrite Enp; apply (Hin ("data/" +:+ nm))).
  assert (fs w !! lp = None) as Hlw by (rewrite Elp; apply (Hin "log/migration_log.txt")).
  split; [intros E; rewrite E in Hnw; congruence|].
  split; [intros E; rewrite E in Hlw; congruence|].
  split.
  { rewrite Enp, El. intros E. apply (inj (String.app vp)) in E. discriminate E. }
  split; [done|]. split; [done|]. split.
  { rewrite Esp, El, Es, Ed.
    do 4 (rewrite lookup_insert_ne
            by (apply ne_by_length; rewrite ?length_app_s; simpl; lia)).
    apply lookup_insert_eq. }
  split; [|done].
  rewrite Enp. apply ne_by_length. rewrite ?length_app_s. simpl. lia.
Qed.

End Run.

(** ** The run as a whole *)

(** X4: with an export type of the menu, a source file in a directory, no
    file in the place of [migrations] or of the type folder, and a content
    that the extractor of the source's format reads, [migrate] returns.  The
    state it ends in is the one written out: the folders of the least free
    version, the copy of the source, one statement for each record in the
    output file, the five lines of the log, the label [File Published], the
    Migrate button disabled, and the calls in this order. *)
Theorem migrate_returns_when_extraction_does (P : Tool.platform)
    (file_extension filepath content : string) (f : Spec.format)
    (records : list (Spec.tabular_record P)) (w : world) :
  let d := PosixPath.dirname filepath in
  let name := PosixPath.basename filepath in
  let root := PosixPath.join d "migrations" in
  let T := PosixPath.join root (PyStr.tail file_extension) in
  file_extension = ".db" ∨ file_extension = ".sql" →
  fs w !! filepath = Some (File content) →
  fs w !! d = Some Dir →
  name ≠ "" →
  (∀ c, fs w !! root ≠ Some (File c)) →
  (∀ c, fs w !! T ≠ Some (File c)) →
  (∀ j rest, fs w !! PosixPath.join T (vname j) = None →
             fs w !! (PosixPath.join T (vname j) +:+ "/" +:+ rest) = None) →
  Spec.detect filepath = Some f →
  Spec.extract P f content = Ok records →
  ∃ j,
    1 ≤ j
    ∧ fs w !! PosixPath.join T (vname j) = None
    ∧ (∀ i, 1 ≤ i < j → is_Some (fs w !! PosixPath.join T (vname i)))
    ∧ let vp := PosixPath.join T (vname j) in
      let data := PosixPath.join vp "data" in
      let source := PosixPath.join vp "source" in
      let log := PosixPath.join vp "log" in
      let source_file_path := PosixPath.join source name in
      let new_file_path :=
        PosixPath.join data (fst (PosixPath.splitext name) +:+ "_migration" +:+ file_extension) in
      let log_file_path := PosixPath.join log "migration_log.txt" in
      let statements := List.map Spec.render records in
      let lines := log_lines P filepath source_file_path new_file_path in
      Tool.migrate P file_extension filepath w
      = (Ok tt,
         {| fs := <[log_file_path := File (PyStr.concat lines)]>
                    (<[new_file_path := File (PyStr.concat statements)]>
                       (<[source_file_path := File content]>
                          (<[log := Dir]> (<[source := Dir]> (<[data := Dir]> (<[vp := Dir]>
                             (<[T := Dir]> (<[root := Dir]> (fs w)))))))));
            file_label := "File Published";
            migrate_button := "disabled";
            trace := trace w
                     ++ [EvMakedirs root; EvMakedirs T; EvMakedirs vp; EvMakedirs data;
                         EvMakedirs source; EvMakedirs log; EvCopy filepath source_file_path]
                     ++ (EvCreate new_file_path :: List.map (EvWrite new_file_path) statements)
                     ++ (EvCreate log_file_path :: List.map (EvWrite log_file_path) lines) |}).
Proof.
  intros d name root T Hext Hfile Hd Hname Hroot HT Hwf Hdet Hx.
  destruct (migrate_start P file_extension filepath content w Hext Hfile Hd Hname Hroot HT Hwf)
    as (j & Hj & Hfree & Hprev & Hrun).
  exists j. split; [done|]. split; [done|]. split; [done|].
  cbv zeta in Hrun |- *. fold d name root T in Hrun.
  set (vp := PosixPath.join T (vname j)) in *.
  set (data := PosixPath.join vp "data") in *.
  set (source := PosixPath.join vp "source") in *.
  set (log := PosixPath.join vp "log") in *.
  set (sp := PosixPath.join source name) in *.
  set (np := PosixPath.join data _) in *.
  set (lp := PosixPath.join log "migration_log.txt") in *.
  set (f1 := <[sp := File content]> _) in *.
  destruct Hrun as (-> & Hf1 & Hnp & Hlp & Hdata & Hlog & Hnl & Hnf & Hlf & Hnlog & Dd & Dl & _).
  assert (plain "migration_log.txt") as Plf by (by apply plain_literal).
  assert (PyStr.contains PosixPath.sep file_extension = false) as Hse
    by (destruct Hext as [-> | ->]; done).
  unfold bind at 1.
  erewrite (dispatch_run P filepath np content f records); [|done|done|done|].
  2: { cbn [fs]. apply create_child; [done| |done|done]. by apply new_filename_plain. }
  unfold bind at 1.
  erewrite write_log_run.
  2: { unfold written at 1. cbn [fs]. apply create_child; [done|done| |].
       - by rewrite lookup_insert_ne.
       - by rewrite lookup_insert_ne. }
  unfold bind, Tool.set_file_label, Tool.set_migrate_button, written.
  cbn [fs file_label migrate_button trace]. f_equal. f_equal.
  by rewrite <- !app_assoc.
Qed.

(** X5: under the same conditions on the folders, and for every content
    and every name of the source: after the run the version folder is a
    directory, it holds a copy of the source, and the source is as it was.
    The log file is there, with its five lines, when the run has returned;
    when the run has raised there is no log file and the label and the
    button are as before. *)
Theorem migrate_log_marks_a_finished_run (P : Tool.platform)
    (file_extension filepath content : string) (w : world) :
  let d := PosixPath.dirname filepath in
  let name := PosixPath.basename filepath in
  let root := PosixPath.join d "migrations" in
  let T := PosixPath.join root (PyStr.tail file_extension) in
  file_extension = ".db" ∨ file_extension = ".sql" →
  fs w !! filepath = Some (File content) →
  fs w !! d = Some Dir →
  name ≠ "" →
  (∀ c, fs w !! root ≠ Some (File c)) →
  (∀ c, fs w !! T ≠ Some (File c)) →
  (∀ j rest, fs w !! PosixPath.join T (vname j) = None →
             fs w !! (PosixPath.join T (vname j) +:+ "/" +:+ rest) = None) →
  ∃ j,
    1 ≤ j
    ∧ fs w !! PosixPath.join T (vname j) = None
    ∧ let vp := PosixPath.join T (vname j) in
      let source_file_path := PosixPath.join (PosixPath.join vp "source") name in
      let new_file_path :=
        PosixPath.join (PosixPath.join vp "data")
          (fst (PosixPath.splitext name) +:+ "_migration" +:+ file_extension) in
      let log_file_path := PosixPath.join (PosixPath.join vp "log") "migration_log.txt" in
      let run := Tool.migrate P file_extension filepath w in
      fs (snd run) !! vp = Some Dir
      ∧ fs (snd run) !! source_file_path = Some (File content)
      ∧ fs (snd run) !! filepath = Some (File content)
      ∧ match fst run with
        | Ok _ =>
            fs (snd run) !! log_file_path
            = Some (File (PyStr.concat (log_lines P filepath source_file_path new_file_path)))
        | Raise _ =>
            fs (snd run) !! log_file_path = None
            ∧ file_label (snd run) = file_label w
            ∧ migrate_button (snd run) = migrate_button w
        end.
Proof.
  intros d name root T Hext Hfile Hd Hname Hroot HT Hwf.
  destruct (migrate_start P file_extension filepath content w Hext Hfile Hd Hname Hroot HT Hwf)
    as (j & Hj & Hfree & Hprev & Hrun).
  exists j. split; [done|]. split; [done|].
  cbv zeta in Hrun |- *. fold d name root T in Hrun.
  set (vp := PosixPath.join T (vname j)) in *.
  set (data := PosixPath.join vp "data") in *.
  set (source := PosixPath.join vp "source") in *.
  set (log := PosixPath.join vp "log") in *.
  set (sp := PosixPath.join source name) in *.
  set (np := PosixPath.join data _) in *.
  set (lp := PosixPath.join log "migration_log.txt") in *.
  set (f1 := <[sp := File content]> _) in *.
  destruct Hrun as (-> & Hf1 & Hnp & Hlp & Hdata & Hlog & Hnl & Hnf & Hlf & Hnlog & Dd & Dl
                    & Hvp & Hnv & Hns).
  assert (f1 !! sp = Some (File content)) as Hsp by apply lookup_insert_eq.
  assert (plain "migration_log.txt") as Plf by (by apply plain_literal).
  match goal with |- context [bind _ _ ?w0] => set (w1 := w0) end.
  destruct (Tool.dispatch P filepath np w1) as [r w2] eqn:Ed.
  pose proof (steps_dispatch _ _ _ _ _ _ Ed) as ((Hl & Hb) & _ & Ho).
  assert (∀ p, p ≠ np → fs w2 !! p = f1 !! p) as Hsame
    by (intros p Hp; rewrite Ho; [done | by intros <-]).
  destruct r as [[]|e].
  - assert (Os.create lp (fs w2) = Ok (<[lp := File ""]> (fs w2))) as Hc
      by (apply create_child; [done|done| |]; rewrite Hsame; done).
    assert (bind (Tool.dispatch P filepath np)
              (λ _, bind (Tool.write_log P log filepath sp np)
                      (λ _, bind (Tool.set_file_label "File Published")
                              (λ _, Tool.set_migrate_button "disabled"))) w1
            = (Ok tt, {| fs := <[lp := File (PyStr.concat (log_lines P filepath sp np))]> (fs w2);
                         file_label := "File Published"; migrate_button := "disabled";
                         trace := trace w2 ++ EvCreate lp
                                    :: List.map (EvWrite lp) (log_lines P filepath sp np) |}))
      as ->.
    { unfold bind at 1. rewrite Ed. unfold bind at 1. by erewrite write_log_run. }
    cbn [fst snd fs file_label migrate_button trace].
    assert (∀ p x, f1 !! p = Some x → p ≠ np → <[lp := File (PyStr.concat
              (log_lines P filepath sp np))]> (fs w2) !! p = Some x) as Hk.
    { intros p x Hp Hne. rewrite lookup_insert_ne by (intros <-; congruence).
      by rewrite Hsame. }
    split; [by apply Hk|]. split; [by apply Hk|]. split; [by apply Hk|].
    apply lookup_insert_eq.
  - assert (bind (Tool.dispatch P filepath np)
              (λ _, bind (Tool.write_log P log filepath sp np)
                      (λ _, bind (Tool.set_file_label "File Published")
                              (λ _, Tool.set_migrate_button "disabled"))) w1
            = (Raise e, w2)) as ->
      by (unfold bind at 1; by rewrite Ed).
    cbn [fst snd]. rewrite !Hsame by done. done.
Qed.

(** ** A file where a folder is to be made *)

Lemma makedirs_file_in_the_way (d b c : string) (w : world) :
  dir_like d → plain b → fs w !! d = Some Dir →
  fs w !! PosixPath.join d b = Some (File c) →
  Os.makedirs (PosixPath.join d b) w = (Raise FileExistsError, w).
Proof.
  intros Hd Hb Hfd Hf. unfold Os.makedirs.
  assert (Os.makedirs_rec (String.length (PosixPath.join d b)) (PosixPath.join d b) (fs w)
          = (Raise FileExistsError, fs w)) as ->.
  { destruct (String.length _); simpl; rewrite split_join by done;
      destruct Hb as [Hb0 Hb1]; rewrite decide_False by done;
      unfold Os.path_exists; rewrite Hfd;
      rewrite (bool_decide_true (is_Some (Some Dir))) by eauto;
      rewrite andb_false_r; unfold Os.mkdir, Os.isdir; rewrite Hf;
      by rewrite bool_decide_eq_false_2. }
  by destruct w.
Qed.

(** X3: when [migrations] is there and is not a directory, the first
    [os.makedirs] raises [FileExistsError] and [migrate] leaves everything as
    it was; when the type folder is there and is not a directory, the second
    one raises it, after the first call and with the same file system and
    widgets. *)
Theorem migrate_blocked_by_a_file (P : Tool.platform) (file_extension filepath : string)
    (w : world) :
  let root := PosixPath.join (PosixPath.dirname filepath) "migrations" in
  let type_folder_path := PosixPath.join root (PyStr.tail file_extension) in
  fs w !! PosixPath.dirname filepath = Some Dir →
  (is_Some (fs w !! root) → fs w !! root ≠ Some Dir →
   Tool.migrate P file_extension filepath w = (Raise FileExistsError, w))
  ∧ (plain (PyStr.tail file_extension) → fs w !! root = Some Dir →
     is_Some (fs w !! type_folder_path) → fs w !! type_folder_path ≠ Some Dir →
     Tool.migrate P file_extension filepath w
     = (Raise FileExistsError, log_event (EvMakedirs root) w)).
Proof.
  intros root T Hd.
  assert (plain "migrations") as Pm by (by apply plain_literal).
  assert (dir_like (PosixPath.dirname filepath)) as Dd by apply dirname_dir_like.
  split.
  - intros [[|c] Hr] Hnd; [done|].
    pose proof (makedirs_file_in_the_way _ _ c w Dd Pm Hd Hr) as Hm.
    unfold Tool.migrate, Tool.allocate, bind. by rewrite Hm.
  - intros Hpe Hr [[|c] Ht] Hnd; [done|].
    pose proof (makedirs_child _ "migrations" w Dd Pm Hd) as Hm1.
    fold root in Hm1. rewrite insert_id in Hm1 by done.
    specialize (Hm1 ltac:(intros c'; by rewrite Hr)).
    assert (set_fs (fs w) w = w) as Ew by (by destruct w). rewrite Ew in Hm1.
    pose proof (makedirs_file_in_the_way root _ c (log_event (EvMakedirs root) w)
                  ltac:(by apply join_dir_like) Hpe Hr Ht) as Hm2.
    unfold Tool.migrate, Tool.allocate. unfold bind at 1 2. fold root.
    rewrite Hm1. unfold bind. by rewrite Hm2.
Qed.

(** ** The record reader on text with nothing to quote *)





(** The end of a line, after a field has been saved. *)
Lemma feed_end_of_line (fs0 : list string) :
  Csv.feed_line (Csv.mkReader Csv.EAT_CRNL fs0 "" 0) ""
  = Ok (Csv.mkReader Csv.START_RECORD fs0 "" 0).
Proof. done. Qed.









(** ** A source the parser cannot read *)

Lemma dispatch_parse_failure (P : Tool.platform) (filepath p content : string)
    (f : Spec.format) (e : exn) (w : world) :
  Spec.detect filepath = Some f →
  fs w !! filepath = Some (File content) →
  parse_failure P f content = Some e →
  Tool.dispatch P filepath p w = (Raise e, w).
Proof.
  intros Hdet Hf Hp.
  assert (Tool.dispatch P filepath p
          = match f with
            | Spec.csv => Tool.migrate_csv filepath p
            | Spec.xlsx => Tool.migrate_excel P filepath p
            | Spec.json => Tool.migrate_json P filepath p
            | Spec.xml => Tool.migrate_xml P filepath p
            end) as ->.
  { unfold Spec.detect in Hdet. unfold Tool.dispatch.
    repeat match type of Hdet with (if ?c then _ else _) = _ => destruct c end;
      first [discriminate Hdet | by injection Hdet as <-]. }
  destruct f; simpl in Hp.
  - destruct (Csv.reader_rows content) as [rows|e'] eqn:E; [done|]. injection Hp as ->.
    unfold Tool.migrate_csv, bind, Os.read_file, lift. by rewrite Hf, E.
  - destruct (Tool.read_excel P content) as [df|e'] eqn:E; [done|]. injection Hp as ->.
    unfold Tool.migrate_excel, bind, Os.read_file, lift. by rewrite Hf, E.
  - destruct (Tool.json_load P _) as [data|e'] eqn:E; [done|]. injection Hp as ->.
    unfold Tool.migrate_json, bind, Os.read_file, lift. by rewrite Hf, E.
  - destruct (Tool.xml_parse P content) as [root|e'] eqn:E; [done|]. injection Hp as ->.
    unfold Tool.migrate_xml, bind, Os.read_file, lift. by rewrite Hf, E.
Qed.

(** X6: when the parser of the source's format raises on the content,
    [migrate] raises the same exception after the folders are made and the
    source is copied, and that is all it has done: the version folder has
    neither an output file nor a log file, and the widgets are as before. *)
Theorem migrate_unreadable_source (P : Tool.platform)
    (file_extension filepath content : string) (f : Spec.format) (e : exn) (w : world) :
  let d := PosixPath.dirname filepath in
  let name := PosixPath.basename filepath in
  let root := PosixPath.join d "migrations" in
  let T := PosixPath.join root (PyStr.tail file_extension) in
  file_extension = ".db" ∨ file_extension = ".sql" →
  fs w !! filepath = Some (File content) →
  fs w !! d = Some Dir →
  name ≠ "" →
  (∀ c, fs w !! root ≠ Some (File c)) →
  (∀ c, fs w !! T ≠ Some (File c)) →
  (∀ j rest, fs w !! PosixPath.join T (vname j) = None →
             fs w !! (PosixPath.join T (vname j) +:+ "/" +:+ rest) = None) →
  Spec.detect filepath = Some f →
  parse_failure P f content = Some e →
  ∃ j,
    1 ≤ j
    ∧ fs w !! PosixPath.join T (vname j) = None
    ∧ let vp := PosixPath.join T (vname j) in
      let data := PosixPath.join vp "data" in
      let source := PosixPath.join vp "source" in
      let log := PosixPath.join vp "log" in
      let source_file_path := PosixPath.join source name in
      let new_file_path :=
        PosixPath.join data (fst (PosixPath.splitext name) +:+ "_migration" +:+ file_extension) in
      let log_file_path := PosixPath.join log "migration_log.txt" in
      let f1 := <[source_file_path := File content]>
                  (<[log := Dir]> (<[source := Dir]> (<[data := Dir]> (<[vp := Dir]>
                     (<[T := Dir]> (<[root := Dir]> (fs w))))))) in
      Tool.migrate P file_extension filepath w
      = (Raise e,
         {| fs := f1; file_label := file_label w; migrate_button := migrate_button w;
            trace := trace w ++ [EvMakedirs root; EvMakedirs T; EvMakedirs vp;
                                 EvMakedirs data; EvMakedirs source; EvMakedirs log;
                                 EvCopy filepath source_file_path] |})
      ∧ f1 !! new_file_path = None
      ∧ f1 !! log_file_path = None.
Proof.
  intros d name root T Hext Hfile Hd Hname Hroot HT Hwf Hdet Hp.
  destruct (migrate_start P file_extension filepath content w Hext Hfile Hd Hname Hroot HT Hwf)
    as (j & Hj & Hfree & Hprev & Hrun).
  exists j. split; [done|]. split; [done|].
  cbv zeta in Hrun |- *. fold d name root T in Hrun.
  destruct Hrun as (-> & Hf1 & Hnp & Hlp & _).
  split; [|done]. unfold bind at 1.
  by erewrite (dispatch_parse_failure P filepath _ content f e).
Qed.

(** X2: the name of a version: [int(version_folder[1:])] reads its number
    back, the name of the next version is built from that number by
    [str] and [zfill(3)], and two numbers never have the same name, also
    from 1000 on, where a name has more than three digits. *)
Theorem version_name_round_trip (n : N) :
  PyStr.int_of_str (PyStr.tail (vname n)) = Some n
  ∧ vname (n + 1) = "v" +:+ PyStr.zfill 3 (PyStr.str_of_int (n + 1))
  ∧ ∀ m, vname n = vname m → n = m.
Proof.
  split; [|split].
  - rewrite vname_tail. apply int_of_str_zfill.
  - done.
  - intros m. apply vname_inj.
Qed.

(** ** The widgets after a run; the items of a document *)

(** X7: the label reads [File Published] and the Migrate button is
    disabled after every run of [migrate] that returns; a run that raises
    leaves the label and the button as they were. *)
Theorem migrate_published_only_on_return (P : Tool.platform)
    (file_extension filepath : string) (w : world) :
  let run := Tool.migrate P file_extension filepath w in
  match fst run with
  | Ok _ => file_label (snd run) = "File Published" ∧ migrate_button (snd run) = "disabled"
  | Raise _ => file_label (snd run) = file_label w
               ∧ migrate_button (snd run) = migrate_button w
  end.
Proof. apply migrate_widgets. Qed.

(** X14: for every document that [ET.parse] reads, [migrate_xml] returns
    and writes one statement for each [item] element below the root, at any
    depth and in document order; its columns and values are the tags and the
    texts of all the elements below the item. *)
Theorem migrate_xml_one_statement_per_item (P : Tool.platform)
    (filepath new_file_path content : string) (root : element) (w : world) (f1 : FS) :
  fs w !! filepath = Some (File content) →
  Tool.xml_parse P content = Ok root →
  Os.create new_file_path (fs w) = Ok f1 →
  Tool.migrate_xml P filepath new_file_path w
  = (Ok tt,
     {| fs := <[new_file_path :=
                  File (PyStr.concat (List.map xml_statement (find_items root)))]> (fs w);
        file_label := file_label w; migrate_button := migrate_button w;
        trace := trace w ++ EvCreate new_file_path
                   :: List.map (λ item, EvWrite new_file_path (xml_statement item))
                        (find_items root) |}).
Proof. apply migrate_xml_run. Qed.

(** ** The statements above at concrete inputs *)

(** X9 at two runs on the file of the scenario, one after the other. *)
Lemma later_run_takes_another_version_witness :
  let w := work_dir "a.csv" scenario_csv in
  let w1 := snd (Tool.migrate null_platform ".sql" "/work/a.csv" w) in
  fs w1 !! "/work/migrations/sql/v001" = Some Dir
  ∧ fs w1 !! "/work/migrations/sql/v002" = None
  ∧ "/work/migrations/sql/v002" ≠ "/work/migrations/sql/v001".
Proof.
  intros w w1.
  apply (later_run_takes_another_version null_platform ".sql" "/work/a.csv" ".sql" "/work/a.csv"
           w (fst (Tool.migrate null_platform ".sql" "/work/a.csv" w)) w1
           (snd (Tool.allocate ".sql" "/work/a.csv" w))
           (snd (Tool.allocate ".sql" "/work/a.csv" w1))
           (Tool.mkFolders "/work/migrations/sql/v001" "/work/migrations/sql/v001/data"
              "/work/migrations/sql/v001/source" "/work/migrations/sql/v001/log")
           (Tool.mkFolders "/work/migrations/sql/v002" "/work/migrations/sql/v002/data"
              "/work/migrations/sql/v002/source" "/work/migrations/sql/v002/log")).
  - vm_compute; reflexivity.
  - apply surjective_pairing.
  - vm_compute; reflexivity.
Defined.

(** X8 at the run of the scenario. *)
Lemma migrate_keeps_what_was_there_witness :
  fs (snd (Tool.migrate null_platform ".sql" "/work/a.csv" (work_dir "a.csv" scenario_csv)))
    !! "/work/a.csv" = Some (File scenario_csv).
Proof.
  apply (migrate_keeps_what_was_there null_platform ".sql" "/work/a.csv"
           (work_dir "a.csv" scenario_csv)).
  - intros j rest _. vm_compute. reflexivity.
  - vm_compute; reflexivity.
Defined.

(** X4 at the run of the scenario. *)
Lemma migrate_returns_when_extraction_does_witness :
  let run := Tool.migrate null_platform ".sql" "/work/a.csv" (work_dir "a.csv" scenario_csv) in
  ∃ j, 1 ≤ j ∧ fst run = Ok tt ∧ file_label (snd run) = "File Published".
Proof.
  pose proof (migrate_returns_when_extraction_does null_platform ".sql" "/work/a.csv"
                scenario_csv Spec.csv
                [(["id"; "name"], [Spec.Text "1"; Spec.Text "Ann"]);
                 (["id"; "name"], [Spec.Text "2"; Spec.Text "O'Brien"])]
                (work_dir "a.csv" scenario_csv)) as H.
  cbv zeta in H.
  specialize (H ltac:(by right)).
  specialize (H ltac:(vm_compute; reflexivity)).
  specialize (H ltac:(vm_compute; reflexivity)).
  specialize (H ltac:(discriminate)).
  specialize (H ltac:(intros c E; vm_compute in E; discriminate E)).
  specialize (H ltac:(intros c E; vm_compute in E; discriminate E)).
  specialize (H ltac:(intros j rest _; vm_compute; reflexivity)).
  specialize (H ltac:(vm_compute; reflexivity)).
  specialize (H ltac:(vm_compute; reflexivity)).
  destruct H as (j & Hj & _ & _ & Hrun).
  exists j. split; [exact Hj|]. cbv zeta. rewrite Hrun. split; reflexivity.
Defined.

(** X5 at a file [a.json] that the parser does not read: the run leaves no
    log file. *)
Lemma migrate_log_marks_a_finished_run_witness :
  let run := Tool.migrate null_platform ".sql" "/work/a.json" (work_dir "a.json" "{") in
  ∃ j, 1 ≤ j
       ∧ fs (snd run)
           !! PosixPath.join
                (PosixPath.join (PosixPath.join "/work/migrations/sql" (vname j)) "log")
                "migration_log.txt"
         = None.
Proof.
  pose proof (migrate_log_marks_a_finished_run null_platform ".sql" "/work/a.json" "{"
                (work_dir "a.json" "{")) as H.
  cbv zeta in H.
  specialize (H ltac:(by right)).
  specialize (H ltac:(vm_compute; reflexivity)).
  specialize (H ltac:(vm_compute; reflexivity)).
  specialize (H ltac:(discriminate)).
  specialize (H ltac:(intros c E; vm_compute in E; discriminate E)).
  specialize (H ltac:(intros c E; vm_compute in E; discriminate E)).
  specialize (H ltac:(intros j rest _; vm_compute; reflexivity)).
  destruct H as (j & Hj & _ & _ & _ & _ & Hm).
  exists j. split; [exact Hj|]. cbv zeta.
  assert (fst (Tool.migrate null_platform ".sql" "/work/a.json" (work_dir "a.json" "{"))
          = Raise ParseError) as E by (vm_compute; reflexivity).
  rewrite E in Hm. apply Hm.
Defined.

(** X3 at a directory with a file named [migrations]. *)
Lemma migrate_blocked_by_a_file_witness :
  Tool.migrate null_platform ".sql" "/work/a.csv" blocked_dir
  = (Raise FileExistsError, blocked_dir).
Proof.
  pose proof (migrate_blocked_by_a_file null_platform ".sql" "/work/a.csv" blocked_dir) as H.
  cbv zeta in H.
  specialize (H ltac:(vm_compute; reflexivity)).
  apply (proj1 H).
  - vm_compute. eauto.
  - vm_compute. discriminate.
Defined.

(** X12 at the array of an object, the number 7 and an object. *)
Lemma migrate_json_stops_at_non_object_witness :
  let P := json_platform (PyList [PyDict [("id", PyInt 1)]; PyInt 7; PyDict [("id", PyInt 2)]]) in
  let w := work_dir "a.json" "[]" in
  Tool.migrate_json P "/work/a.json" "/work/out.sql" w
  = (Raise AttributeError,
     {| fs := <["/work/out.sql" :=
                  File (PyStr.concat (List.map (json_statement P) [[("id", PyInt 1)]]))]> (fs w);
        file_label := file_label w; migrate_button := migrate_button w;
        trace := trace w ++ EvCreate "/work/out.sql"
                   :: List.map (λ kvs, EvWrite "/work/out.sql" (json_statement P kvs))
                        [[("id", PyInt 1)]] |}).
Proof.
  intros P w.
  apply (migrate_json_stops_at_non_object P "/work/a.json" "/work/out.sql" "[]"
           [[("id", PyInt 1)]] (PyInt 7) [PyDict [("id", PyInt 2)]] w
           (<["/work/out.sql" := File ""]> (fs w))).
  - vm_compute; reflexivity.
  - reflexivity.
  - intros kvs; discriminate.
  - vm_compute; reflexivity.
Defined.

(** X13 at a text that is one object and no array. *)
Lemma migrate_json_top_level_not_a_list_witness :
  let P := json_platform (PyDict [("id", PyInt 1); ("name", PyStr "Ann")]) in
  let w := work_dir "a.json" "{}" in
  Tool.migrate_json P "/work/a.json" "/work/out.sql" w
  = (Raise AttributeError,
     {| fs := <["/work/out.sql" := File ""]> (fs w);
        file_label := file_label w; migrate_button := migrate_button w;
        trace := trace w ++ [EvCreate "/work/out.sql"] |}).
Proof.
  intros P w.
  apply (migrate_json_top_level_not_a_list P "/work/a.json" "/work/out.sql" "{}"
           (PyDict [("id", PyInt 1); ("name", PyStr "Ann")]) w
           (<["/work/out.sql" := File ""]> (fs w))).
  - vm_compute; reflexivity.
  - reflexivity.
  - intros items; discriminate.
  - vm_compute; reflexivity.
Defined.

(** X14 at a document with an [item] inside an [item]. *)
Lemma migrate_xml_one_statement_per_item_witness :
  let P := xml_platform nested_items in
  let w := work_dir "a.xml" "<root/>" in
  Tool.migrate_xml P "/work/a.xml" "/work/out.sql" w
  = (Ok tt,
     {| fs := <["/work/out.sql" :=
                  File (PyStr.concat (List.map xml_statement (find_items nested_items)))]> (fs w);
        file_label := file_label w; migrate_button := migrate_button w;
        trace := trace w ++ EvCreate "/work/out.sql"
                   :: List.map (λ item, EvWrite "/work/out.sql" (xml_statement item))
                        (find_items nested_items) |}).
Proof.
  intros P w.
  apply (migrate_xml_one_statement_per_item P "/work/a.xml" "/work/out.sql" "<root/>"
           nested_items w (<["/work/out.sql" := File ""]> (fs w))).
  - vm_compute; reflexivity.
  - reflexivity.
  - vm_compute; reflexivity.
Defined.

(** X15 at the same document. *)
Lemma xml_nested_item_repeats_fields_witness :
  In inner_item (find_items nested_items)
  ∧ ∀ field, In field (descendants inner_item) → In field (descendants outer_item).
Proof.
  apply (xml_nested_item_repeats_fields nested_items outer_item inner_item).
  - vm_compute. by left.
  - vm_compute. right. by left.
  - reflexivity.
Defined.

(** X11 at a frame with the labels [name] and 2024 and one row. *)
Lemma migrate_excel_label_not_text_witness :
  let P := excel_platform [PyStr "name"; PyInt 2024] [["Ann"; "3"]] in
  let w := work_dir "a.xlsx" "" in
  Tool.migrate_excel P "/work/a.xlsx" "/work/out.sql" w
  = (Raise TypeError,
     {| fs := <["/work/out.sql" := File ""]> (fs w);
        file_label := file_label w; migrate_button := migrate_button w;
        trace := trace w ++ [EvCreate "/work/out.sql"] |}).
Proof.
  intros P w.
  apply (migrate_excel_label_not_text P "/work/a.xlsx" "/work/out.sql" ""
           [PyStr "name"; PyInt 2024] [["Ann"; "3"]] w
           (<["/work/out.sql" := File ""]> (fs w))).
  - vm_compute; reflexivity.
  - reflexivity.
  - right. left. intros s; discriminate.
  - vm_compute; reflexivity.
Defined.

(** X17 at a session: a file chosen, the QC check run, then Migrate and
    QC Check clicked and another file chosen. *)
Lemma traffic_light_stays_green_witness :
  let a := Gui.qc_check (Gui.load_file "/work/a.csv" (Gui.window (fs (work_dir "a.csv" scenario_csv)))) in
  let a' := Gui.load_file "/work/b.csv" (Gui.run null_platform [Gui.Migrate; Gui.QcCheck] a) in
  Gui.traffic_light a' = "green" ∧ migrate_button (Gui.app_world a') = "disabled".
Proof.
  intros a.
  apply (traffic_light_stays_green null_platform [Gui.Migrate; Gui.QcCheck] "/work/b.csv" a).
  reflexivity.
Defined.


(** X6 at a file [a.json] that holds an opening brace alone. *)
Lemma migrate_unreadable_source_witness :
  ∃ j, 1 ≤ j
       ∧ fst (Tool.migrate null_platform ".sql" "/work/a.json" (work_dir "a.json" "{"))
         = Raise ParseError.
Proof.
  pose proof (migrate_unreadable_source null_platform ".sql" "/work/a.json" "{"
                Spec.json ParseError (work_dir "a.json" "{")) as H.
  cbv zeta in H.
  specialize (H ltac:(by right)).
  specialize (H ltac:(vm_compute; reflexivity)).
  specialize (H ltac:(vm_compute; reflexivity)).
  specialize (H ltac:(discriminate)).
  specialize (H ltac:(intros c E; vm_compute in E; discriminate E)).
  specialize (H ltac:(intros c E; vm_compute in E; discriminate E)).
  specialize (H ltac:(intros j rest _; vm_compute; reflexivity)).
  specialize (H ltac:(vm_compute; reflexivity)).
  specialize (H ltac:(reflexivity)).
  destruct H as (j & Hj & _ & Hrun & _).
  exists j. split; [exact Hj|]. by rewrite Hrun.
Defined.
